(** * AppTerminado: a shallow embedding of the finance application's logic

    The development follows the TypeScript sources:

    - [context/AuthContext]    (hashPassword, signUp, signIn, signOut, the
                                redirect effect)
    - [app/_layout.tsx]        (the redirect effect of the root layout)
    - the welcome screen       (obtenerSaldoActual, procesarTransacciones,
                                cargarDatos, cargarCategorias,
                                agregarTransaccion, eliminarTransaccion, the
                                delete button of a row, the bars of the
                                chart, and their messages)
    - [app/screens/income.tsx] (initializeAuth, checkAuth, loadTransactions,
                                currentMonthIncomes, totalIncome,
                                incomesByCategory, handleAddIncome,
                                deleteTransaction, the cards of the header)
    - [app/utils/toast.ts]     (showToast, showSuccess, showError, showInfo)

    Conventions of the embedding.

    - Numbers are IEEE-754 binary64 values: the kernel's primitive floats,
      so [+], [-], [<], [<=] and [isNaN] are the operations the program
      runs.  [parseFloat] and [Number] round the decimal literal they read
      to the nearest binary64 value.
    - Strings are sequences of code units; the embedding covers the code
      units below 256 ([string] of [ascii]).  The text of messages is kept
      as the sources write it; nothing depends on its code units.
    - An asynchronous function is a function from the component's state and
      the world (the tables of the hosted store and the fate of the coming
      requests) to an outcome: a value or a thrown exception, the new state,
      the new world, and the events of the run in order (requests sent,
      toasts shown).  A state setter takes effect at once.  The two
      functions awaited together by [Promise.all] run one after the other;
      they touch different state variables.
    - Every awaited client call answers with data or with an error object;
      whether a call gets through is decided call by call by the world.
    - Not embedded: console output, timing, the order of rows asked for
      with [.order(...)] (rows come in table order), properties inherited
      from [Object.prototype], and the animation of the modal (only the
      state its callback sets). *)

From Stdlib Require Import ZArith Floats Uint63 String Ascii List Bool Lia.
From stdpp Require Import gmap strings list pretty.
Import ListNotations.

Local Open Scope string_scope.
Local Open Scope Z_scope.

(* ===================================================================== *)
(** * Part 1.  The JavaScript runtime the sources rely on                 *)
(* ===================================================================== *)

Module JS.

(** ** Numbers *)

Abbreviation number := float.

(** [redondear n d] is the binary64 value nearest to the rational [n / d]
    ([0 <= n], [0 < d]), ties to even: the rounding every numeric literal
    goes through. *)
Definition redondear (n d : Z) : number :=
  if n =? 0 then 0%float else
  let e0 := Z.log2 n - Z.log2 d - 52 in
  let escala (e : Z) := if 0 <=? e then (n, d * 2 ^ e) else (n * 2 ^ (- e), d) in
  let e1 := (let '(a, b) := escala e0 in if a / b <? 2 ^ 52 then e0 - 1 else e0) in
  let e := Z.max e1 (-1074) in
  let '(a, b) := escala e in
  let q := a / b in
  let r := a mod b in
  let q' := match 2 * r ?= b with
            | Lt => q
            | Gt => q + 1
            | Eq => if Z.even q then q else q + 1
            end in
  Z.ldexp (PrimFloat.of_uint63 (Uint63.of_Z q')) e.

Definition isNaN (x : number) : bool := PrimFloat.is_nan x.

(** ** Characters and strings *)

Definition charCode (c : ascii) : Z := Z.of_N (N_of_ascii c).

Definition esDigito (c : ascii) : bool := (48 <=? charCode c) && (charCode c <=? 57).

(** WhiteSpace and LineTerminator code units (TAB, LF, VT, FF, CR, SP, NBSP). *)
Definition esBlanco (c : ascii) : bool :=
  let n := charCode c in
  ((9 <=? n) && (n <=? 13)) || (n =? 32) || (n =? 160).

Fixpoint trimStart (s : string) : string :=
  match s with
  | String c r => if esBlanco c then trimStart r else s
  | EmptyString => EmptyString
  end.

Fixpoint invertir (s acc : string) : string :=
  match s with
  | String c r => invertir r (String c acc)
  | EmptyString => acc
  end.

Definition trimEnd (s : string) : string := invertir (trimStart (invertir s "")) "".

(** [s.trim()] *)
Definition trim (s : string) : string := trimEnd (trimStart s).

(** A string is falsy exactly when it is empty. *)
Definition vacia (s : string) : bool :=
  match s with EmptyString => true | _ => false end.

(** [s.replace(/[^...]/g, '')] for a character class given by [clase]. *)
Fixpoint conservar (clase : ascii -> bool) (s : string) : string :=
  match s with
  | String c r => if clase c then String c (conservar clase r) else conservar clase r
  | EmptyString => EmptyString
  end.

(** Longest prefix made of characters of [clase], and what follows it. *)
Fixpoint prefijo (clase : ascii -> bool) (s : string) : list ascii * string :=
  match s with
  | String c r =>
      if clase c then let '(ds, r') := prefijo clase r in (c :: ds, r') else ([], s)
  | EmptyString => ([], EmptyString)
  end.

(** ** Numeric literals: [parseFloat] and [Number] *)

Definition valorDigito (c : ascii) : Z :=
  let n := charCode c in
  if esDigito c then n - 48
  else if (97 <=? n) && (n <=? 102) then n - 87
  else if (65 <=? n) && (n <=? 70) then n - 55
  else 0.

Definition valorEnBase (base : Z) (ds : list ascii) : Z :=
  fold_left (fun acc c => acc * base + valorDigito c) ds 0.

(** The mathematical value of a StrDecimalLiteral:
    [(-1)^negativo * mantisa * 10^exponente], or an infinity. *)
Record Literal := {
  negativo : bool;
  infinito : bool;
  mantisa : Z;
  exponente : Z
}.

Definition aNumero (l : Literal) : number :=
  let x := if infinito l then infinity
           else if 0 <=? exponente l
                then redondear (mantisa l * 10 ^ exponente l) 1
                else redondear (mantisa l) (10 ^ (- exponente l)) in
  if negativo l then (- x)%float else x.

Definition signo (s : string) : bool * string :=
  match s with
  | String "-" r => (true, r)
  | String "+" r => (false, r)
  | _ => (false, s)
  end.

(** ExponentPart, when one follows: [e] or [E], an optional sign and at
    least one digit.  Otherwise nothing is consumed. *)
Definition parteExponente (s : string) : Z * string :=
  match s with
  | String c r =>
      if (charCode c =? 101) || (charCode c =? 69) then
        let '(neg, r1) := signo r in
        match prefijo esDigito r1 with
        | ([], _) => (0, s)
        | (ds, r2) => (if neg then - valorEnBase 10 ds else valorEnBase 10 ds, r2)
        end
      else (0, s)
  | EmptyString => (0, s)
  end.

(** Longest prefix of [s] that is a StrUnsignedDecimalLiteral. *)
Definition sinSigno (neg : bool) (s : string) : option (Literal * string) :=
  if String.prefix "Infinity" s then
    Some ({| negativo := neg; infinito := true; mantisa := 0; exponente := 0 |},
          String.substring 8 (String.length s - 8) s)
  else
    let '(ent, r1) := prefijo esDigito s in
    let conFraccion (frac : list ascii) (r : string) :=
      let '(e, r') := parteExponente r in
      Some ({| negativo := neg; infinito := false;
               mantisa := valorEnBase 10 (ent ++ frac);
               exponente := e - Z.of_nat (List.length frac) |}, r') in
    match r1 with
    | String "." r2 =>
        let '(frac, r3) := prefijo esDigito r2 in
        match ent, frac with
        | [], [] => None
        | _, _ => conFraccion frac r3
        end
    | _ => match ent with
           | [] => None
           | _ => conFraccion [] r1
           end
    end.

(** Longest prefix of [s] that is a StrDecimalLiteral. *)
Definition strDecimalLiteral (s : string) : option (Literal * string) :=
  let '(neg, r) := signo s in sinSigno neg r.

(** [parseFloat(s)] *)
Definition parseFloat (s : string) : number :=
  match strDecimalLiteral (trimStart s) with
  | Some (l, _) => aNumero l
  | None => nan
  end.

Definition esBinario (c : ascii) : bool := (charCode c =? 48) || (charCode c =? 49).
Definition esOctal (c : ascii) : bool := (48 <=? charCode c) && (charCode c <=? 55).
Definition esHex (c : ascii) : bool :=
  let n := charCode c in
  esDigito c || ((97 <=? n) && (n <=? 102)) || ((65 <=? n) && (n <=? 70)).

(** NonDecimalIntegerLiteral: [0b], [0o] or [0x] and digits up to the end. *)
Definition noDecimal (s : string) : option number :=
  match s with
  | String "0" (String p r) =>
      let leer (base : Z) (clase : ascii -> bool) :=
        match prefijo clase r with
        | ((_ :: _) as ds, EmptyString) => Some (redondear (valorEnBase base ds) 1)
        | _ => None
        end in
      let n := charCode p in
      if (n =? 98) || (n =? 66) then leer 2 esBinario
      else if (n =? 111) || (n =? 79) then leer 8 esOctal
      else if (n =? 120) || (n =? 88) then leer 16 esHex
      else None
  | _ => None
  end.

(** [Number(s)] on a string (StringToNumber): the whole trimmed string has to
    be a numeric literal; the empty string is [0]. *)
Definition Number (s : string) : number :=
  let t := trim s in
  if vacia t then 0%float else
  match noDecimal t with
  | Some v => v
  | None =>
      match strDecimalLiteral t with
      | Some (l, EmptyString) => aNumero l
      | _ => nan
      end
  end.

(** ** Integers, hexadecimal text and UTF-8 *)

(** ToInt32: what [<<] and [&] make of their operands. *)
Definition toInt32 (z : Z) : Z := (z + 2 ^ 31) mod 2 ^ 32 - 2 ^ 31.

Definition digitoHex (d : Z) : ascii :=
  ascii_of_N (Z.to_N (if d <? 10 then 48 + d else 87 + d)).

Fixpoint hexDigitos (fuel : nat) (n : Z) (acc : string) : string :=
  match fuel with
  | O => acc
  | S f =>
      let acc' := String (digitoHex (n mod 16)) acc in
      if n / 16 =? 0 then acc' else hexDigitos f (n / 16) acc'
  end.

(** [n.toString(16)] for an integer [0 <= n]. *)
Definition toString16 (n : Z) : string :=
  hexDigitos (S (Z.to_nat (Z.log2 n))) n "".

Fixpoint repetir (k : nat) (c : ascii) (s : string) : string :=
  match k with
  | O => s
  | S k' => String c (repetir k' c s)
  end.

(** [s.padStart(len, c)] *)
Definition padStart (len : nat) (c : ascii) (s : string) : string :=
  repetir (len - String.length s) c s.

Definition byteDe (n : Z) : Byte.byte :=
  match Byte.of_N (Z.to_N n) with
  | Some b => b
  | None => Byte.x00
  end.

Definition valorByte (b : Byte.byte) : Z := Z.of_N (Byte.to_N b).

(** [new TextEncoder().encode(s)]: the UTF-8 bytes of [s]. *)
Fixpoint utf8 (s : string) : list Byte.byte :=
  match s with
  | String c r =>
      let n := charCode c in
      if n <? 128 then byteDe n :: utf8 r
      else byteDe (192 + n / 64) :: byteDe (128 + n mod 64) :: utf8 r
  | EmptyString => []
  end.

(** The line feed written [\n] in the sources. *)
Definition LF : string := String (ascii_of_N 10) EmptyString.

Fixpoint join (ss : list string) : string :=
  match ss with
  | s :: r => String.append s (join r)
  | [] => ""
  end.

(** ** Dates

    A Date holds a time value: milliseconds since the epoch, or NaN
    ([None]).  [getMonth] and [getFullYear] read it in local time. *)

Definition msPerDay : Z := 86400000.

Definition Day (t : Z) : Z := t / msPerDay.

(** Year, month (0..11) and day of month of a day number. *)
Definition fechaCivil (dia : Z) : Z * Z * Z :=
  let z := dia + 719468 in
  let era := z / 146097 in
  let doe := z - era * 146097 in
  let yoe := (doe - doe / 1460 + doe / 36524 - doe / 146096) / 365 in
  let doy := doe - (365 * yoe + yoe / 4 - yoe / 100) in
  let mp := (5 * doy + 2) / 153 in
  let d := doy - (153 * mp + 2) / 5 + 1 in
  let m := if mp <? 10 then mp + 3 else mp - 9 in
  let y := yoe + era * 400 + (if m <=? 2 then 1 else 0) in
  (y, m - 1, d).

Definition YearFromTime (t : Z) : Z := fst (fst (fechaCivil (Day t))).
Definition MonthFromTime (t : Z) : Z := snd (fst (fechaCivil (Day t))).

(** MakeDay for a year, a month 1..12 and a day of month. *)
Definition diaDesdeCivil (y m d : Z) : Z :=
  let y' := if m <=? 2 then y - 1 else y in
  let era := y' / 400 in
  let yoe := y' - era * 400 in
  let doy := (153 * (if 2 <? m then m - 3 else m + 9) + 2) / 5 + d - 1 in
  let doe := yoe * 365 + yoe / 4 - yoe / 100 + doy in
  era * 146097 + doe - 719468.

(** What the Date built-ins depend on outside the program: how a string
    is read into a time value ([Date.parse], NaN as [None]) and the offset
    of local time at a given instant. *)
Record Fechas := {
  dateParse : string -> option Z;
  localTZA : Z -> Z
}.

Definition LocalTime (F : Fechas) (t : Z) : Z := t + localTZA F t.

(** [d.getMonth()] and [d.getFullYear()] for a Date of time value [tv]. *)
Definition getMonth (F : Fechas) (tv : option Z) : option Z :=
  option_map (fun t => MonthFromTime (LocalTime F t)) tv.

Definition getFullYear (F : Fechas) (tv : option Z) : option Z :=
  option_map (fun t => YearFromTime (LocalTime F t)) tv.

(** [a === b] on two month numbers, NaN never being equal to anything. *)
Definition igualEstricto (a b : option Z) : bool :=
  match a, b with
  | Some x, Some y => x =? y
  | _, _ => false
  end.

Definition numeroEn (s : string) (desde largo : nat) : option Z :=
  let t := String.substring desde largo s in
  match prefijo esDigito t with
  | (ds, EmptyString) =>
      if Nat.eqb (List.length ds) largo then Some (valorEnBase 10 ds) else None
  | _ => None
  end.

(** The date-time format [toISOString] writes, [YYYY-MM-DDTHH:mm:ss.sssZ];
    any other string is an invalid date here. *)
Definition parseISO (s : string) : option Z :=
  if negb (Nat.eqb (String.length s) 24) then None else
  if negb (String.eqb (String.substring 4 1 s) "-" && String.eqb (String.substring 7 1 s) "-"
           && String.eqb (String.substring 10 1 s) "T" && String.eqb (String.substring 13 1 s) ":"
           && String.eqb (String.substring 16 1 s) ":" && String.eqb (String.substring 19 1 s) "."
           && String.eqb (String.substring 23 1 s) "Z") then None else
  match numeroEn s 0 4, numeroEn s 5 2, numeroEn s 8 2,
        numeroEn s 11 2, numeroEn s 14 2, numeroEn s 17 2, numeroEn s 20 3 with
  | Some y, Some m, Some d, Some hh, Some mi, Some ss, Some ms =>
      if (1 <=? m) && (m <=? 12) && (1 <=? d)
         && (d <=? diaDesdeCivil (if m =? 12 then y + 1 else y) (if m =? 12 then 1 else m + 1) 1
                    - diaDesdeCivil y m 1)
         && (hh <=? 23) && (mi <=? 59) && (ss <=? 59)
      then Some (diaDesdeCivil y m d * msPerDay + hh * 3600000 + mi * 60000 + ss * 1000 + ms)
      else None
  | _, _, _, _, _, _, _ => None
  end.

(** A device whose local time is UTC and which reads ISO date-times. *)
Definition fechasUTC : Fechas := {| dateParse := parseISO; localTZA := fun _ => 0 |}.

End JS.

(* ===================================================================== *)
(** * Part 2.  The hosted store and the effects of the application        *)
(* ===================================================================== *)

Module Supabase.
Import JS.

(** ** Rows *)

Record PostgrestError := { message : string; code : string }.

(** [Usuario] (imported by the sources from the client module): the fields
    the sources read and write. *)
Record Usuario := {
  u_id : Z;
  nombre : string;
  apellido : string;
  usuario : string;
  gmail : string;
  contrasena : string
}.

Record Billetera := { b_usuario_id : Z; b_saldo : number }.

Record Categoria := { c_id : Z; c_nombre : string; c_tipo : string }.

(** [TransaccionConCategoria]: a row of [transacciones] together with the
    category row its [categoria_id] refers to, as the embedded select of
    [cargarDatos] returns it.  [tipo] is whatever text the store holds. *)
Record TransaccionConCategoria := {
  t_id : Z;
  usuario_id : Z;
  categoria_id : Z;
  monto : number;
  tipo : string;
  fecha : string;
  descripcion : option string;
  categorias : Categoria
}.

(** [Transaction] of the income screen (table [transactions]). *)
Record Transaction := {
  tx_id : string;
  user_id : string;
  type_ : string;
  amount : number;
  category : string;
  description : option string;
  date : string;
  is_recurring : bool;
  recurring_frequency : option string;
  status : string
}.

Record Session := { session_user_id : string }.

(** ** The tables *)

Record Remoto := {
  tabla_usuarios : list Usuario;
  tabla_billetera : list Billetera;
  tabla_transacciones : list TransaccionConCategoria;
  tabla_categorias : list Categoria;
  tabla_transactions : list Transaction;
  sesion : option Session;
  siguiente_id : Z;          (* the next generated key *)
  reloj : string             (* the store's clock, as a timestamp text *)
}.

Definition conUsuarios (us : list Usuario) (db : Remoto) : Remoto :=
  {| tabla_usuarios := us; tabla_billetera := tabla_billetera db;
     tabla_transacciones := tabla_transacciones db; tabla_categorias := tabla_categorias db;
     tabla_transactions := tabla_transactions db; sesion := sesion db;
     siguiente_id := siguiente_id db; reloj := reloj db |}.

Definition conBilletera (bs : list Billetera) (db : Remoto) : Remoto :=
  {| tabla_usuarios := tabla_usuarios db; tabla_billetera := bs;
     tabla_transacciones := tabla_transacciones db; tabla_categorias := tabla_categorias db;
     tabla_transactions := tabla_transactions db; sesion := sesion db;
     siguiente_id := siguiente_id db; reloj := reloj db |}.

Definition conTransacciones (ts : list TransaccionConCategoria) (db : Remoto) : Remoto :=
  {| tabla_usuarios := tabla_usuarios db; tabla_billetera := tabla_billetera db;
     tabla_transacciones := ts; tabla_categorias := tabla_categorias db;
     tabla_transactions := tabla_transactions db; sesion := sesion db;
     siguiente_id := siguiente_id db; reloj := reloj db |}.

Definition conTransactions (ts : list Transaction) (db : Remoto) : Remoto :=
  {| tabla_usuarios := tabla_usuarios db; tabla_billetera := tabla_billetera db;
     tabla_transacciones := tabla_transacciones db; tabla_categorias := tabla_categorias db;
     tabla_transactions := ts; sesion := sesion db;
     siguiente_id := siguiente_id db; reloj := reloj db |}.

Definition conSiguiente (db : Remoto) : Remoto :=
  {| tabla_usuarios := tabla_usuarios db; tabla_billetera := tabla_billetera db;
     tabla_transacciones := tabla_transacciones db; tabla_categorias := tabla_categorias db;
     tabla_transactions := tabla_transactions db; sesion := sesion db;
     siguiente_id := siguiente_id db + 1; reloj := reloj db |}.

(** ** Requests and their answers *)

(** Every awaited client call resolves to data or to an error object. *)
Inductive Respuesta (A : Type) : Type :=
| Datos (data : A)
| Fallo (error : PostgrestError).
Arguments Datos {A} data.
Arguments Fallo {A} error.

Record NuevoUsuario := {
  nu_nombre : string; nu_apellido : string; nu_usuario : string;
  nu_gmail : string; nu_contrasena : string
}.

Record NuevoIngreso := {
  ni_user_id : string; ni_type : string; ni_amount : number; ni_category : string;
  ni_description : option string; ni_date : string; ni_is_recurring : bool;
  ni_recurring_frequency : option string; ni_status : string
}.

(** The requests the sources send, one constructor per call site shape. *)
Inductive Peticion : Type :=
| InsertUsuario (fila : NuevoUsuario)                      (* insert([..]).select().single() *)
| InsertBilletera (usuario_id : Z) (saldo : number)
| DeleteUsuario (id : Z)                                   (* delete().eq('id', id) *)
| SelectUsuarioPorGmail (gmail : string)                   (* select('*').eq('gmail', g).single() *)
| UpdateContrasena (id : Z) (contrasena : string)          (* update({contrasena}).eq('id', id) *)
| SelectTransaccionesDe (usuario_id : option Z)            (* select('*').eq('usuario_id', u) *)
| SelectTransaccionesConCategorias (usuario_id : option Z) (* ... .order('fecha', desc) *)
| SelectCategorias                                         (* select('*').order('nombre') *)
| SelectTransaccion (id usuario_id : Z)                    (* .eq('id').eq('usuario_id').single() *)
| RpcCrearTransaccion (p_usuario_id : option Z) (p_categoria_id : Z) (p_monto : number)
                      (p_tipo : string) (p_descripcion : option string)
| RpcEliminarTransaccion (p_usuario_id p_transaccion_id : Z)
| GetSession                                               (* auth.getSession() *)
| SelectIngresos (user_id : string)                        (* .eq('user_id').eq('type','income') *)
| InsertTransaction (fila : NuevoIngreso)                  (* insert([..]).select() *)
| DeleteTransaction (id : string).                         (* delete().eq('id', id) *)

Definition errorSingle : PostgrestError :=
  {| message := "JSON object requested, multiple (or no) rows returned"; code := "PGRST116" |}.

Definition errorIdentificador : PostgrestError :=
  {| message := "invalid input syntax"; code := "22P02" |}.

(** [.single()]: exactly one row, or an error. *)
Definition single {A : Type} (filas : list A) : Respuesta A :=
  match filas with
  | [fila] => Datos fila
  | _ => Fallo errorSingle
  end.

(** What a request does to the tables when the store carries it out. *)

Definition hacerInsertUsuario (n : NuevoUsuario) (db : Remoto) : Respuesta Usuario * Remoto :=
  let fila := {| u_id := siguiente_id db; nombre := nu_nombre n; apellido := nu_apellido n;
                 usuario := nu_usuario n; gmail := nu_gmail n; contrasena := nu_contrasena n |} in
  (Datos fila, conSiguiente (conUsuarios (tabla_usuarios db ++ [fila]) db)).

Definition hacerInsertBilletera (uid : Z) (s : number) (db : Remoto) : Respuesta unit * Remoto :=
  (Datos tt, conBilletera (tabla_billetera db ++ [{| b_usuario_id := uid; b_saldo := s |}]) db).

Definition hacerDeleteUsuario (id : Z) (db : Remoto) : Respuesta unit * Remoto :=
  (Datos tt, conUsuarios (List.filter (fun u => negb (u_id u =? id)) (tabla_usuarios db)) db).

Definition hacerSelectUsuarioPorGmail (g : string) (db : Remoto) : Respuesta Usuario * Remoto :=
  (single (List.filter (fun u => String.eqb (gmail u) g) (tabla_usuarios db)), db).

Definition cambiarContrasena (c : string) (u : Usuario) : Usuario :=
  {| u_id := u_id u; nombre := nombre u; apellido := apellido u; usuario := usuario u;
     gmail := gmail u; contrasena := c |}.

Definition hacerUpdateContrasena (id : Z) (c : string) (db : Remoto) : Respuesta unit * Remoto :=
  (Datos tt,
   conUsuarios (List.map (fun u => if u_id u =? id then cambiarContrasena c u else u)
                         (tabla_usuarios db)) db).

(** A filter on an undefined identifier is answered with the
    malformed-identifier error. *)
Definition hacerSelectTransacciones (uid : option Z) (db : Remoto)
  : Respuesta (list TransaccionConCategoria) * Remoto :=
  match uid with
  | Some u => (Datos (List.filter (fun t => usuario_id t =? u) (tabla_transacciones db)), db)
  | None => (Fallo errorIdentificador, db)
  end.

Definition hacerSelectCategorias (db : Remoto) : Respuesta (list Categoria) * Remoto :=
  (Datos (tabla_categorias db), db).

Definition hacerSelectTransaccion (id uid : Z) (db : Remoto)
  : Respuesta TransaccionConCategoria * Remoto :=
  (single (List.filter (fun t => (t_id t =? id) && (usuario_id t =? uid)) (tabla_transacciones db)),
   db).

(** Modelled from the spec: the stored procedure [crear_transaccion], whose
    body is owned by the store; it atomically creates a transaction for a
    user, category, amount, kind and description. *)
Definition hacerCrearTransaccion (uid : option Z) (cid : Z) (m : number) (t : string)
    (d : option string) (db : Remoto) : Respuesta unit * Remoto :=
  match uid, List.find (fun c => c_id c =? cid) (tabla_categorias db) with
  | Some u, Some c =>
      let fila := {| t_id := siguiente_id db; usuario_id := u; categoria_id := cid; monto := m;
                     tipo := t; fecha := reloj db; descripcion := d; categorias := c |} in
      (Datos tt, conSiguiente (conTransacciones (tabla_transacciones db ++ [fila]) db))
  | _, _ => (Fallo errorIdentificador, db)
  end.

(** Modelled from the spec: the stored procedure [eliminar_transaccion]; it
    atomically deletes a transaction by id scoped to a user id. *)
Definition hacerEliminarTransaccion (uid tid : Z) (db : Remoto) : Respuesta unit * Remoto :=
  (Datos tt,
   conTransacciones
     (List.filter (fun t => negb ((t_id t =? tid) && (usuario_id t =? uid))) (tabla_transacciones db))
     db).

Definition hacerGetSession (db : Remoto) : Respuesta (option Session) * Remoto :=
  (Datos (sesion db), db).

Definition hacerSelectIngresos (uid : string) (db : Remoto)
  : Respuesta (list Transaction) * Remoto :=
  (Datos (List.filter (fun t => String.eqb (user_id t) uid && String.eqb (type_ t) "income")
                      (tabla_transactions db)), db).

Definition hacerInsertTransaction (n : NuevoIngreso) (db : Remoto)
  : Respuesta (list Transaction) * Remoto :=
  let fila := {| tx_id := pretty (siguiente_id db); user_id := ni_user_id n; type_ := ni_type n;
                 amount := ni_amount n; category := ni_category n;
                 description := ni_description n; date := ni_date n;
                 is_recurring := ni_is_recurring n;
                 recurring_frequency := ni_recurring_frequency n; status := ni_status n |} in
  (Datos [fila], conSiguiente (conTransactions (tabla_transactions db ++ [fila]) db)).

Definition hacerDeleteTransaction (id : string) (db : Remoto) : Respuesta unit * Remoto :=
  (Datos tt,
   conTransactions (List.filter (fun t => negb (String.eqb (tx_id t) id)) (tabla_transactions db)) db).

(** ** The world outside the component

    [guion] settles, call by call, whether the store can be reached: the
    n-th entry is [Some e] when the n-th request of the run comes back with
    the error [e] without touching the tables, and [None] (or no entry) when
    the store carries the request out. *)
Record Mundo := {
  remoto : Remoto;
  guion : list (option PostgrestError)
}.

(** The next request reaches the store. *)
Definition atendida (g : list (option PostgrestError)) : bool :=
  match g with
  | Some _ :: _ => false
  | _ => true
  end.

(** ** What the application shows *)

(** A text with numbers formatted by [toFixed(2)] left in place. *)
Inductive Trozo : Type :=
| Lit (s : string)
| ToFixed2 (x : number).

Definition Texto := list Trozo.

Inductive ToastType := toastSuccess | toastError | toastInfo.

(** The argument of [Toast.show]. *)
Record ToastParams := {
  type : ToastType;
  text1 : string;
  text2 : option Texto;
  visibilityTime : Z;
  autoHide : bool;
  topOffset : Z;
  position : string
}.

Inductive Evento : Type :=
| EvPeticion (p : Peticion)
| EvToast (t : ToastParams).

(** ** The monad of asynchronous functions *)

Inductive Excepcion : Type :=
| JsError (message : string)          (* new Error(message) *)
| Rechazo (error : PostgrestError)    (* an error object of the store, thrown *)
| ErrorDeEjecucion.                   (* raised by the runtime itself *)

Inductive Resultado (A : Type) : Type :=
| Ok (a : A)
| Lanza (e : Excepcion).
Arguments Ok {A} a.
Arguments Lanza {A} e.

Record Salida (S A : Type) := {
  res : Resultado A;
  est : S;
  mun : Mundo;
  evs : list Evento
}.
Arguments res {S A} s.
Arguments est {S A} s.
Arguments mun {S A} s.
Arguments evs {S A} s.

Definition M (S A : Type) : Type := S -> Mundo -> Salida S A.

Definition ret {S A : Type} (a : A) : M S A :=
  fun s w => {| res := Ok a; est := s; mun := w; evs := [] |}.

(** The outcome [o], after the events [e]. *)
Definition anteponer {S A : Type} (e : list Evento) (o : Salida S A) : Salida S A :=
  let '{| res := r; est := s; mun := w; evs := e' |} := o in
  {| res := r; est := s; mun := w; evs := e ++ e' |}.

Definition bind {S A B : Type} (m : M S A) (k : A -> M S B) : M S B :=
  fun s w =>
    let '{| res := r; est := s'; mun := w'; evs := e |} := m s w in
    match r with
    | Ok a => anteponer e (k a s' w')
    | Lanza x => {| res := Lanza x; est := s'; mun := w'; evs := e |}
    end.

Definition lanzar {S A : Type} (e : Excepcion) : M S A :=
  fun s w => {| res := Lanza e; est := s; mun := w; evs := [] |}.

(** [try { m } catch (e) { h e }] *)
Definition tryCatch {S A : Type} (m : M S A) (h : Excepcion -> M S A) : M S A :=
  fun s w =>
    let '{| res := r; est := s'; mun := w'; evs := e |} := m s w in
    match r with
    | Ok a => {| res := Ok a; est := s'; mun := w'; evs := e |}
    | Lanza x => anteponer e (h x s' w')
    end.

(** [try { m } finally { f }]: [f] runs either way; the outcome of [m]
    stands unless [f] throws. *)
Definition tryFinally {S A : Type} (m : M S A) (f : M S unit) : M S A :=
  fun s w =>
    let '{| res := r; est := s'; mun := w'; evs := e |} := m s w in
    let '{| res := r'; est := s''; mun := w''; evs := e' |} := f s' w' in
    {| res := match r' with Ok _ => r | Lanza x => Lanza x end;
       est := s''; mun := w''; evs := e ++ e' |}.

Definition emitir {S : Type} (e : Evento) : M S unit :=
  fun s w => {| res := Ok tt; est := s; mun := w; evs := [e] |}.

Definition modificar {S : Type} (f : S -> S) : M S unit :=
  fun s w => {| res := Ok tt; est := f s; mun := w; evs := [] |}.

(** One awaited request: the script decides whether it reaches the store. *)
Definition pedir {S A : Type} (p : Peticion) (hacer : Remoto -> Respuesta A * Remoto)
  : M S (Respuesta A) :=
  fun s w =>
    match guion w with
    | Some e :: g =>
        {| res := Ok (Fallo e); est := s; mun := {| remoto := remoto w; guion := g |};
           evs := [EvPeticion p] |}
    | g =>
        let '(r, db) := hacer (remoto w) in
        {| res := Ok r; est := s; mun := {| remoto := db; guion := List.tl g |};
           evs := [EvPeticion p] |}
    end.

End Supabase.

Declare Scope efecto_scope.
Delimit Scope efecto_scope with efecto.
Notation "x <- m ;; k" := (Supabase.bind m (fun x => k))
  (at level 100, m at next level, right associativity) : efecto_scope.
Notation "m ;; k" := (Supabase.bind m (fun _ => k))
  (at level 100, right associativity) : efecto_scope.
Local Open Scope efecto_scope.

(* ===================================================================== *)
(** * Part 3.  app/utils/toast.ts                                         *)
(* ===================================================================== *)

Module Toast.
Import Supabase.

(** The object [showToast] hands to [Toast.show]. *)
Definition params (type : ToastType) (text1 : string) (text2 : option Texto) : ToastParams :=
  {| type := type; text1 := text1; text2 := text2;
     visibilityTime := 3000; autoHide := true; topOffset := 30; position := "top" |}.

Definition showToast {S : Type} (type : ToastType) (text1 : string) (text2 : option Texto)
  : M S unit :=
  emitir (EvToast (params type text1 text2)).

Definition showSuccess {S : Type} (title : string) (message : option Texto) : M S unit :=
  showToast toastSuccess title message.

Definition showError {S : Type} (title : string) (message : option Texto) : M S unit :=
  showToast toastError title message.

Definition showInfo {S : Type} (title : string) (message : option Texto) : M S unit :=
  showToast toastInfo title message.

End Toast.

(* ===================================================================== *)
(** * Part 4.  context/AuthContext: hashing, registration and login       *)
(* ===================================================================== *)

Module AuthContext.
Import JS Supabase.

(** The provider's state. *)
Record AuthState := { user : option Usuario; loading : bool }.

Definition setUser (u : option Usuario) : M AuthState unit :=
  modificar (fun s => {| user := u; loading := loading s |}).

(** What the device offers for SHA-256.  [subtle] is [None] when
    [typeof crypto !== 'undefined' && crypto.subtle] is false; otherwise it
    is the digest function, whose answer is [None] when the encoding or the
    digest throws.  The same bytes always get the same answer. *)
Record Cripto := {
  subtle : option (list Byte.byte -> option (list Byte.byte))
}.

(** [Array.from(new Uint8Array(hash)).map(b => b.toString(16).padStart(2,'0')).join('')] *)
Definition hexDe (hash : list Byte.byte) : string :=
  join (List.map (fun b => padStart 2 "0" (toString16 (valorByte b))) hash).

(** The SHA-256 computation of [hashPassword] and of the legacy check of
    [signIn]: encode, digest, write in hexadecimal. *)
Definition sha256Hex (digest : list Byte.byte -> option (list Byte.byte)) (password : string)
  : option string :=
  option_map hexDe (digest (utf8 password)).

(** One round of the fallback loop:
    [hash = ((hash << 5) - hash) + char; hash = hash & hash]. *)
Definition pasoHash (hash : Z) (c : ascii) : Z :=
  toInt32 ((toInt32 (hash * 32) - hash) + charCode c).

(** The fallback of [hashPassword], used when [crypto.subtle] is missing
    and in its [catch]. *)
Definition hashSimple (password : string) : string :=
  let hash := fold_left pasoHash (list_ascii_of_string password) 0 in
  padStart 8 "0" (toString16 (Z.abs hash)).

Definition hashPassword (C : Cripto) (password : string) : string :=
  match subtle C with
  | Some digest =>
      match sha256Hex digest password with
      | Some h => h
      | None => hashSimple password
      end
  | None => hashSimple password
  end.

Definition signUp (C : Cripto) (nombre apellido usuario gmail contrasena : string)
  : M AuthState unit :=
  tryCatch
    (let hashedPassword := hashPassword C contrasena in
     let fila := {| nu_nombre := nombre; nu_apellido := apellido; nu_usuario := usuario;
                    nu_gmail := gmail; nu_contrasena := hashedPassword |} in
     r <- pedir (InsertUsuario fila) (hacerInsertUsuario fila) ;;
     match r with
     | Fallo userError => lanzar (Rechazo userError)
     | Datos userData =>
         r2 <- pedir (InsertBilletera (u_id userData) 0%float)
                     (hacerInsertBilletera (u_id userData) 0%float) ;;
         match r2 with
         | Fallo walletError =>
             (* the answer of the delete is not looked at *)
             _ <- pedir (DeleteUsuario (u_id userData)) (hacerDeleteUsuario (u_id userData)) ;;
             lanzar (Rechazo walletError)
         | Datos _ => setUser (Some userData)
         end
     end)
    (fun error => lanzar error).

Definition credencialesIncorrectas : Excepcion := JsError "Credenciales incorrectas".

(** The inner [try] of [signIn]; [true] stands for its [return]. *)
Definition metodoAntiguo (C : Cripto) (user : Usuario) (contrasena newHashedPassword : string)
  : M AuthState bool :=
  tryCatch
    (match subtle C with
     | None => lanzar ErrorDeEjecucion
     | Some digest =>
         match sha256Hex digest contrasena with
         | None => lanzar ErrorDeEjecucion
         | Some oldHashedPassword =>
             if String.eqb (Supabase.contrasena user) oldHashedPassword then
               r <- pedir (UpdateContrasena (u_id user) newHashedPassword)
                          (hacerUpdateContrasena (u_id user) newHashedPassword) ;;
               match r with
               | Datos _ => setUser (Some user) ;; ret true
               | Fallo updateError => ret false
               end
             else ret false
         end
     end)
    (fun hashError => ret false).

Definition signIn (C : Cripto) (gmail contrasena : string) : M AuthState unit :=
  tryCatch
    (r <- pedir (SelectUsuarioPorGmail gmail) (hacerSelectUsuarioPorGmail gmail) ;;
     match r with
     | Fallo userError => lanzar credencialesIncorrectas
     | Datos user =>
         let newHashedPassword := hashPassword C contrasena in
         if String.eqb (Supabase.contrasena user) newHashedPassword then
           setUser (Some user)
         else
           aceptado <- metodoAntiguo C user contrasena newHashedPassword ;;
           if aceptado : bool then ret tt else lanzar credencialesIncorrectas
     end)
    (fun error => lanzar error).

Definition signOut : M AuthState unit := setUser None.

End AuthContext.

(* ===================================================================== *)
(** * Part 5.  The welcome screen: balance, breakdown, create and delete  *)
(* ===================================================================== *)

Module Welcome.
Import JS Supabase Toast.

Inductive TipoTransaccion := ingreso | egreso.

Definition textoTipo (t : TipoTransaccion) : string :=
  match t with ingreso => "ingreso" | egreso => "egreso" end.

Record Dato := { categoria : string; d_monto : number; color : string }.

(** The component's state variables. *)
Record Estado := {
  modalVisible : bool;
  monto : string;
  descripcion : string;
  tipoSeleccionado : TipoTransaccion;
  categoriaSeleccionada : option Categoria;
  categorias : list Categoria;
  transacciones : list TransaccionConCategoria;
  saldo : number;
  loading : bool;
  loadingDatos : bool;
  datosIngresos : list Dato;
  datosEgresos : list Dato
}.

(** ** Plain objects used as dictionaries of numbers

    Own string keys in creation order; [Object.entries] lists the keys that
    are array indices first, in ascending order.  Properties inherited from
    [Object.prototype] are not part of the embedding. *)
Definition Objeto := list (string * number).

Fixpoint obtener (o : Objeto) (k : string) : option number :=
  match o with
  | (k', v) :: r => if String.eqb k' k then Some v else obtener r k
  | [] => None
  end.

Fixpoint asignar (o : Objeto) (k : string) (v : number) : Objeto :=
  match o with
  | (k', v') :: r => if String.eqb k' k then (k', v) :: r else (k', v') :: asignar r k v
  | [] => [(k, v)]
  end.

Definition esIndice (k : string) : bool :=
  match prefijo esDigito k with
  | (d :: ds, EmptyString) =>
      (negb (charCode d =? 48) || Nat.eqb (List.length ds) 0)
      && (valorEnBase 10 (d :: ds) <=? 4294967294)
  | _ => false
  end.

Fixpoint insertarIndice (e : string * number) (l : list (string * number))
  : list (string * number) :=
  match l with
  | e' :: r =>
      if valorEnBase 10 (list_ascii_of_string (fst e))
         <=? valorEnBase 10 (list_ascii_of_string (fst e'))
      then e :: l else e' :: insertarIndice e r
  | [] => [e]
  end.

Definition entries (o : Objeto) : list (string * number) :=
  fold_right insertarIndice [] (List.filter (fun e => esIndice (fst e)) o)
  ++ List.filter (fun e => negb (esIndice (fst e))) o.

(** [x || 0] on a number or undefined: zero, NaN and undefined give [0]. *)
Definition oCero (x : option number) : number :=
  match x with
  | Some v => if PrimFloat.eqb v 0 || isNaN v then 0%float else v
  | None => 0%float
  end.

(** ** Messages *)

Inductive TipoMensaje := success | error | warning.

(** Whatever the title and the kind, an info toast titled "Información". *)
Definition mostrarMensaje {S : Type} (titulo : string) (mensaje : Texto) (tipo : TipoMensaje)
  : M S unit :=
  showInfo "Información" (Some mensaje).

Definition mostrarRecomendacionesSaldoNegativo {S : Type} (saldoActual : number) : M S unit :=
  showInfo "Recomendaciones"
    (Some [Lit "Para mejorar tu situación financiera, considera:"; Lit LF;
           Lit "1. Reducir gastos no esenciales"; Lit LF;
           Lit "2. Buscar fuentes adicionales de ingreso"; Lit LF;
           Lit "3. Crear un presupuesto mensual"; Lit LF;
           Lit "4. Establecer metas de ahorro"]).

(** The text of the overdraft warning. *)
Definition textoAdvertencia (monto saldo : number) : Texto :=
  [Lit "El gasto excede tu saldo actual:"; Lit LF; Lit LF;
   Lit "Monto del gasto: $"; ToFixed2 monto; Lit LF;
   Lit "Saldo actual: $"; ToFixed2 saldo; Lit LF; Lit LF;
   Lit "¿Desea continuar? Tu saldo quedará en negativo."].

(** The promise is resolved with [true] right after the toast is shown. *)
Definition mostrarAdvertenciaSaldoNegativo {S : Type} (monto saldo : number) : M S bool :=
  showInfo "Advertencia de Saldo" (Some (textoAdvertencia monto saldo)) ;;
  ret true.

Definition confirmarEliminacion {S : Type} (monto : number) : M S bool :=
  showInfo "¿Eliminar transacción?"
    (Some [Lit "Estás a punto de eliminar una transacción por: $"; ToFixed2 monto;
           Lit LF; Lit LF; Lit "Esta acción no se puede deshacer"]) ;;
  ret true.

(** ** The category breakdown *)

Definition acumular (porCategoria : Objeto) (categoria : string) (monto : number) : Objeto :=
  asignar porCategoria categoria (oCero (obtener porCategoria categoria) + monto)%float.

(** The two dictionaries [procesarTransacciones] fills in its [forEach]. *)
Definition porCategoria (transacciones : list TransaccionConCategoria) : Objeto * Objeto :=
  fold_left
    (fun '(ingresosPorCategoria, egresosPorCategoria) transaccion =>
       let categoria := c_nombre (Supabase.categorias transaccion) in
       let monto := Supabase.monto transaccion in
       if String.eqb (tipo transaccion) "ingreso"
       then (acumular ingresosPorCategoria categoria monto, egresosPorCategoria)
       else (ingresosPorCategoria, acumular egresosPorCategoria categoria monto))
    transacciones ([], []).

Definition coloresIngresos : list string :=
  ["#4CAF50"; "#81C784"; "#A5D6A7"; "#C8E6C9"; "#E8F5E9"].
Definition coloresEgresos : list string :=
  ["#FF6B6B"; "#FF8A8A"; "#FFA9A9"; "#FFC8C8"; "#FFE7E7"].

Definition aDatos (colores : list string) (o : Objeto) : list Dato :=
  imap (fun index '(categoria, monto) =>
          {| categoria := categoria; d_monto := monto;
             color := nth (index mod List.length colores)%nat colores "" |})
       (entries o).

(** [procesarTransacciones]: the values it passes to [setDatosIngresos]
    and [setDatosEgresos]. *)
Definition procesarTransacciones (transacciones : list TransaccionConCategoria)
  : list Dato * list Dato :=
  let '(ingresosPorCategoria, egresosPorCategoria) := porCategoria transacciones in
  (aDatos coloresIngresos ingresosPorCategoria, aDatos coloresEgresos egresosPorCategoria).

(** ** State updates *)

Definition setSaldo (x : number) : M Estado unit :=
  modificar (fun s =>
    {| modalVisible := modalVisible s; monto := monto s; descripcion := descripcion s;
       tipoSeleccionado := tipoSeleccionado s; categoriaSeleccionada := categoriaSeleccionada s;
       categorias := categorias s; transacciones := transacciones s; saldo := x;
       loading := loading s; loadingDatos := loadingDatos s;
       datosIngresos := datosIngresos s; datosEgresos := datosEgresos s |}).

Definition setLoading (b : bool) : M Estado unit :=
  modificar (fun s =>
    {| modalVisible := modalVisible s; monto := monto s; descripcion := descripcion s;
       tipoSeleccionado := tipoSeleccionado s; categoriaSeleccionada := categoriaSeleccionada s;
       categorias := categorias s; transacciones := transacciones s; saldo := saldo s;
       loading := b; loadingDatos := loadingDatos s;
       datosIngresos := datosIngresos s; datosEgresos := datosEgresos s |}).

Definition setLoadingDatos (b : bool) : M Estado unit :=
  modificar (fun s =>
    {| modalVisible := modalVisible s; monto := monto s; descripcion := descripcion s;
       tipoSeleccionado := tipoSeleccionado s; categoriaSeleccionada := categoriaSeleccionada s;
       categorias := categorias s; transacciones := transacciones s; saldo := saldo s;
       loading := loading s; loadingDatos := b;
       datosIngresos := datosIngresos s; datosEgresos := datosEgresos s |}).

Definition setCategorias (cs : list Categoria) : M Estado unit :=
  modificar (fun s =>
    {| modalVisible := modalVisible s; monto := monto s; descripcion := descripcion s;
       tipoSeleccionado := tipoSeleccionado s; categoriaSeleccionada := categoriaSeleccionada s;
       categorias := cs; transacciones := transacciones s; saldo := saldo s;
       loading := loading s; loadingDatos := loadingDatos s;
       datosIngresos := datosIngresos s; datosEgresos := datosEgresos s |}).

(** [setTransacciones], followed by the effect that depends on
    [transacciones] and runs [procesarTransacciones]. *)
Definition setTransacciones (ts : list TransaccionConCategoria) : M Estado unit :=
  modificar (fun s =>
    {| modalVisible := modalVisible s; monto := monto s; descripcion := descripcion s;
       tipoSeleccionado := tipoSeleccionado s; categoriaSeleccionada := categoriaSeleccionada s;
       categorias := categorias s; transacciones := ts; saldo := saldo s;
       loading := loading s; loadingDatos := loadingDatos s;
       datosIngresos := fst (procesarTransacciones ts);
       datosEgresos := snd (procesarTransacciones ts) |}).

(** [handleCloseModal]: what the callback of the closing animation sets. *)
Definition handleCloseModal : M Estado unit :=
  modificar (fun s =>
    {| modalVisible := false; monto := ""; descripcion := "";
       tipoSeleccionado := ingreso; categoriaSeleccionada := None;
       categorias := categorias s; transacciones := transacciones s; saldo := saldo s;
       loading := loading s; loadingDatos := loadingDatos s;
       datosIngresos := datosIngresos s; datosEgresos := datosEgresos s |}).

Definition leer {S : Type} : M S S :=
  fun s w => {| res := Ok s; est := s; mun := w; evs := [] |}.

(** ** Reading the store *)

Definition cargarDatos (user : option Usuario) : M Estado unit :=
  tryFinally
    (tryCatch
       (setLoadingDatos true ;;
        r <- pedir (SelectTransaccionesConCategorias (option_map u_id user))
                   (hacerSelectTransacciones (option_map u_id user)) ;;
        match r with
        | Fallo transaccionesError => lanzar (Rechazo transaccionesError)
        | Datos transacciones =>
            setTransacciones transacciones ;;
            r2 <- pedir SelectCategorias hacerSelectCategorias ;;
            match r2 with
            | Fallo categoriasError => lanzar (Rechazo categoriasError)
            | Datos categoriasData => setCategorias categoriasData
            end
        end)
       (fun _ => mostrarMensaje "Error" [Lit "No se pudieron cargar los datos"] error))
    (setLoadingDatos false).

(** The reducer of [obtenerSaldoActual] and its fold from [0]. *)
Definition paso (acc : number) (trans : TransaccionConCategoria) : number :=
  if String.eqb (tipo trans) "ingreso"
  then (acc + Supabase.monto trans)%float
  else (acc - Supabase.monto trans)%float.

Definition nuevoSaldo (transacciones : list TransaccionConCategoria) : number :=
  fold_left paso transacciones 0%float.

Definition obtenerSaldoActual (user : option Usuario) : M Estado unit :=
  tryCatch
    (r <- pedir (SelectTransaccionesDe (option_map u_id user))
                (hacerSelectTransacciones (option_map u_id user)) ;;
     match r with
     | Fallo _ => ret tt
     | Datos transacciones =>
         let nuevoSaldo := nuevoSaldo transacciones in
         setSaldo nuevoSaldo ;;
         if PrimFloat.ltb nuevoSaldo 0
         then mostrarRecomendacionesSaldoNegativo nuevoSaldo
         else ret tt
     end)
    (fun _ => ret tt).

(** ** Creating a transaction *)

Definition agregarTransaccion (user : option Usuario) : M Estado unit :=
  c <- leer ;;
  match categoriaSeleccionada c with
  | Some categoriaSeleccionada =>
      if vacia (monto c) then
        mostrarMensaje "Error" [Lit "Por favor ingresa el monto y selecciona una categoría"]
                       error
      else if isNaN (Number (monto c)) || PrimFloat.leb (Number (monto c)) 0 then
        mostrarMensaje "Error" [Lit "Por favor ingresa un monto válido"] error
      else
        let montoNumerico := Number (monto c) in
        let tipoSeleccionado := tipoSeleccionado c in
        let saldo := saldo c in
        tryFinally
          (tryCatch
             (setLoading true ;;
              seguir <-
                (match tipoSeleccionado with
                 | egreso =>
                     if PrimFloat.ltb saldo montoNumerico then
                       handleCloseModal ;;
                       confirmado <- mostrarAdvertenciaSaldoNegativo montoNumerico saldo ;;
                       if confirmado : bool then ret true else setLoading false ;; ret false
                     else handleCloseModal ;; ret true
                 | ingreso => handleCloseModal ;; ret true
                 end) ;;
              if seguir : bool then
                r <- pedir (RpcCrearTransaccion (option_map u_id user) (c_id categoriaSeleccionada)
                              montoNumerico (textoTipo tipoSeleccionado)
                              (if vacia (descripcion c) then None else Some (descripcion c)))
                           (hacerCrearTransaccion (option_map u_id user) (c_id categoriaSeleccionada)
                              montoNumerico (textoTipo tipoSeleccionado)
                              (if vacia (descripcion c) then None else Some (descripcion c))) ;;
                match r with
                | Fallo transaccionError => lanzar (Rechazo transaccionError)
                | Datos _ =>
                    cargarDatos user ;;
                    obtenerSaldoActual user ;;
                    mostrarMensaje "¡Éxito!"
                      [Lit (match tipoSeleccionado with ingreso => "Ingreso" | egreso => "Gasto" end);
                       Lit " agregado correctamente"] success
                end
              else ret tt)
             (fun _ =>
                mostrarMensaje "Error"
                  [Lit "No se pudo agregar el ";
                   Lit (match tipoSeleccionado with ingreso => "ingreso" | egreso => "gasto" end)]
                  error))
          (setLoading false)
  | None =>
      mostrarMensaje "Error" [Lit "Por favor ingresa el monto y selecciona una categoría"]
                     error
  end.

(** ** Deleting a transaction *)

Definition eliminarTransaccion (user : option Usuario) (usuarioId transaccionId : Z)
    (monto : number) : M Estado unit :=
  tryFinally
    (tryCatch
       (setLoading true ;;
        r <- pedir (SelectTransaccion transaccionId usuarioId)
                   (hacerSelectTransaccion transaccionId usuarioId) ;;
        match r with
        | Fallo checkError =>
            mostrarMensaje "Error de permisos"
              [Lit "No tienes permiso para eliminar esta transacción"] error
        | Datos transaccion =>
            r2 <- pedir (RpcEliminarTransaccion usuarioId transaccionId)
                        (hacerEliminarTransaccion usuarioId transaccionId) ;;
            match r2 with
            | Fallo _ =>
                mostrarMensaje "Error"
                  [Lit "No se pudo eliminar la transacción. Intenta nuevamente."] error
            | Datos _ =>
                cargarDatos user ;;
                obtenerSaldoActual user ;;
                mostrarMensaje "¡Éxito!"
                  [Lit "La transacción ha sido eliminada correctamente"] success
            end
        end)
       (fun _ =>
          mostrarMensaje "Error" [Lit "Ocurrió un error al eliminar la transacción"]
                         error))
    (setLoading false).

End Welcome.

(* ===================================================================== *)
(** * Part 6.  app/screens/income.tsx                                     *)
(* ===================================================================== *)

Module Income.
Import JS Supabase Toast.

Record Estado := {
  transactions : list Transaction;
  modalVisible : bool;
  amount : string;
  category : string;
  description : string;
  loading : bool;
  isAuthenticated : bool
}.

Definition setTransactions (ts : list Transaction) : M Estado unit :=
  modificar (fun s =>
    {| transactions := ts; modalVisible := modalVisible s; amount := amount s;
       category := category s; description := description s; loading := loading s;
       isAuthenticated := isAuthenticated s |}).

Definition setModalVisible (b : bool) : M Estado unit :=
  modificar (fun s =>
    {| transactions := transactions s; modalVisible := b; amount := amount s;
       category := category s; description := description s; loading := loading s;
       isAuthenticated := isAuthenticated s |}).

Definition setLoading (b : bool) : M Estado unit :=
  modificar (fun s =>
    {| transactions := transactions s; modalVisible := modalVisible s; amount := amount s;
       category := category s; description := description s; loading := b;
       isAuthenticated := isAuthenticated s |}).

Definition setIsAuthenticated (b : bool) : M Estado unit :=
  modificar (fun s =>
    {| transactions := transactions s; modalVisible := modalVisible s; amount := amount s;
       category := category s; description := description s; loading := loading s;
       isAuthenticated := b |}).

Definition resetForm : M Estado unit :=
  modificar (fun s =>
    {| transactions := transactions s; modalVisible := modalVisible s; amount := "";
       category := ""; description := ""; loading := loading s;
       isAuthenticated := isAuthenticated s |}).

Definition leer : M Estado Estado :=
  fun s w => {| res := Ok s; est := s; mun := w; evs := [] |}.

(** [error.code] and [error.message] of a caught value. *)
Definition codigoDe (e : Excepcion) : option string :=
  match e with Rechazo p => Some (code p) | _ => None end.

Definition mensajeDe (e : Excepcion) : option string :=
  match e with
  | JsError m => Some m
  | Rechazo p => Some (message p)
  | ErrorDeEjecucion => None
  end.

Definition loadTransactions : M Estado unit :=
  tryCatch
    (r <- pedir GetSession hacerGetSession ;;
     match (match r with Datos session => session | Fallo _ => None end) with
     | None => setIsAuthenticated false
     | Some session =>
         r2 <- pedir (SelectIngresos (session_user_id session))
                     (hacerSelectIngresos (session_user_id session)) ;;
         match r2 with
         | Fallo loadError =>
             if String.eqb (code loadError) "22P02" then setTransactions []
             else showError "Error"
                    (Some [Lit "No se pudieron cargar los ingresos: "; Lit (message loadError)])
         | Datos data => setTransactions data
         end
     end)
    (fun error =>
       match codigoDe error with
       | Some "22P02" => setTransactions []
       | _ => showError "Error"
                (Some [Lit "Error al cargar las transacciones: ";
                       Lit (default "undefined" (mensajeDe error))])
       end).

(** ** Values derived at each render

    [F] reads dates as the device does and [ahora] is the time value of
    [new Date()] at the render. *)

(** The predicate of the filter:
    [t.type === 'income' && new Date(t.date).getMonth() === new Date().getMonth()]. *)
Definition esDelMes (F : Fechas) (ahora : Z) (t : Transaction) : bool :=
  String.eqb (type_ t) "income"
  && igualEstricto (getMonth F (dateParse F (date t))) (getMonth F (Some ahora)).

Definition currentMonthIncomes (F : Fechas) (ahora : Z) (transactions : list Transaction)
  : list Transaction :=
  List.filter (esDelMes F ahora) transactions.

Definition totalIncome (transactions : list Transaction) : number :=
  fold_left (fun sum t => (sum + Supabase.amount t)%float) transactions 0%float.

(** A number is truthy unless it is zero or NaN. *)
Definition verdadero (x : number) : bool := negb (PrimFloat.eqb x 0 || isNaN x).

Definition incomesByCategory (currentMonthIncomes : list Transaction) : gmap string number :=
  fold_left
    (fun (categories : gmap string number) income =>
       match categories !! Supabase.category income with
       | Some v =>
           if verdadero v
           then <[Supabase.category income := (v + Supabase.amount income)%float]> categories
           else <[Supabase.category income := Supabase.amount income]> categories
       | None => <[Supabase.category income := Supabase.amount income]> categories
       end)
    currentMonthIncomes ∅.

(** ** Adding an income *)

Definition esNumerico (c : ascii) : bool := esDigito c || (charCode c =? 46).

(** [now] is [new Date().toISOString()] at the time of the call. *)
Definition handleAddIncome (now : string) : M Estado unit :=
  c <- leer ;;
  if negb (isAuthenticated c) then
    showError "Error de Autenticación" (Some [Lit "Por favor inicia sesión para agregar ingresos"])
  else if vacia (trim (amount c)) then
    showError "Error" (Some [Lit "Por favor ingresa un monto"])
  else
    let numericAmount := parseFloat (conservar esNumerico (amount c)) in
    if isNaN numericAmount || PrimFloat.leb numericAmount 0 then
      showError "Error" (Some [Lit "El monto debe ser un número válido mayor a 0"])
    else if vacia (category c) then
      showError "Error" (Some [Lit "Por favor selecciona una categoría"])
    else
      tryFinally
        (tryCatch
           (setLoading true ;;
            r <- pedir GetSession hacerGetSession ;;
            match r with
            | Datos (Some session) =>
                let newIncome :=
                  {| ni_user_id := session_user_id session; ni_type := "income";
                     ni_amount := numericAmount; ni_category := category c;
                     ni_description := (if vacia (trim (description c)) then None
                                        else Some (trim (description c)));
                     ni_date := now; ni_is_recurring := false;
                     ni_recurring_frequency := None; ni_status := "completed" |} in
                r2 <- pedir (InsertTransaction newIncome) (hacerInsertTransaction newIncome) ;;
                match r2 with
                | Fallo error =>
                    if String.eqb (code error) "42P01" then
                      showError "Error"
                        (Some [Lit "La tabla de transacciones no existe. Por favor contacta al administrador."])
                    else
                      showError "Error"
                        (Some [Lit "No se pudo guardar el ingreso: "; Lit (message error)])
                | Datos data =>
                    loadTransactions ;;
                    setModalVisible false ;;
                    resetForm ;;
                    showSuccess "Éxito" (Some [Lit "Ingreso guardado correctamente"])
                end
            | _ => showError "Error" (Some [Lit "Por favor inicia sesión nuevamente"])
            end)
           (fun error =>
              showError "Error"
                (Some [Lit "Ocurrió un error inesperado: ";
                       Lit (match mensajeDe error with
                            | Some m => if vacia m then "Por favor intenta nuevamente" else m
                            | None => "Por favor intenta nuevamente"
                            end)])))
        (setLoading false).

Definition deleteTransaction (id : string) : M Estado unit :=
  tryCatch
    (r <- pedir (DeleteTransaction id) (hacerDeleteTransaction id) ;;
     match r with
     | Fallo error => showError "Error" (Some [Lit "No se pudo eliminar el ingreso"])
     | Datos _ =>
         loadTransactions ;;
         showSuccess "Éxito" (Some [Lit "Transacción eliminada correctamente"])
     end)
    (fun error => showError "Error" (option_map (fun m => [Lit m]) (mensajeDe error))).

End Income.

(* ===================================================================== *)
(** * Part 7.  Two devices                                                *)
(* ===================================================================== *)

(** SHA-256 (FIPS 180-4) on bytes, for a device on which
    [crypto.subtle.digest('SHA-256', data)] exists. *)
Module Sha256.
Import JS.

Definition w32 (x : Z) : Z := x mod 2 ^ 32.

Definition rotr (n x : Z) : Z := Z.lor (Z.shiftr x n) (w32 (Z.shiftl x (32 - n))).

Definition sigma0 (x : Z) : Z := Z.lxor (Z.lxor (rotr 7 x) (rotr 18 x)) (Z.shiftr x 3).
Definition sigma1 (x : Z) : Z := Z.lxor (Z.lxor (rotr 17 x) (rotr 19 x)) (Z.shiftr x 10).
Definition Sigma0 (x : Z) : Z := Z.lxor (Z.lxor (rotr 2 x) (rotr 13 x)) (rotr 22 x).
Definition Sigma1 (x : Z) : Z := Z.lxor (Z.lxor (rotr 6 x) (rotr 11 x)) (rotr 25 x).
Definition Ch (x y z : Z) : Z := Z.lxor (Z.land x y) (Z.land (Z.lxor x (2 ^ 32 - 1)) z).
Definition Maj (x y z : Z) : Z := Z.lxor (Z.lxor (Z.land x y) (Z.land x z)) (Z.land y z).

(** The first primes, by trial division. *)
Fixpoint primosDesde (fuel : nat) (cuantos : nat) (n : Z) (hallados : list Z) : list Z :=
  match fuel, cuantos with
  | _, O => hallados
  | O, _ => hallados
  | S f, S c =>
      if forallb (fun p => negb (n mod p =? 0)) hallados
      then primosDesde f c (n + 1) (hallados ++ [n])
      else primosDesde f cuantos (n + 1) hallados
  end.

Definition primos (k : nat) : list Z := primosDesde 400 k 2 [].

(** Largest [r] below [2^bits] with [r^3 <= n]. *)
Fixpoint raizCubica (bits : nat) (n r : Z) : Z :=
  match bits with
  | O => r
  | S b =>
      let r' := r + 2 ^ Z.of_nat b in
      raizCubica b n (if r' * r' * r' <=? n then r' else r)
  end.

(** The round constants: the first 32 bits of the fractional parts of the
    cube roots of the first 64 primes. *)
Definition K : list Z :=
  Eval vm_compute in List.map (fun p => w32 (raizCubica 40 (p * 2 ^ 96) 0)) (primos 64).

(** The initial hash value: the same for the square roots of the first 8. *)
Definition H0 : list Z :=
  Eval vm_compute in List.map (fun p => w32 (Z.sqrt (p * 2 ^ 64))) (primos 8).

Fixpoint bigEndian (k : nat) (x : Z) : list Z :=
  match k with
  | O => []
  | S k' => (x / 256 ^ Z.of_nat k') mod 256 :: bigEndian k' x
  end.

(** The message, one bit set, zeros and the length in bits: a multiple of
    64 bytes. *)
Definition rellenar (m : list Z) : list Z :=
  let l := Z.of_nat (List.length m) in
  m ++ [128] ++ List.repeat 0 (Z.to_nat ((55 - l) mod 64)) ++ bigEndian 8 (8 * l).

Fixpoint palabras (fuel : nat) (bs : list Z) : list Z :=
  match fuel, bs with
  | S f, b0 :: b1 :: b2 :: b3 :: r =>
      (((b0 * 256 + b1) * 256 + b2) * 256 + b3) :: palabras f r
  | _, _ => []
  end.

(** The message schedule, most recent word first. *)
Fixpoint extender (k : nat) (w : list Z) : list Z :=
  match k with
  | O => w
  | S k' =>
      extender k'
        (w32 (sigma1 (nth 1 w 0) + nth 6 w 0 + sigma0 (nth 14 w 0) + nth 15 w 0) :: w)
  end.

Definition ronda (s : list Z) (kw : Z * Z) : list Z :=
  match s with
  | [a; b; c; d; e; f; g; h] =>
      let t1 := h + Sigma1 e + Ch e f g + fst kw + snd kw in
      let t2 := Sigma0 a + Maj a b c in
      [w32 (t1 + t2); a; b; c; w32 (d + t1); e; f; g]
  | _ => s
  end.

Definition comprimir (h : list Z) (bloque : list Z) : list Z :=
  let w := List.rev (extender 48 (List.rev bloque)) in
  let s := fold_left ronda (combine K w) h in
  List.map (fun p => w32 (fst p + snd p)) (combine h s).

Fixpoint bloques (fuel : nat) (h : list Z) (ws : list Z) : list Z :=
  match fuel, ws with
  | S f, _ :: _ => bloques f (comprimir h (firstn 16 ws)) (skipn 16 ws)
  | _, _ => h
  end.

Definition sha256 (m : list Byte.byte) : list Byte.byte :=
  let bs := rellenar (List.map valorByte m) in
  let ws := palabras (List.length bs) bs in
  List.map byteDe (List.concat (List.map (bigEndian 4) (bloques (List.length ws) H0 ws))).

End Sha256.

Module Dispositivos.
Import AuthContext.

(** A browser: [crypto.subtle] is there and digests. *)
Definition navegador : Cripto := {| subtle := Some (fun data => Some (Sha256.sha256 data)) |}.

(** A device without [crypto.subtle]. *)
Definition sinSubtle : Cripto := {| subtle := None |}.

End Dispositivos.

(* ===================================================================== *)
(** * Part 8.  The specification's notions                                *)
(* ===================================================================== *)

Module Spec.
Import JS Supabase.

(** Kind: income or expense, determining the sign in the balance. *)
Inductive Kind := Income | Expense.

Definition kindOf (tipo : string) : option Kind :=
  if String.eqb tipo "ingreso" then Some Income
  else if String.eqb tipo "egreso" then Some Expense
  else None.

(** A list of transactions read in the data model of the specification:
    every one has a kind and an amount. *)
Fixpoint clasificar (txs : list TransaccionConCategoria) : option (list (Kind * number)) :=
  match txs with
  | [] => Some []
  | t :: r =>
      match kindOf (tipo t), clasificar r with
      | Some k, Some ks => Some ((k, monto t) :: ks)
      | _, _ => None
      end
  end.

(** Income positive, expense negative. *)
Definition conSigno (e : Kind * number) : number :=
  match fst e with
  | Income => snd e
  | Expense => (- snd e)%float
  end.

(** The signed sum, taken in the order of the list (a sum of binary64
    numbers depends on the order of its terms). *)
Definition sumaConSigno (es : list (Kind * number)) : number :=
  fold_left (fun acc e => (acc + conSigno e)%float) es 0%float.

Definition conFecha (f : string) (t : TransaccionConCategoria) : TransaccionConCategoria :=
  {| t_id := t_id t; usuario_id := usuario_id t; categoria_id := categoria_id t;
     monto := monto t; tipo := tipo t; fecha := f; descripcion := descripcion t;
     categorias := categorias t |}.

Definition conTipo (k : string) (t : TransaccionConCategoria) : TransaccionConCategoria :=
  {| t_id := t_id t; usuario_id := usuario_id t; categoria_id := categoria_id t;
     monto := monto t; tipo := k; fecha := fecha t; descripcion := descripcion t;
     categorias := categorias t |}.


(** The legacy algorithm's digest of a password: SHA-256 in hexadecimal. *)
Definition digestoAntiguo (password : string) : string :=
  AuthContext.hexDe (Sha256.sha256 (utf8 password)).

(** The events of a run that are requests to the store. *)
Definition peticiones (evs : list Evento) : list Peticion :=
  omap (fun e => match e with EvPeticion p => Some p | _ => None end) evs.

End Spec.

(** Concrete rows, states and worlds used to exercise the statements. *)
Module Ejemplos.
Import JS Supabase.

Definition salario : Categoria := {| c_id := 1; c_nombre := "Salario"; c_tipo := "ingreso" |}.
Definition comida : Categoria := {| c_id := 7; c_nombre := "Comida"; c_tipo := "egreso" |}.

Definition cobro : TransaccionConCategoria :=
  {| t_id := 1; usuario_id := 10; categoria_id := 1; monto := 100.5%float; tipo := "ingreso";
     fecha := "2020-01-31T09:00:00.000Z"; descripcion := None; categorias := salario |}.

Definition almuerzo : TransaccionConCategoria :=
  {| t_id := 2; usuario_id := 10; categoria_id := 7; monto := 40.25%float; tipo := "egreso";
     fecha := "2024-06-15T12:34:56.789Z"; descripcion := Some "menú"; categorias := comida |}.

(** A row whose kind is neither of the two the screens write. *)
Definition ajuste : TransaccionConCategoria :=
  {| t_id := 3; usuario_id := 10; categoria_id := 7; monto := 10%float; tipo := "transferencia";
     fecha := "2024-06-16T08:00:00.000Z"; descripcion := None; categorias := comida |}.

(** A row of another user. *)
Definition ajena : TransaccionConCategoria :=
  {| t_id := 4; usuario_id := 11; categoria_id := 7; monto := 5%float; tipo := "egreso";
     fecha := "2024-06-17T08:00:00.000Z"; descripcion := None; categorias := comida |}.

Definition sinConexion : PostgrestError := {| message := "Failed to fetch"; code := "" |}.

(** A store with no rows yet. *)
Definition remotoVacio : Remoto :=
  {| tabla_usuarios := []; tabla_billetera := []; tabla_transacciones := [];
     tabla_categorias := [salario; comida]; tabla_transactions := []; sesion := None;
     siguiente_id := 1; reloj := "2024-06-20T10:00:00.000Z" |}.

(** A user registered from a browser: the stored hash is the SHA-256 of
    the password "abc". *)
Definition ana : Usuario :=
  {| u_id := 10; nombre := "Ana"; apellido := "Paz"; usuario := "ana";
     gmail := "ana@example.com";
     contrasena := "ba7816bf8f01cfea414140de5dae2223b00361a396177a9cb410ff61f20015ad" |}.

Definition remotoConAna : Remoto :=
  {| tabla_usuarios := [ana]; tabla_billetera := [{| b_usuario_id := 10; b_saldo := 0%float |}];
     tabla_transacciones := [cobro; almuerzo; ajena]; tabla_categorias := [salario; comida];
     tabla_transactions := []; sesion := None;
     siguiente_id := 11; reloj := "2024-06-20T10:00:00.000Z" |}.

(** The welcome screen of Ana with an expense of 500 typed in, larger
    than her balance of 60.25. *)
Definition pantallaGasto : Welcome.Estado :=
  {| Welcome.modalVisible := true; Welcome.monto := "500"; Welcome.descripcion := "";
     Welcome.tipoSeleccionado := Welcome.egreso; Welcome.categoriaSeleccionada := Some comida;
     Welcome.categorias := [salario; comida]; Welcome.transacciones := [cobro; almuerzo];
     Welcome.saldo := 60.25%float; Welcome.loading := false; Welcome.loadingDatos := false;
     Welcome.datosIngresos := fst (Welcome.procesarTransacciones [cobro; almuerzo]);
     Welcome.datosEgresos := snd (Welcome.procesarTransacciones [cobro; almuerzo]) |}.

(** The same screen with an expense of 20. *)
Definition pantallaGastoMenor : Welcome.Estado :=
  {| Welcome.modalVisible := true; Welcome.monto := "20"; Welcome.descripcion := "";
     Welcome.tipoSeleccionado := Welcome.egreso; Welcome.categoriaSeleccionada := Some comida;
     Welcome.categorias := [salario; comida]; Welcome.transacciones := [cobro; almuerzo];
     Welcome.saldo := 60.25%float; Welcome.loading := false; Welcome.loadingDatos := false;
     Welcome.datosIngresos := fst (Welcome.procesarTransacciones [cobro; almuerzo]);
     Welcome.datosEgresos := snd (Welcome.procesarTransacciones [cobro; almuerzo]) |}.

(** The instant 2024-06-20T10:00:00.000Z. *)
Definition ahoraJunio2024 : Z := 1718877600000.

Definition sueldo (id fecha : string) (x : number) : Transaction :=
  {| tx_id := id; user_id := "u-10"; type_ := "income"; amount := x; category := "Salario";
     description := None; date := fecha; is_recurring := false; recurring_frequency := None;
     status := "completed" |}.

Definition sueldoJunio2023 : Transaction := sueldo "a" "2023-06-15T09:00:00.000Z" 100%float.
Definition sueldoJunio2024 : Transaction := sueldo "b" "2024-06-01T09:00:00.000Z" 250%float.
Definition sueldoMayo2024 : Transaction := sueldo "c" "2024-05-31T23:59:59.999Z" 70%float.

(** The income screen, signed in, with an amount typed in. *)
Definition pantallaIngreso (amount : string) : Income.Estado :=
  {| Income.transactions := []; Income.modalVisible := true; Income.amount := amount;
     Income.category := "Salario"; Income.description := ""; Income.loading := false;
     Income.isAuthenticated := true |}.

Definition remotoConSesion : Remoto :=
  {| tabla_usuarios := []; tabla_billetera := []; tabla_transacciones := [];
     tabla_categorias := []; tabla_transactions := [];
     sesion := Some {| session_user_id := "u-10" |};
     siguiente_id := 1; reloj := "2024-06-20T10:00:00.000Z" |}.

(** The welcome screen with a category chosen and an amount typed in. *)
Definition pantallaMonto (monto : string) : Welcome.Estado :=
  {| Welcome.modalVisible := true; Welcome.monto := monto; Welcome.descripcion := "";
     Welcome.tipoSeleccionado := Welcome.ingreso; Welcome.categoriaSeleccionada := Some salario;
     Welcome.categorias := [salario; comida]; Welcome.transacciones := [];
     Welcome.saldo := 0%float; Welcome.loading := false; Welcome.loadingDatos := false;
     Welcome.datosIngresos := []; Welcome.datosEgresos := [] |}.

Definition sinUsuario : AuthContext.AuthState :=
  {| AuthContext.user := None; AuthContext.loading := false |}.

End Ejemplos.

(* ===================================================================== *)
(** * More of the sources: session effects, lists and cards               *)
(* ===================================================================== *)

(** Worlds in which no coming request is lost. *)
Module Guiones.
Import Supabase.

Definition sinFallos (g : list (option PostgrestError)) : bool :=
  forallb (fun x => match x with None => true | Some _ => false end) g.

End Guiones.

(** The effects of [AuthProvider] and of the root layout, and runs of the
    provider's operations one after the other. *)
Module Sesion.
Import JS Supabase AuthContext.

(** [useState<Usuario | null>(null)] and [useState(true)]. *)
Definition estadoInicial : AuthState := {| user := None; loading := true |}.

(** The effect of [AuthProvider]: [if (!user && !loading) router.replace('/auth/login')].
    The value is the route shown afterwards. *)
Definition efectoAuthProvider (s : AuthState) (ruta : string) : string :=
  match user s with
  | None => if negb (loading s) then "/auth/login" else ruta
  | Some _ => ruta
  end.

(** The effect of [RootLayoutNav]: nothing until the navigation state has a
    key, then the login route when there is no user. *)
Definition efectoRootLayoutNav (key : option string) (s : AuthState) (ruta : string) : string :=
  match key with
  | None => ruta
  | Some k =>
      if vacia k then ruta
      else match user s with
           | None => "/auth/login"
           | Some _ => ruta
           end
  end.

(** A call of one of the operations the provider hands out. *)
Inductive Operacion : Type :=
| OpSignUp (nombre apellido usuario gmail contrasena : string)
| OpSignIn (gmail contrasena : string)
| OpSignOut.

Definition operar (C : Cripto) (op : Operacion) : M AuthState unit :=
  match op with
  | OpSignUp n a u g c => signUp C n a u g c
  | OpSignIn g c => signIn C g c
  | OpSignOut => signOut
  end.

(** The calls of [ops] in order, each caller catching what its call
    throws: the state and the world they leave. *)
Fixpoint sesion (C : Cripto) (ops : list Operacion) (s : AuthState) (w : Mundo)
  : AuthState * Mundo :=
  match ops with
  | [] => (s, w)
  | op :: r => let o := operar C op s w in sesion C r (est o) (mun o)
  end.

(** The sum the fallback loop of [hashPassword] computes when nothing
    wraps around: [31 * hash + char] at each character. *)
Definition polinomio31 (password : string) : Z :=
  fold_left (fun h c => 31 * h + charCode c) (list_ascii_of_string password) 0.

Definition esHexMinuscula (c : ascii) : bool :=
  esDigito c || ((97 <=? charCode c) && (charCode c <=? 102)).

End Sesion.

(** The rest of the welcome screen's logic. *)
Module WelcomeMas.
Import JS Supabase Toast Welcome.

(** What [mostrarMensaje] shows for a plain text. *)
Definition avisoError (mensaje : string) : Evento :=
  EvToast (Toast.params toastInfo "Información" (Some [Lit mensaje])).

(** The titles of the toasts of a run, in order. *)
Definition titulos (evs : list Evento) : list string :=
  omap (fun e => match e with EvToast t => Some (text1 t) | EvPeticion _ => None end) evs.

(** The toast of [mostrarRecomendacionesSaldoNegativo]. *)
Definition avisoRecomendaciones : Evento :=
  EvToast (Toast.params toastInfo "Recomendaciones"
    (Some [Lit "Para mejorar tu situación financiera, considera:"; Lit LF;
           Lit "1. Reducir gastos no esenciales"; Lit LF;
           Lit "2. Buscar fuentes adicionales de ingreso"; Lit LF;
           Lit "3. Crear un presupuesto mensual"; Lit LF;
           Lit "4. Establecer metas de ahorro"])).

(** The rows of a user in the store. *)
Definition filasDe (uid : Z) (db : Remoto) : list TransaccionConCategoria :=
  List.filter (fun t => usuario_id t =? uid) (tabla_transacciones db).

(** The screen [s] showing what the store [db] holds for the user [uid]:
    the list, the two breakdowns, the categories and the balance, the rows
    listed as the tables have them. *)
Definition alDia (uid : Z) (db : Remoto) (s : Estado) : Estado :=
  {| modalVisible := modalVisible s; monto := Welcome.monto s;
     descripcion := Welcome.descripcion s;
     tipoSeleccionado := tipoSeleccionado s; categoriaSeleccionada := categoriaSeleccionada s;
     categorias := tabla_categorias db; transacciones := filasDe uid db;
     saldo := nuevoSaldo (filasDe uid db);
     loading := loading s; loadingDatos := false;
     datosIngresos := fst (procesarTransacciones (filasDe uid db));
     datosEgresos := snd (procesarTransacciones (filasDe uid db)) |}.

(** [categorias.filter(cat => cat.tipo === tipoSeleccionado)] *)
Definition categoriasFiltradas (s : Estado) : list Categoria :=
  List.filter (fun cat => String.eqb (c_tipo cat) (textoTipo (tipoSeleccionado s)))
              (categorias s).

Definition cargarCategorias : M Estado unit :=
  tryCatch
    (r <- pedir SelectCategorias hacerSelectCategorias ;;
     match r with
     | Fallo e => lanzar (Rechazo e)
     | Datos data => setCategorias data
     end)
    (fun _ => mostrarMensaje "Error" [Lit "No se pudieron cargar las categorías"] error).

(** The [onPress] of the delete button of a row.  [user.id] is an integer
    here, so [!user?.id] holds for no user and for the id 0, and
    [Number(user.id)] is the id itself, never NaN. *)
Definition alPulsarEliminar (user : option Usuario) (item : TransaccionConCategoria)
  : M Estado unit :=
  tryCatch
    (match user with
     | None => mostrarMensaje "Error" [Lit "Usuario no identificado"] error
     | Some u =>
         if u_id u =? 0 then mostrarMensaje "Error" [Lit "Usuario no identificado"] error
         else
           let usuarioId := u_id u in
           let transaccionId := t_id item in
           confirmado <- confirmarEliminacion (Supabase.monto item) ;;
           if confirmado : bool
           then eliminarTransaccion user usuarioId transaccionId (Supabase.monto item)
           else ret tt
     end)
    (fun _ => mostrarMensaje "Error" [Lit "Ocurrió un error al procesar la eliminación"] error).

(** The body of the [forEach] of [procesarTransacciones]. *)
Definition repartir (acc : Objeto * Objeto) (transaccion : TransaccionConCategoria)
  : Objeto * Objeto :=
  let '(ingresosPorCategoria, egresosPorCategoria) := acc in
  let categoria := c_nombre (Supabase.categorias transaccion) in
  let monto := Supabase.monto transaccion in
  if String.eqb (tipo transaccion) "ingreso"
  then (acumular ingresosPorCategoria categoria monto, egresosPorCategoria)
  else (ingresosPorCategoria, acumular egresosPorCategoria categoria monto).

(** The names of the properties every plain object inherits from
    [Object.prototype].  Read on a fresh [{}] they are not undefined, and an
    assignment to [__proto__] creates no own property, so a dictionary of
    the code behaves as an [Objeto] only on the other keys. *)
Definition nombresHeredados : list string :=
  ["constructor"; "__defineGetter__"; "__defineSetter__"; "hasOwnProperty";
   "__lookupGetter__"; "__lookupSetter__"; "isPrototypeOf"; "propertyIsEnumerable";
   "toString"; "valueOf"; "__proto__"; "toLocaleString"].

Definition esHeredado (k : string) : bool := existsb (String.eqb k) nombresHeredados.

(** [Object.keys]: the keys of a dictionary in creation order. *)
Definition claves (o : Objeto) : list string := List.map fst o.

(** The bar that gathers what does not fit. *)
Definition barraOtros (otros : list Dato) : Dato :=
  {| categoria := "Otros";
     d_monto := fold_left (fun acc curr => (acc + d_monto curr)%float) otros 0%float;
     color := "#9E9E9E" |}.

(** [(a, b) => b.monto - a.monto] is positive: [b] goes before [a]. *)
Definition vaAntes (b a : Dato) : bool := PrimFloat.ltb 0 (d_monto b - d_monto a)%float.

Fixpoint insertar (x : Dato) (l : list Dato) : list Dato :=
  match l with
  | [] => [x]
  | y :: r => if vaAntes x y then x :: y :: r else y :: insertar x r
  end.

(** [[...datos].sort((a, b) => b.monto - a.monto)]: the stable sort, larger
    amounts first, entries the comparator does not tell apart keeping their
    order. *)
Definition ordenar (datos : list Dato) : list Dato :=
  fold_left (fun acc x => insertar x acc) datos [].

(** [datosAgrupados] of [renderGraficoExponencial]: at most six bars, the
    last one gathering what does not fit. *)
Definition agruparDatos (datos : list Dato) : list Dato :=
  let datosOrdenados := ordenar datos in
  let maxBars := Nat.min 6 (List.length datosOrdenados) in
  if Nat.ltb maxBars (List.length datosOrdenados) then
    let principales := firstn (maxBars - 1) datosOrdenados in
    let otros := skipn (maxBars - 1) datosOrdenados in
    let montoOtros := fold_left (fun acc curr => (acc + d_monto curr)%float) otros 0%float in
    principales ++ [{| categoria := "Otros"; d_monto := montoOtros; color := "#9E9E9E" |}]
  else datosOrdenados.

End WelcomeMas.

(** The rest of the income screen's logic. *)
Module IncomeMas.
Import JS Supabase Toast Income.

(** The screen together with the route the router shows;
    [router.replace(r)] sets the route. *)
Record Pantalla := { estado : Estado; ruta : string }.

(** A function of the screen, run where the route is also in sight. *)
Definition enEstado {A : Type} (m : M Estado A) : M Pantalla A :=
  fun p w =>
    let '{| res := r; est := s; mun := w'; evs := e |} := m (estado p) w in
    {| res := r; est := {| estado := s; ruta := ruta p |}; mun := w'; evs := e |}.

Definition routerReplace (r : string) : M Pantalla unit :=
  modificar (fun p => {| estado := estado p; ruta := r |}).

(** [initializeAuth], run once when the screen mounts. *)
Definition initializeAuth : M Pantalla unit :=
  r <- pedir GetSession hacerGetSession ;;
  match r with
  | Datos (Some session) =>
      enEstado (setIsAuthenticated true) ;;
      enEstado loadTransactions
  | _ => routerReplace "/auth/login"
  end.

Definition checkAuth : M Pantalla unit :=
  tryCatch
    (r <- pedir GetSession hacerGetSession ;;
     match r with
     | Datos (Some session) =>
         enEstado (setIsAuthenticated true) ;;
         enEstado loadTransactions
     | _ =>
         enEstado (setIsAuthenticated false) ;;
         routerReplace "/auth/login"
     end)
    (fun _ =>
       enEstado (setIsAuthenticated false) ;;
       routerReplace "/auth/login").

Record CategoriaIngreso := { ci_id : string; ci_icon : string; ci_color : string }.

Definition INCOME_CATEGORIES : list CategoriaIngreso :=
  [ {| ci_id := "Salario"; ci_icon := "work"; ci_color := "#2E7D32" |};
    {| ci_id := "Inversiones"; ci_icon := "trending-up"; ci_color := "#1565C0" |};
    {| ci_id := "Freelance"; ci_icon := "laptop"; ci_color := "#6A1B9A" |};
    {| ci_id := "Otros"; ci_icon := "attach-money"; ci_color := "#666" |} ].

(** The cards of [renderHeader]: one per category of
    [INCOME_CATEGORIES.slice(0, -1)], with [incomesByCategory[cat.id] || 0]. *)
Definition tarjetas (incomesByCategory : gmap string number) : list (string * number) :=
  List.map (fun cat => (ci_id cat, Welcome.oCero (incomesByCategory !! ci_id cat)))
           (removelast INCOME_CATEGORIES).

(** The body of the [forEach] of [incomesByCategory]. *)
Definition sumarIngreso (categories : gmap string number) (income : Transaction)
  : gmap string number :=
  match categories !! Supabase.category income with
  | Some v =>
      if verdadero v
      then <[Supabase.category income := (v + Supabase.amount income)%float]> categories
      else <[Supabase.category income := Supabase.amount income]> categories
  | None => <[Supabase.category income := Supabase.amount income]> categories
  end.

(** The category of [t] has a card. *)
Definition enTarjeta (t : Transaction) : bool :=
  existsb (fun cat => String.eqb (ci_id cat) (Supabase.category t))
          (removelast INCOME_CATEGORIES).

(** The incomes of a user in the store. *)
Definition ingresosDe (uid : string) (db : Remoto) : list Transaction :=
  List.filter (fun t => String.eqb (user_id t) uid && String.eqb (type_ t) "income")
              (tabla_transactions db).

(** What [showError] shows. *)
Definition avisoDeError (titulo : string) (mensaje : Texto) : Evento :=
  EvToast (Toast.params toastError titulo (Some mensaje)).

(** The icon of a row:
    [INCOME_CATEGORIES.find(cat => cat.id === item.category)?.icon ?? 'attach-money']. *)
Definition iconoDe (item : Transaction) : string :=
  match List.find (fun cat => String.eqb (ci_id cat) (Supabase.category item)) INCOME_CATEGORIES with
  | Some cat => ci_icon cat
  | None => "attach-money"
  end.

End IncomeMas.

(* ===================================================================== *)
(** * Part 9.  Checks of the runtime model on known values                *)
(* ===================================================================== *)

Import JS Supabase.

Example parseFloat_ejemplos :
  List.map parseFloat ["1250.50"; "1."; ".5"; "-3.25abc"; "1e"; "0x10"; "-0"]
  = [1250.5; 1; 0.5; -3.25; 1; 0; -0]%float
  /\ List.map (fun s => isNaN (parseFloat s)) [""; "."; "abc"; "--7"] = [true; true; true; true].
Proof. split; vm_compute; reflexivity. Qed.

Example Number_ejemplos :
  List.map Number ["1250.50"; ""; "  7 "; "25e-2"; "0x10"; "0b101"]
  = [1250.5; 0; 7; 0.25; 16; 5]%float
  /\ List.map (fun s => isNaN (Number s)) ["12a"; "1,250"; "."; "1e"; "abc"]
     = [true; true; true; true; true].
Proof. split; vm_compute; reflexivity. Qed.

Example sha256_vectores :
  AuthContext.hashPassword Dispositivos.navegador "abc"
  = "ba7816bf8f01cfea414140de5dae2223b00361a396177a9cb410ff61f20015ad"
  /\ AuthContext.hashPassword Dispositivos.navegador ""
     = "e3b0c44298fc1c149afbf4c8996fb92427ae41e4649b934ca495991b7852b855".
Proof. split; vm_compute; reflexivity. Qed.

Example hashSimple_ejemplos :
  AuthContext.hashSimple "abc" = "00017862" /\ AuthContext.hashSimple "" = "00000000".
Proof. split; vm_compute; reflexivity. Qed.

Example fechas_ejemplos :
  parseISO "2024-06-15T12:34:56.789Z" = Some 1718454896789
  /\ getMonth fechasUTC (parseISO "2024-06-15T12:34:56.789Z") = Some 5
  /\ getFullYear fechasUTC (parseISO "2023-12-31T23:59:59.999Z") = Some 2023
  /\ parseISO "2024-02-30T00:00:00.000Z" = None.
Proof. repeat split; vm_compute; reflexivity. Qed.

(* ===================================================================== *)
(** * Part 10.  The balance recomputation                                 *)
(* ===================================================================== *)

Section Saldo.
Import Welcome Spec.
Local Open Scope float_scope.

(** IEEE subtraction is addition of the opposite. *)
Lemma resta_suma_opuesto (x y : number) : x - y = x + - y.
Proof.
  apply Prim2SF_inj.
  rewrite FloatAxioms.sub_spec, FloatAxioms.add_spec, FloatAxioms.opp_spec.
  unfold SF64sub, SF64add.
  destruct (Prim2SF x) as [sx|sx| |sx mx ex], (Prim2SF y) as [sy|sy| |sy my ey];
    simpl; try reflexivity;
    try (destruct sx, sy; reflexivity).
Qed.

Lemma nuevoSaldo_snoc (txs : list TransaccionConCategoria) (t : TransaccionConCategoria) :
  nuevoSaldo (txs ++ [t]) = paso (nuevoSaldo txs) t.
Proof. unfold nuevoSaldo. rewrite fold_left_app. reflexivity. Qed.

Lemma fold_paso_con_signo (txs : list TransaccionConCategoria) :
  forall (es : list (Kind * number)) (acc : number),
    clasificar txs = Some es ->
    fold_left paso txs acc = fold_left (fun a e => a + conSigno e) es acc.
Proof.
  induction txs as [|t r IH]; intros es acc H; simpl in H.
  - injection H as <-. reflexivity.
  - unfold kindOf in H.
    destruct (String.eqb (tipo t) "ingreso") eqn:Ei.
    + destruct (clasificar r) as [ks|] eqn:Er; [|discriminate].
      injection H as <-. simpl. unfold paso at 2. rewrite Ei.
      apply IH. reflexivity.
    + destruct (String.eqb (tipo t) "egreso") eqn:Ee; [|discriminate].
      destruct (clasificar r) as [ks|] eqn:Er; [|discriminate].
      injection H as <-. simpl. unfold paso at 2. rewrite Ei.
      unfold conSigno at 2. simpl. rewrite resta_suma_opuesto.
      apply IH. reflexivity.
Qed.

Lemma paso_conFecha (f : string) (acc : number) (t : TransaccionConCategoria) :
  paso acc (conFecha f t) = paso acc t.
Proof. reflexivity. Qed.

Lemma nuevoSaldo_sin_fecha (f : TransaccionConCategoria -> string)
    (txs : list TransaccionConCategoria) :
  nuevoSaldo (List.map (fun t => conFecha (f t) t) txs) = nuevoSaldo txs.
Proof.
  unfold nuevoSaldo.
  generalize 0. induction txs as [|t r IH]; intros acc; [reflexivity|].
  simpl. apply IH.
Qed.

End Saldo.

(** C1.  For every list of transactions whose kinds are income or expense,
    the fold of [obtenerSaldoActual] is the signed sum of all of them, taken
    in the order of the list: an income adds its amount and an expense
    subtracts it.  The dates play no part: changing them in any way leaves
    the result as it is. *)
Theorem C1_saldo_es_suma_con_signo
    (txs : list TransaccionConCategoria) (es : list (Spec.Kind * number)) :
  Spec.clasificar txs = Some es ->
  Welcome.nuevoSaldo txs = Spec.sumaConSigno es
  /\ (forall f : TransaccionConCategoria -> string,
        Welcome.nuevoSaldo (List.map (fun t => Spec.conFecha (f t) t) txs)
        = Welcome.nuevoSaldo txs).
Proof.
  intros H. split.
  - unfold Welcome.nuevoSaldo, Spec.sumaConSigno.
    apply fold_paso_con_signo. exact H.
  - intros f. apply nuevoSaldo_sin_fecha.
Qed.

Lemma C1_saldo_es_suma_con_signo_witness :
  Welcome.nuevoSaldo [Ejemplos.cobro; Ejemplos.almuerzo]
  = Spec.sumaConSigno [(Spec.Income, 100.5%float); (Spec.Expense, 40.25%float)].
Proof.
  apply (proj1 (C1_saldo_es_suma_con_signo [Ejemplos.cobro; Ejemplos.almuerzo] _ eq_refl)).
Defined.

Lemma paso_casos (acc : number) (t : TransaccionConCategoria) :
  (tipo t = "ingreso" -> Welcome.paso acc t = (acc + monto t)%float)
  /\ (tipo t <> "ingreso" -> Welcome.paso acc t = (acc - monto t)%float).
Proof.
  unfold Welcome.paso. split; intros H.
  - rewrite H. reflexivity.
  - apply String.eqb_neq in H. rewrite H. reflexivity.
Qed.

(** C10.  A transaction whose kind is neither 'ingreso' nor 'egreso' has
    its amount subtracted by the balance recomputation, exactly as if its
    kind were 'egreso': the total of a list that ends with it is the total
    of the rest minus its amount, and wherever it stands in the list the
    total up to it goes down by its amount before the rest is folded in.
    Only a transaction whose kind is exactly 'ingreso' is added: the total
    of a list that ends with a transaction is the total of the rest plus its
    amount when the kind is 'ingreso', and minus its amount for every other
    kind. *)
Theorem C10_tipo_desconocido_resta (t : TransaccionConCategoria) :
  tipo t <> "ingreso" -> tipo t <> "egreso" ->
  (forall acc : number, Welcome.paso acc t = (acc - monto t)%float)
  /\ (forall l1 l2 : list TransaccionConCategoria,
        Welcome.nuevoSaldo (l1 ++ t :: l2)
        = Welcome.nuevoSaldo (l1 ++ Spec.conTipo "egreso" t :: l2))
  /\ (forall (acc : number) (t' : TransaccionConCategoria),
        (tipo t' = "ingreso" -> Welcome.paso acc t' = (acc + monto t')%float)
        /\ (tipo t' <> "ingreso" -> Welcome.paso acc t' = (acc - monto t')%float))
  /\ (forall l : list TransaccionConCategoria,
        Welcome.nuevoSaldo (l ++ [t]) = (Welcome.nuevoSaldo l - monto t)%float)
  /\ (forall l1 l2 : list TransaccionConCategoria,
        Welcome.nuevoSaldo (l1 ++ t :: l2)
        = fold_left Welcome.paso l2 (Welcome.nuevoSaldo l1 - monto t)%float)
  /\ (forall (l : list TransaccionConCategoria) (t' : TransaccionConCategoria),
        (tipo t' = "ingreso" ->
         Welcome.nuevoSaldo (l ++ [t']) = (Welcome.nuevoSaldo l + monto t')%float)
        /\ (tipo t' <> "ingreso" ->
            Welcome.nuevoSaldo (l ++ [t']) = (Welcome.nuevoSaldo l - monto t')%float)).
Proof.
  intros Hi He. split; [|split; [|split; [|split; [|split]]]].
  - intros acc. apply paso_casos. exact Hi.
  - intros l1 l2. unfold Welcome.nuevoSaldo.
    rewrite !fold_left_app. simpl. f_equal.
    unfold Welcome.paso. simpl.
    apply String.eqb_neq in Hi. rewrite Hi. reflexivity.
  - intros acc t'. apply paso_casos.
  - intros l. rewrite nuevoSaldo_snoc. apply paso_casos. exact Hi.
  - intros l1 l2. unfold Welcome.nuevoSaldo. rewrite fold_left_app. simpl.
    f_equal. apply paso_casos. exact Hi.
  - intros l t'. rewrite nuevoSaldo_snoc. apply paso_casos.
Qed.

Lemma C10_tipo_desconocido_resta_witness :
  Welcome.nuevoSaldo ([Ejemplos.cobro] ++ Ejemplos.ajuste :: [Ejemplos.almuerzo])
  = Welcome.nuevoSaldo
      ([Ejemplos.cobro] ++ Spec.conTipo "egreso" Ejemplos.ajuste :: [Ejemplos.almuerzo])
  /\ Welcome.nuevoSaldo ([Ejemplos.cobro] ++ [Ejemplos.ajuste])
     = (Welcome.nuevoSaldo [Ejemplos.cobro] - monto Ejemplos.ajuste)%float.
Proof.
  destruct (C10_tipo_desconocido_resta Ejemplos.ajuste
              ltac:(discriminate) ltac:(discriminate)) as (_ & H1 & _ & H2 & _).
  split; [apply H1|apply H2].
Defined.

Example saldo_ejemplo :
  Welcome.nuevoSaldo [Ejemplos.cobro; Ejemplos.ajuste; Ejemplos.almuerzo] = 50.25%float.
Proof. vm_compute. reflexivity. Qed.

(* ===================================================================== *)
(** * Part 11.  Registration                                              *)
(* ===================================================================== *)

Section Registro.
Import AuthContext.

Lemma filter_sin_id (id : Z) (us : list Usuario) :
  Forall (fun u => u_id u <> id) (List.filter (fun u => negb (u_id u =? id)) us).
Proof.
  induction us as [|u r IH]; simpl; [constructor|].
  destruct (u_id u =? id) eqn:E; simpl; [exact IH|].
  constructor; [|exact IH]. apply Z.eqb_neq. exact E.
Qed.

Lemma filter_id_fresco (id : Z) (us : list Usuario) :
  Forall (fun u => u_id u <> id) us ->
  List.filter (fun u => negb (u_id u =? id)) us = us.
Proof.
  induction 1 as [|u r Hu _ IH]; simpl; [reflexivity|].
  apply Z.eqb_neq in Hu. rewrite Hu. simpl. f_equal. exact IH.
Qed.

(** C5, as the code has it.  When the user row is inserted and the wallet
    insert fails, [signUp] sends exactly three requests, the last one being
    the delete of the user row just created, and ends by throwing the wallet
    error with the in-memory user left as it was.  Provided the store carries
    the delete out (its answer is not looked at), no user row with the new id
    remains, and when the id was fresh the users table is back to what it
    was; no wallet row was added. *)
Theorem C5_signUp_borra_al_fallar_billetera
    (C : Cripto) (nombre apellido usuario gmail contrasena : string)
    (s : AuthState) (w : Mundo) (walletError : PostgrestError)
    (resto : list (option PostgrestError)) :
  guion w = None :: Some walletError :: resto ->
  let o := signUp C nombre apellido usuario gmail contrasena s w in
  let id := siguiente_id (remoto w) in
  let fila := {| nu_nombre := nombre; nu_apellido := apellido; nu_usuario := usuario;
                 nu_gmail := gmail; nu_contrasena := hashPassword C contrasena |} in
  evs o = [EvPeticion (InsertUsuario fila); EvPeticion (InsertBilletera id 0%float);
           EvPeticion (DeleteUsuario id)]
  /\ res o = Lanza (Rechazo walletError)
  /\ est o = s
  /\ tabla_billetera (remoto (mun o)) = tabla_billetera (remoto w)
  /\ (atendida resto = true ->
      Forall (fun u => u_id u <> id) (tabla_usuarios (remoto (mun o)))
      /\ (Forall (fun u => u_id u <> id) (tabla_usuarios (remoto w)) ->
          tabla_usuarios (remoto (mun o)) = tabla_usuarios (remoto w))).
Proof.
  intros Hg o id fila.
  unfold o, signUp, tryCatch, bind, pedir. rewrite Hg. simpl.
  destruct resto as [|[e|] g]; simpl;
    (split; [reflexivity|split; [reflexivity|split; [reflexivity|split; [reflexivity|]]]]);
    intros Ha; try discriminate.
  - split; [apply filter_sin_id|].
    intros Hf. rewrite List.filter_app. simpl. rewrite Z.eqb_refl. simpl.
    rewrite app_nil_r. apply filter_id_fresco. exact Hf.
  - split; [apply filter_sin_id|].
    intros Hf. rewrite List.filter_app. simpl. rewrite Z.eqb_refl. simpl.
    rewrite app_nil_r. apply filter_id_fresco. exact Hf.
Qed.

Lemma C5_signUp_borra_al_fallar_billetera_witness :
  let o := signUp Dispositivos.sinSubtle "Ana" "Paz" "ana" "ana@example.com" "abc"
             Ejemplos.sinUsuario
             {| remoto := Ejemplos.remotoVacio; guion := [None; Some Ejemplos.sinConexion] |} in
  res o = Lanza (Rechazo Ejemplos.sinConexion)
  /\ est o = Ejemplos.sinUsuario
  /\ tabla_usuarios (remoto (mun o)) = [].
Proof.
  pose proof (C5_signUp_borra_al_fallar_billetera Dispositivos.sinSubtle
                "Ana" "Paz" "ana" "ana@example.com" "abc" Ejemplos.sinUsuario
                {| remoto := Ejemplos.remotoVacio; guion := [None; Some Ejemplos.sinConexion] |}
                Ejemplos.sinConexion [] eq_refl) as H.
  cbv zeta in H. destruct H as (_ & Hr & He & _ & Hu).
  split; [exact Hr|split; [exact He|]].
  apply (proj2 (Hu eq_refl)). constructor.
Defined.

(** C5 does not hold as stated: when the compensating delete does not get
    through either, the user row stays, without a wallet row. *)
Lemma C5_contraejemplo :
  let w := {| remoto := Ejemplos.remotoVacio;
              guion := [None; Some Ejemplos.sinConexion; Some Ejemplos.sinConexion] |} in
  let o := signUp Dispositivos.sinSubtle "Ana" "Paz" "ana" "ana@example.com" "abc"
             Ejemplos.sinUsuario w in
  res o = Lanza (Rechazo Ejemplos.sinConexion)
  /\ List.map gmail (tabla_usuarios (remoto (mun o))) = ["ana@example.com"]
  /\ tabla_billetera (remoto (mun o)) = [].
Proof. vm_compute. repeat split. Qed.

End Registro.

(* ===================================================================== *)
(** * Part 12.  Login                                                     *)
(* ===================================================================== *)

Section Acceso.
Import AuthContext.

(** When the SHA-256 computation goes through, it is the value of
    [hashPassword]. *)
Lemma hashPassword_sha256 (C : Cripto) (digest : list Byte.byte -> option (list Byte.byte))
    (p h : string) :
  subtle C = Some digest -> sha256Hex digest p = Some h -> hashPassword C p = h.
Proof. intros Hs Hh. unfold hashPassword. rewrite Hs, Hh. reflexivity. Qed.

(** The legacy check never accepts a password the comparison with
    [hashPassword] has turned down, and sends nothing. *)
Lemma metodoAntiguo_nunca_acepta (C : Cripto) (u : Usuario) (p : string)
    (s : AuthState) (w : Mundo) :
  contrasena u <> hashPassword C p ->
  metodoAntiguo C u p (hashPassword C p) s w
  = {| res := Ok false; est := s; mun := w; evs := [] |}.
Proof.
  intros Hne. unfold metodoAntiguo, tryCatch.
  destruct (subtle C) as [digest|] eqn:Hs; [|reflexivity].
  destruct (sha256Hex digest p) as [h|] eqn:Hh; [|reflexivity].
  rewrite (hashPassword_sha256 C digest p h Hs Hh) in Hne.
  apply String.eqb_neq in Hne. rewrite Hne. reflexivity.
Qed.

(** The two ways a login ends: rejected with the generic error, or
    accepted by the comparison with [hashPassword].  Either way one lookup
    is sent and the store is left as it was. *)
Lemma signIn_desenlaces (C : Cripto) (g p : string) (s : AuthState) (w : Mundo) :
  let o := signIn C g p s w in
  evs o = [EvPeticion (SelectUsuarioPorGmail g)]
  /\ remoto (mun o) = remoto w
  /\ ((res o = Lanza credencialesIncorrectas /\ est o = s)
      \/ (exists u : Usuario,
            res o = Ok tt /\ est o = {| user := Some u; loading := loading s |}
            /\ contrasena u = hashPassword C p
            /\ (guion w = [] \/ exists g', guion w = None :: g')
            /\ List.filter (fun u => String.eqb (gmail u) g) (tabla_usuarios (remoto w)) = [u])).
Proof.
  unfold signIn, tryCatch, bind, pedir.
  destruct (guion w) as [|[e|] g'] eqn:Hg; simpl;
    [ | repeat split; left; split; reflexivity | ];
    (destruct (List.filter (fun u => String.eqb (gmail u) g) (tabla_usuarios (remoto w)))
       as [|u [|u' r]] eqn:Hf; simpl;
     [ repeat split; left; split; reflexivity
     | destruct (String.eqb (contrasena u) (hashPassword C p)) eqn:Ec; simpl;
       [ apply String.eqb_eq in Ec; repeat split; right; exists u; repeat split; eauto
       | apply String.eqb_neq in Ec; unfold bind;
         rewrite (metodoAntiguo_nunca_acepta C u p s _ Ec); simpl;
         repeat split; left; split; reflexivity ]
     | repeat split; left; split; reflexivity ]).
Qed.

(** C8.  A login for an email without a user record and a login for an
    existing user whose stored hash is neither [hashPassword] of the
    password given nor its SHA-256 digest end in the same way: the same
    exception [Error('Credenciales incorrectas')], the in-memory user and the
    store left as they were, one lookup sent and nothing shown.  This holds
    whatever the store answers to later requests.  (Console output and
    timing are outside the embedding.) *)
Theorem C8_rechazos_identicos
    (C : Cripto) (g1 p1 g2 p2 : string) (s1 s2 : AuthState) (w1 w2 : Mundo) (u : Usuario) :
  List.filter (fun x => String.eqb (gmail x) g1) (tabla_usuarios (remoto w1)) = [] ->
  List.filter (fun x => String.eqb (gmail x) g2) (tabla_usuarios (remoto w2)) = [u] ->
  contrasena u <> hashPassword C p2 ->
  contrasena u <> Spec.digestoAntiguo p2 ->
  let o1 := signIn C g1 p1 s1 w1 in
  let o2 := signIn C g2 p2 s2 w2 in
  res o1 = Lanza (JsError "Credenciales incorrectas")
  /\ res o2 = res o1
  /\ est o1 = s1 /\ est o2 = s2
  /\ remoto (mun o1) = remoto w1 /\ remoto (mun o2) = remoto w2
  /\ evs o1 = [EvPeticion (SelectUsuarioPorGmail g1)]
  /\ evs o2 = [EvPeticion (SelectUsuarioPorGmail g2)].
Proof.
  intros H1 H2 Hc _ o1 o2.
  destruct (signIn_desenlaces C g1 p1 s1 w1) as (E1 & R1 & D1).
  destruct (signIn_desenlaces C g2 p2 s2 w2) as (E2 & R2 & D2).
  fold o1 in E1, R1, D1. fold o2 in E2, R2, D2.
  assert (A1 : res o1 = Lanza credencialesIncorrectas /\ est o1 = s1).
  { destruct D1 as [D1|(x & _ & _ & _ & _ & Hx)]; [exact D1|].
    rewrite H1 in Hx. discriminate Hx. }
  assert (A2 : res o2 = Lanza credencialesIncorrectas /\ est o2 = s2).
  { destruct D2 as [D2|(x & _ & _ & Hp & _ & Hx)]; [exact D2|].
    rewrite H2 in Hx. injection Hx as <-. contradiction. }
  destruct A1 as [A1 B1], A2 as [A2 B2].
  repeat split; try assumption.
  rewrite A1, A2. reflexivity.
Qed.

Lemma C8_rechazos_identicos_witness :
  let o1 := signIn Dispositivos.navegador "nadie@example.com" "abc" Ejemplos.sinUsuario
              {| remoto := Ejemplos.remotoConAna; guion := [] |} in
  let o2 := signIn Dispositivos.navegador "ana@example.com" "otra" Ejemplos.sinUsuario
              {| remoto := Ejemplos.remotoConAna; guion := [] |} in
  res o1 = Lanza (JsError "Credenciales incorrectas") /\ res o2 = res o1.
Proof.
  pose proof (C8_rechazos_identicos Dispositivos.navegador
                "nadie@example.com" "abc" "ana@example.com" "otra"
                Ejemplos.sinUsuario Ejemplos.sinUsuario
                {| remoto := Ejemplos.remotoConAna; guion := [] |}
                {| remoto := Ejemplos.remotoConAna; guion := [] |}
                Ejemplos.ana eq_refl eq_refl
                ltac:(vm_compute; discriminate) ltac:(vm_compute; discriminate)) as H.
  cbv zeta in H. destruct H as (H1 & H2 & _).
  split; [exact H1|exact H2].
Defined.

(** C9.  On a device where [crypto.subtle] is available, the digest that
    [hashPassword] returns is the one the legacy check of [signIn] computes;
    so a stored hash the legacy check would accept is already accepted by
    the comparison with [hashPassword], and [signIn] never reaches the
    upgrade: it sends the lookup and no update, leaves the store as it was,
    and accepts only a stored hash equal to [hashPassword] of the
    password. *)
Theorem C9_rama_antigua_inalcanzable
    (C : Cripto) (digest : list Byte.byte -> option (list Byte.byte)) :
  subtle C = Some digest ->
  (forall p h : string, sha256Hex digest p = Some h -> hashPassword C p = h)
  /\ (forall (u : Usuario) (p h : string),
        sha256Hex digest p = Some h -> contrasena u = h -> contrasena u = hashPassword C p)
  /\ (forall (u : Usuario) (p : string) (s : AuthState) (w : Mundo),
        contrasena u <> hashPassword C p ->
        metodoAntiguo C u p (hashPassword C p) s w
        = {| res := Ok false; est := s; mun := w; evs := [] |})
  /\ (forall (g p : string) (s : AuthState) (w : Mundo),
        let o := signIn C g p s w in
        Spec.peticiones (evs o) = [SelectUsuarioPorGmail g]
        /\ remoto (mun o) = remoto w
        /\ (res o = Ok tt ->
            exists u : Usuario,
              est o = {| user := Some u; loading := loading s |}
              /\ contrasena u = hashPassword C p)).
Proof.
  intros Hs. split; [|split; [|split]].
  - intros p h. apply hashPassword_sha256. exact Hs.
  - intros u p h Hh ->. symmetry. apply (hashPassword_sha256 C digest p h Hs Hh).
  - intros u p s w. apply metodoAntiguo_nunca_acepta.
  - intros g p s w o.
    destruct (signIn_desenlaces C g p s w) as (E & R & D). fold o in E, R, D.
    split; [rewrite E; reflexivity|]. split; [exact R|].
    intros Hok. destruct D as [[D _]|(u & _ & He & Hc & _)].
    + rewrite D in Hok. discriminate Hok.
    + exists u. split; assumption.
Qed.

Lemma C9_rama_antigua_inalcanzable_witness :
  let o := signIn Dispositivos.navegador "ana@example.com" "abc" Ejemplos.sinUsuario
             {| remoto := Ejemplos.remotoConAna; guion := [] |} in
  Spec.peticiones (evs o) = [SelectUsuarioPorGmail "ana@example.com"]
  /\ remoto (mun o) = Ejemplos.remotoConAna.
Proof.
  pose proof (C9_rama_antigua_inalcanzable Dispositivos.navegador
                (fun data => Some (Sha256.sha256 data)) eq_refl) as (_ & _ & _ & H).
  destruct (H "ana@example.com" "abc" Ejemplos.sinUsuario
              {| remoto := Ejemplos.remotoConAna; guion := [] |}) as (H1 & H2 & _).
  split; [exact H1|exact H2].
Defined.

(** C2, evaluated.  Ana registered from a browser, so her stored hash is
    the SHA-256 digest of "abc" and not what [hashPassword] gives on a
    device without [crypto.subtle].  Logging in on such a device with "abc"
    is rejected with the generic error and the stored hash stays as it was:
    the legacy check cannot compute the digest there. *)
Theorem C2_hash_antiguo_rechazado :
  let w := {| remoto := Ejemplos.remotoConAna; guion := [] |} in
  let o := signIn Dispositivos.sinSubtle "ana@example.com" "abc" Ejemplos.sinUsuario w in
  contrasena Ejemplos.ana = Spec.digestoAntiguo "abc"
  /\ contrasena Ejemplos.ana <> hashPassword Dispositivos.sinSubtle "abc"
  /\ res o = Lanza (JsError "Credenciales incorrectas")
  /\ est o = Ejemplos.sinUsuario
  /\ remoto (mun o) = Ejemplos.remotoConAna
  /\ evs o = [EvPeticion (SelectUsuarioPorGmail "ana@example.com")].
Proof.
  cbv zeta. split; [vm_compute; reflexivity|].
  split; [vm_compute; discriminate|].
  vm_compute. repeat split.
Qed.

End Acceso.

(* ===================================================================== *)
(** * Part 13.  How the events of a composite run begin                   *)
(* ===================================================================== *)

Section Eventos.
Context {S : Type}.
Local Open Scope list_scope.

Lemma evs_anteponer {A : Type} (e : list Evento) (o : Salida S A) :
  evs (anteponer e o) = e ++ evs o.
Proof. destruct o. reflexivity. Qed.

Lemma bind_ok {A B : Type} (m : M S A) (k : A -> M S B) (s s' : S) (w w' : Mundo)
    (a : A) (e : list Evento) :
  m s w = {| res := Ok a; est := s'; mun := w'; evs := e |} ->
  bind m k s w = anteponer e (k a s' w').
Proof. intros H. unfold bind. rewrite H. reflexivity. Qed.

Lemma evs_bind {A B : Type} (m : M S A) (k : A -> M S B) (s : S) (w : Mundo) :
  exists resto, evs (bind m k s w) = evs (m s w) ++ resto.
Proof.
  unfold bind. destruct (m s w) as [[a|x] s' w' e]; simpl.
  - exists (evs (k a s' w')). apply evs_anteponer.
  - exists []. symmetry. apply app_nil_r.
Qed.

Lemma evs_tryCatch {A : Type} (m : M S A) (h : Excepcion -> M S A) (s : S) (w : Mundo) :
  exists resto, evs (tryCatch m h s w) = evs (m s w) ++ resto.
Proof.
  unfold tryCatch. destruct (m s w) as [[a|x] s' w' e]; simpl.
  - exists []. symmetry. apply app_nil_r.
  - exists (evs (h x s' w')). apply evs_anteponer.
Qed.

Lemma evs_tryFinally {A : Type} (m : M S A) (f : M S unit) (s : S) (w : Mundo) :
  exists resto, evs (tryFinally m f s w) = evs (m s w) ++ resto.
Proof.
  unfold tryFinally. destruct (m s w) as [r s' w' e].
  destruct (f s' w') as [r' s'' w'' e']. simpl. exists e'. reflexivity.
Qed.

Lemma evs_pedir {A : Type} (p : Peticion) (hacer : Remoto -> Respuesta A * Remoto)
    (s : S) (w : Mundo) :
  evs (pedir p hacer s w) = [EvPeticion p].
Proof.
  unfold pedir. destruct (guion w) as [|[e|] g]; simpl; try reflexivity;
    destruct (hacer (remoto w)); reflexivity.
Qed.

End Eventos.

(* ===================================================================== *)
(** * Part 14.  Deleting and creating transactions on the welcome screen  *)
(* ===================================================================== *)

Section Pantalla.
Import Welcome.
Local Open Scope float_scope.

Lemma filter_ajena (uid tid : Z) (ts : list TransaccionConCategoria) :
  Forall (fun t => t_id t = tid -> usuario_id t <> uid) ts ->
  List.filter (fun t => (t_id t =? tid)%Z && (usuario_id t =? uid)%Z) ts = [].
Proof.
  induction 1 as [|t r Ht _ IH]; simpl; [reflexivity|].
  destruct (t_id t =? tid)%Z eqn:Ei; simpl; [|exact IH].
  apply Z.eqb_eq in Ei. apply Ht in Ei. apply Z.eqb_neq in Ei. rewrite Ei. exact IH.
Qed.

(** C6.  When the transaction to delete does not belong to the caller (no
    row has both that id and the caller's id) or the ownership lookup comes
    back with an error, [eliminarTransaccion] shows the permission message
    and returns: the lookup is the only request sent, so the remote delete
    procedure is not invoked, the store is as it was, and the transaction
    list, the balance and the two category breakdowns of the screen are
    unchanged. *)
Theorem C6_eliminar_ajena_rechazada
    (user : option Usuario) (usuarioId transaccionId : Z) (monto : number)
    (s : Estado) (w : Mundo) :
  atendida (guion w) = false
  \/ Forall (fun t => t_id t = transaccionId -> usuario_id t <> usuarioId)
            (tabla_transacciones (remoto w)) ->
  let o := eliminarTransaccion user usuarioId transaccionId monto s w in
  evs o = [EvPeticion (SelectTransaccion transaccionId usuarioId);
           EvToast (Toast.params toastInfo "Información"
                      (Some [Lit "No tienes permiso para eliminar esta transacción"]))]
  /\ res o = Ok tt
  /\ remoto (mun o) = remoto w
  /\ transacciones (est o) = transacciones s
  /\ saldo (est o) = saldo s
  /\ datosIngresos (est o) = datosIngresos s
  /\ datosEgresos (est o) = datosEgresos s.
Proof.
  intros H o.
  unfold o, eliminarTransaccion, tryFinally, tryCatch, bind, pedir, hacerSelectTransaccion.
  simpl. destruct (guion w) as [|[e|] g] eqn:Hg; simpl.
  - destruct H as [H|H]; [discriminate H|].
    rewrite (filter_ajena _ _ _ H). simpl. repeat split.
  - repeat split.
  - destruct H as [H|H]; [discriminate H|].
    rewrite (filter_ajena _ _ _ H). simpl. repeat split.
Qed.

Lemma C6_eliminar_ajena_rechazada_witness :
  let o := eliminarTransaccion (Some Ejemplos.ana) 10 4 5 Ejemplos.pantallaGasto
             {| remoto := Ejemplos.remotoConAna; guion := [] |} in
  Spec.peticiones (evs o) = [SelectTransaccion 4 10]
  /\ remoto (mun o) = Ejemplos.remotoConAna
  /\ saldo (est o) = 60.25.
Proof.
  pose proof (C6_eliminar_ajena_rechazada (Some Ejemplos.ana) 10 4 5 Ejemplos.pantallaGasto
                {| remoto := Ejemplos.remotoConAna; guion := [] |}) as H.
  cbv zeta in H.
  destruct H as (He & _ & Hr & _ & Hs & _).
  - right. repeat constructor; simpl; intros; discriminate.
  - split; [rewrite He; reflexivity|]. split; [exact Hr|exact Hs].
Defined.

(** X1.  When the store answers, [obtenerSaldoActual] sets the balance of the
    screen to the fold over the rows the store holds for the user at that
    moment, and leaves the store as it was. *)
Theorem X1_obtenerSaldoActual_recalcula (u : Usuario) (s : Estado) (w : Mundo) :
  atendida (guion w) = true ->
  let o := obtenerSaldoActual (Some u) s w in
  saldo (est o)
  = nuevoSaldo (List.filter (fun t => (usuario_id t =? u_id u)%Z)
                            (tabla_transacciones (remoto w)))
  /\ res o = Ok tt
  /\ remoto (mun o) = remoto w
  /\ transacciones (est o) = transacciones s.
Proof.
  intros Ha o. unfold o, obtenerSaldoActual, tryCatch, bind, pedir.
  destruct (guion w) as [|[e|] g]; try discriminate Ha; simpl;
    match goal with |- context [PrimFloat.ltb ?x 0] => destruct (PrimFloat.ltb x 0) end;
    simpl; repeat split.
Qed.

Lemma X1_obtenerSaldoActual_recalcula_witness :
  saldo (est (obtenerSaldoActual (Some Ejemplos.ana) Ejemplos.pantallaGasto
                {| remoto := Ejemplos.remotoConAna; guion := [] |}))
  = nuevoSaldo [Ejemplos.cobro; Ejemplos.almuerzo].
Proof.
  apply (proj1 (X1_obtenerSaldoActual_recalcula Ejemplos.ana Ejemplos.pantallaGasto
                  {| remoto := Ejemplos.remotoConAna; guion := [] |} eq_refl)).
Defined.

(** The events with which [agregarTransaccion] starts once the amount and
    the category have passed validation: what the check against the balance
    shows, then the create request. *)
Lemma agregarTransaccion_comienzo
    (user : option Usuario) (s : Estado) (w : Mundo) (cat : Categoria) :
  categoriaSeleccionada s = Some cat ->
  vacia (Welcome.monto s) = false ->
  isNaN (Number (Welcome.monto s)) || PrimFloat.leb (Number (Welcome.monto s)) 0 = false ->
  tipoSeleccionado s = egreso ->
  exists resto,
    evs (agregarTransaccion user s w)
    = ((if PrimFloat.ltb (saldo s) (Number (Welcome.monto s))
        then evs (mostrarAdvertenciaSaldoNegativo (Number (Welcome.monto s)) (saldo s) s w)
        else [])
       ++ EvPeticion (RpcCrearTransaccion (option_map u_id user) (c_id cat)
                        (Number (Welcome.monto s)) "egreso"
                        (if vacia (descripcion s) then None else Some (descripcion s)))
          :: resto)%list.
Proof.
  intros Hc Hv Hn Ht.
  unfold agregarTransaccion.
  rewrite (bind_ok leer _ s s w w s []) by reflexivity.
  cbv beta. rewrite Hc, Hv, Hn, Ht. rewrite evs_anteponer. simpl app.
  match goal with |- context [tryFinally ?m ?f s w] =>
    destruct (evs_tryFinally m f s w) as [r1 E1]; rewrite E1; clear E1 end.
  match goal with |- context [tryCatch ?m ?h s w] =>
    destruct (evs_tryCatch m h s w) as [r2 E2]; rewrite E2; clear E2 end.
  erewrite bind_ok by reflexivity. rewrite evs_anteponer.
  destruct (PrimFloat.ltb (saldo s) (Number (Welcome.monto s))).
  - erewrite bind_ok by reflexivity. rewrite evs_anteponer.
    match goal with |- context [evs (bind ?m ?k ?s' ?w')] =>
      destruct (evs_bind m k s' w') as [r3 E3]; rewrite E3; clear E3 end.
    rewrite evs_pedir. eexists. simpl. rewrite <- !app_assoc. reflexivity.
  - erewrite bind_ok by reflexivity. rewrite evs_anteponer.
    match goal with |- context [evs (bind ?m ?k ?s' ?w')] =>
      destruct (evs_bind m k s' w') as [r3 E3]; rewrite E3; clear E3 end.
    rewrite evs_pedir. eexists. simpl. rewrite <- !app_assoc. reflexivity.
Qed.

(** C7.  For an expense that passes validation: when the amount exceeds
    the balance held by the screen, the warning toast is shown and, with no
    input awaited, the create procedure is invoked right after it; when the
    amount does not exceed the balance, the create request is the first
    thing the run does.  The warning resolves to [true] in every state. *)
Theorem C7_advertencia_siempre_afirmada
    (user : option Usuario) (s : Estado) (w : Mundo) (cat : Categoria) :
  categoriaSeleccionada s = Some cat ->
  vacia (Welcome.monto s) = false ->
  isNaN (Number (Welcome.monto s)) || PrimFloat.leb (Number (Welcome.monto s)) 0 = false ->
  tipoSeleccionado s = egreso ->
  let montoNumerico := Number (Welcome.monto s) in
  let aviso := fun m sal : number =>
    EvToast (Toast.params toastInfo "Advertencia de Saldo" (Some (textoAdvertencia m sal))) in
  let crear :=
    EvPeticion (RpcCrearTransaccion (option_map u_id user) (c_id cat) montoNumerico "egreso"
                  (if vacia (descripcion s) then None else Some (descripcion s))) in
  (PrimFloat.ltb (saldo s) montoNumerico = true ->
   exists resto, evs (agregarTransaccion user s w) = aviso montoNumerico (saldo s) :: crear :: resto)
  /\ (PrimFloat.ltb (saldo s) montoNumerico = false ->
      exists resto, evs (agregarTransaccion user s w) = crear :: resto)
  /\ (forall (m sal : number) (s0 : Estado) (w0 : Mundo),
        mostrarAdvertenciaSaldoNegativo m sal s0 w0
        = {| res := Ok true; est := s0; mun := w0; evs := [aviso m sal] |}).
Proof.
  intros Hc Hv Hn Ht montoNumerico aviso crear.
  destruct (agregarTransaccion_comienzo user s w cat Hc Hv Hn Ht) as [resto E].
  fold montoNumerico in E. split; [|split].
  - intros Hl. rewrite Hl in E. exists resto. exact E.
  - intros Hl. rewrite Hl in E. exists resto. exact E.
  - intros m sal s0 w0. reflexivity.
Qed.

Lemma C7_advertencia_siempre_afirmada_witness :
  exists resto,
    Spec.peticiones
      (evs (agregarTransaccion (Some Ejemplos.ana) Ejemplos.pantallaGasto
              {| remoto := Ejemplos.remotoConAna; guion := [] |}))
    = RpcCrearTransaccion (Some 10%Z) 7%Z 500 "egreso" None :: Spec.peticiones resto.
Proof.
  destruct (C7_advertencia_siempre_afirmada (Some Ejemplos.ana) Ejemplos.pantallaGasto
              {| remoto := Ejemplos.remotoConAna; guion := [] |} Ejemplos.comida
              eq_refl eq_refl eq_refl eq_refl) as (H & _ & _).
  destruct (H eq_refl) as [resto E].
  exists resto. rewrite E. reflexivity.
Defined.

Example agregar_gasto_mayor :
  let o := agregarTransaccion (Some Ejemplos.ana) Ejemplos.pantallaGasto
             {| remoto := Ejemplos.remotoConAna; guion := [] |} in
  Spec.peticiones (evs o)
  = [RpcCrearTransaccion (Some 10%Z) 7%Z 500 "egreso" None;
     SelectTransaccionesConCategorias (Some 10%Z); SelectCategorias;
     SelectTransaccionesDe (Some 10%Z)]
  /\ saldo (est o) = -439.75
  /\ List.length (tabla_transacciones (remoto (mun o))) = 4%nat.
Proof. vm_compute. repeat split. Qed.

Example agregar_gasto_menor :
  let o := agregarTransaccion (Some Ejemplos.ana) Ejemplos.pantallaGastoMenor
             {| remoto := Ejemplos.remotoConAna; guion := [] |} in
  List.map (fun e => match e with EvToast t => text1 t | EvPeticion _ => "" end) (evs o)
  = [""; ""; ""; ""; "Información"]
  /\ saldo (est o) = 40.25.
Proof. vm_compute. repeat split. Qed.

End Pantalla.

(* ===================================================================== *)
(** * Part 15.  Validation of the amount                                  *)
(* ===================================================================== *)

Section Validacion.
Local Open Scope float_scope.

(** C3, evaluated.  The first half fails on the code.  With the amount of
    the scenario, "S/. 1,250.50abc", typed on a signed-in income screen,
    [handleAddIncome] keeps the dot of the currency prefix when it strips
    the text, [parseFloat] reads [.1250], the amount 0.125 passes the
    validation, and the run stores a row with amount 0.125, not 1250.50,
    and ends with the success toast; on the welcome screen
    [agregarTransaccion] strips nothing and turns the same text down.  The
    second half holds: on a signed-in income screen, an input whose stripped
    text is not a number or is <= 0 is turned down by [handleAddIncome] with
    one of the two validation messages, without any request and without any
    change, and an amount for which [Number] is not a positive number is
    turned down by [agregarTransaccion] with a message, again without any
    request. *)
Theorem C3_monto_validado
    (now : string) (s : Income.Estado) (w : Mundo)
    (user : option Usuario) (s' : Welcome.Estado) (w' : Mundo) :
  (let o := Income.handleAddIncome now (Ejemplos.pantallaIngreso "S/. 1,250.50abc")
              {| remoto := Ejemplos.remotoConSesion; guion := [] |} in
   conservar Income.esNumerico "S/. 1,250.50abc" = ".1250.50"
   /\ parseFloat (conservar Income.esNumerico "S/. 1,250.50abc") = 0.125
   /\ parseFloat (conservar Income.esNumerico "S/. 1,250.50abc") <> 1250.5
   /\ res o = Ok tt
   /\ List.map amount (tabla_transactions (remoto (mun o))) = [0.125]
   /\ List.map amount (Income.transactions (est o)) = [0.125]
   /\ last (evs o)
      = Some (EvToast (Toast.params toastSuccess "Éxito"
                         (Some [Lit "Ingreso guardado correctamente"])))
   /\ isNaN (Number "S/. 1,250.50abc") = true)
  /\ (Income.isAuthenticated s = true ->
      isNaN (parseFloat (conservar Income.esNumerico (Income.amount s)))
      || PrimFloat.leb (parseFloat (conservar Income.esNumerico (Income.amount s))) 0 = true ->
      let o := Income.handleAddIncome now s w in
      res o = Ok tt /\ est o = s /\ mun o = w
      /\ Spec.peticiones (evs o) = []
      /\ (evs o = [EvToast (Toast.params toastError "Error"
                              (Some [Lit "Por favor ingresa un monto"]))]
          \/ evs o = [EvToast (Toast.params toastError "Error"
                                 (Some [Lit "El monto debe ser un número válido mayor a 0"]))]))
  /\ (isNaN (Number (Welcome.monto s')) || PrimFloat.leb (Number (Welcome.monto s')) 0 = true ->
      let o := Welcome.agregarTransaccion user s' w' in
      res o = Ok tt /\ est o = s' /\ mun o = w'
      /\ Spec.peticiones (evs o) = []
      /\ exists mensaje : Texto,
           evs o = [EvToast (Toast.params toastInfo "Información" (Some mensaje))]).
Proof.
  split; [|split].
  - cbv zeta. split; [reflexivity|]. split; [vm_compute; reflexivity|].
    split.
    + intros H. apply (f_equal (fun x => PrimFloat.eqb x 1250.5)) in H.
      vm_compute in H. discriminate H.
    + unfold Income.handleAddIncome.
      rewrite (bind_ok Income.leer _ _ _ _ _ (Ejemplos.pantallaIngreso "S/. 1,250.50abc") [])
        by reflexivity.
      cbv beta zeta.
      change (Income.amount (Ejemplos.pantallaIngreso "S/. 1,250.50abc"))
        with "S/. 1,250.50abc".
      replace (parseFloat (conservar Income.esNumerico "S/. 1,250.50abc")) with 0.125
        by (vm_compute; reflexivity).
      vm_compute. repeat split.
  - intros Ha Hn o. unfold o, Income.handleAddIncome.
    rewrite (bind_ok Income.leer _ s s w w s []) by reflexivity.
    cbv beta. rewrite Ha, Hn. simpl negb. cbv iota.
    destruct (vacia (trim (Income.amount s))); simpl; repeat split; auto.
  - intros Hn o. unfold o, Welcome.agregarTransaccion.
    rewrite (bind_ok Welcome.leer _ s' s' w' w' s' []) by reflexivity.
    cbv beta. rewrite Hn.
    destruct (Welcome.categoriaSeleccionada s'); [destruct (vacia (Welcome.monto s'))|];
      simpl; repeat split; eexists; reflexivity.
Qed.

Lemma C3_monto_validado_witness :
  let o := Income.handleAddIncome "2024-06-20T10:00:00.000Z" (Ejemplos.pantallaIngreso "abc")
             {| remoto := Ejemplos.remotoConSesion; guion := [] |} in
  let o' := Welcome.agregarTransaccion (Some Ejemplos.ana)
              (Ejemplos.pantallaMonto "S/. 1,250.50abc")
              {| remoto := Ejemplos.remotoConAna; guion := [] |} in
  Spec.peticiones (evs o) = [] /\ Spec.peticiones (evs o') = [].
Proof.
  destruct (C3_monto_validado "2024-06-20T10:00:00.000Z" (Ejemplos.pantallaIngreso "abc")
              {| remoto := Ejemplos.remotoConSesion; guion := [] |}
              (Some Ejemplos.ana) (Ejemplos.pantallaMonto "S/. 1,250.50abc")
              {| remoto := Ejemplos.remotoConAna; guion := [] |}) as (_ & H1 & H2).
  cbv zeta in H1, H2.
  destruct (H1 eq_refl eq_refl) as (_ & _ & _ & E1 & _).
  destruct (H2 eq_refl) as (_ & _ & _ & E2 & _).
  split; [exact E1|exact E2].
Defined.

End Validacion.

(* ===================================================================== *)
(** * Part 16.  Category aggregation and totals                           *)
(* ===================================================================== *)

Section Agregacion.
Import Income.
Local Open Scope float_scope.
Local Open Scope list_scope.






Example agregacion_junio :
  incomesByCategory
    (currentMonthIncomes fechasUTC Ejemplos.ahoraJunio2024
       [Ejemplos.sueldoJunio2024; Ejemplos.sueldoMayo2024]) !! "Salario" = Some 250
  /\ totalIncome [Ejemplos.sueldoJunio2023; Ejemplos.sueldoJunio2024; Ejemplos.sueldoMayo2024]
     = 420.
Proof. vm_compute. split; reflexivity. Qed.

End Agregacion.

(* ===================================================================== *)
(** * Part 17.  Registration and login, continued                         *)
(* ===================================================================== *)

Section AccesoMas.
Import AuthContext Sesion Guiones.
Local Open Scope list_scope.

Lemma atendida_casos (g : list (option PostgrestError)) :
  atendida g = true -> g = [] \/ exists g', g = None :: g'.
Proof.
  destruct g as [|[e|] g']; intros H; [left; reflexivity|discriminate H|].
  right. exists g'. reflexivity.
Qed.

(** A request that gets through is answered by the tables. *)
Lemma pedir_atendida {S A : Type} (p : Peticion) (hacer : Remoto -> Respuesta A * Remoto)
    (s : S) (w : Mundo) :
  atendida (guion w) = true ->
  pedir p hacer s w
  = {| res := Ok (fst (hacer (remoto w))); est := s;
       mun := {| remoto := snd (hacer (remoto w)); guion := List.tl (guion w) |};
       evs := [EvPeticion p] |}.
Proof.
  intros H. unfold pedir.
  destruct (atendida_casos _ H) as [E|[g' E]]; rewrite E; simpl;
    destruct (hacer (remoto w)); reflexivity.
Qed.

Lemma pedir_fallida {S A : Type} (p : Peticion) (hacer : Remoto -> Respuesta A * Remoto)
    (s : S) (w : Mundo) (e : PostgrestError) (g : list (option PostgrestError)) :
  guion w = Some e :: g ->
  pedir p hacer s w
  = {| res := Ok (Fallo e); est := s; mun := {| remoto := remoto w; guion := g |};
       evs := [EvPeticion p] |}.
Proof. intros H. unfold pedir. rewrite H. reflexivity. Qed.

Lemma signIn_acepta (C : Cripto) (g p : string) (s : AuthState) (w : Mundo) (u : Usuario) :
  atendida (guion w) = true ->
  List.filter (fun x => String.eqb (gmail x) g) (tabla_usuarios (remoto w)) = [u] ->
  contrasena u = hashPassword C p ->
  signIn C g p s w
  = {| res := Ok tt; est := {| user := Some u; loading := loading s |};
       mun := {| remoto := remoto w; guion := List.tl (guion w) |};
       evs := [EvPeticion (SelectUsuarioPorGmail g)] |}.
Proof.
  intros Ha Hf Hc.
  unfold signIn, tryCatch, bind.
  rewrite (pedir_atendida _ _ _ _ Ha). unfold hacerSelectUsuarioPorGmail.
  simpl. rewrite Hf. simpl.
  apply String.eqb_eq in Hc. rewrite Hc. reflexivity.
Qed.

(** X2.  [signIn] resolves exactly when the lookup gets through, finds one
    user row for the email, and the stored hash is [hashPassword] of the
    password; the in-memory user is then that row.  In every other case it
    throws the generic error. *)
Theorem X2_signIn_acepta_sii (C : Cripto) (g p : string) (s : AuthState) (w : Mundo) :
  let o := signIn C g p s w in
  (res o = Ok tt <->
   atendida (guion w) = true
   /\ exists u : Usuario,
        List.filter (fun x => String.eqb (gmail x) g) (tabla_usuarios (remoto w)) = [u]
        /\ contrasena u = hashPassword C p)
  /\ (res o = Ok tt ->
      exists u : Usuario,
        List.filter (fun x => String.eqb (gmail x) g) (tabla_usuarios (remoto w)) = [u]
        /\ user (est o) = Some u)
  /\ (res o <> Ok tt -> res o = Lanza (JsError "Credenciales incorrectas") /\ est o = s).
Proof.
  intros o.
  destruct (signIn_desenlaces C g p s w) as (_ & _ & D). fold o in D.
  split; [split|split].
  - intros Hok. destruct D as [[D _]|(u & _ & _ & Hc & Hg & Hf)].
    + rewrite D in Hok. discriminate Hok.
    + split; [|exists u; split; assumption].
      destruct Hg as [->|[g' ->]]; reflexivity.
  - intros (Ha & u & Hf & Hc).
    unfold o. rewrite (signIn_acepta C g p s w u Ha Hf Hc). reflexivity.
  - intros Hok. destruct D as [[D _]|(u & _ & He & _ & _ & Hf)].
    + rewrite D in Hok. discriminate Hok.
    + exists u. split; [exact Hf|]. rewrite He. reflexivity.
  - intros Hno. destruct D as [D|(u & Hok & _)]; [exact D|contradiction].
Qed.

(** What [signUp] leaves when both inserts get through. *)
Lemma signUp_exito (C : Cripto) (nombre apellido usuario gmail contrasena : string)
    (s : AuthState) (w : Mundo) :
  atendida (guion w) = true ->
  atendida (List.tl (guion w)) = true ->
  let fila := {| u_id := siguiente_id (remoto w); nombre := nombre; apellido := apellido;
                 Supabase.usuario := usuario; gmail := gmail;
                 contrasena := hashPassword C contrasena |} in
  signUp C nombre apellido usuario gmail contrasena s w
  = {| res := Ok tt; est := {| user := Some fila; loading := loading s |};
       mun := {| remoto :=
                   conBilletera
                     (tabla_billetera (remoto w)
                      ++ [{| b_usuario_id := siguiente_id (remoto w); b_saldo := 0%float |}])
                     (conSiguiente (conUsuarios (tabla_usuarios (remoto w) ++ [fila]) (remoto w)));
                 guion := List.tl (List.tl (guion w)) |};
       evs := [EvPeticion (InsertUsuario
                             {| nu_nombre := nombre; nu_apellido := apellido;
                                nu_usuario := usuario; nu_gmail := gmail;
                                nu_contrasena := hashPassword C contrasena |});
               EvPeticion (InsertBilletera (siguiente_id (remoto w)) 0%float)] |}.
Proof.
  intros H1 H2 fila. unfold signUp, tryCatch, bind.
  rewrite (pedir_atendida _ _ _ _ H1). simpl.
  rewrite pedir_atendida by exact H2. reflexivity.
Qed.

(** X3.  Registration followed by login.  When the two inserts of
    [signUp] get through, the new row holds [hashPassword] of the password,
    a wallet row with balance 0 is added for its id, and the in-memory user
    is the new row.  If no row had that email before, a later [signIn] with the same
    email and password on the same device resolves with that row, and one
    with a password of a different hash is turned down. *)
Theorem X3_registro_y_acceso
    (C : Cripto) (nombre apellido usuario gmail contrasena : string)
    (s : AuthState) (w : Mundo) :
  atendida (guion w) = true ->
  atendida (List.tl (guion w)) = true ->
  List.filter (fun x => String.eqb (Supabase.gmail x) gmail) (tabla_usuarios (remoto w)) = [] ->
  let o := signUp C nombre apellido usuario gmail contrasena s w in
  let fila := {| u_id := siguiente_id (remoto w); nombre := nombre; apellido := apellido;
                 Supabase.usuario := usuario; gmail := gmail;
                 contrasena := hashPassword C contrasena |} in
  res o = Ok tt
  /\ user (est o) = Some fila
  /\ tabla_usuarios (remoto (mun o)) = tabla_usuarios (remoto w) ++ [fila]
  /\ tabla_billetera (remoto (mun o))
     = tabla_billetera (remoto w)
       ++ [{| b_usuario_id := siguiente_id (remoto w); b_saldo := 0%float |}]
  /\ (forall s' : AuthState,
        atendida (guion (mun o)) = true ->
        res (signIn C gmail contrasena s' (mun o)) = Ok tt
        /\ user (est (signIn C gmail contrasena s' (mun o))) = Some fila)
  /\ (forall (s' : AuthState) (otra : string),
        hashPassword C otra <> hashPassword C contrasena ->
        res (signIn C gmail otra s' (mun o)) = Lanza (JsError "Credenciales incorrectas")).
Proof.
  intros H1 H2 Hn o fila.
  unfold o. rewrite (signUp_exito C nombre apellido usuario gmail contrasena s w H1 H2).
  cbn [res est mun remoto guion user].
  assert (Hf : List.filter (fun x => String.eqb (Supabase.gmail x) gmail)
                 (tabla_usuarios (remoto w) ++ [fila]) = [fila]).
  { rewrite List.filter_app, Hn. simpl. rewrite String.eqb_refl. reflexivity. }
  split; [reflexivity|]. split; [reflexivity|]. split; [reflexivity|].
  split; [reflexivity|]. split.
  - intros s' Ha.
    match goal with |- res (signIn C gmail contrasena s' ?w') = _ /\ _ =>
      rewrite (signIn_acepta C gmail contrasena s' w' fila Ha Hf eq_refl)
    end.
    split; reflexivity.
  - intros s' otra Hne.
    match goal with |- res (signIn C gmail otra s' ?w') = _ =>
      destruct (signIn_desenlaces C gmail otra s' w') as (_ & _ & [[D _]|(u & _ & _ & Hc & _ & Hu)])
    end; [exact D|].
    change (List.filter (fun x => String.eqb (Supabase.gmail x) gmail)
              (tabla_usuarios (remoto w) ++ [fila]) = [u]) in Hu.
    rewrite Hf in Hu. injection Hu as <-.
    change (hashPassword C contrasena = hashPassword C otra) in Hc.
    symmetry in Hc. contradiction.
Qed.

Lemma X3_registro_y_acceso_witness :
  let o := signUp Dispositivos.navegador "Ana" "Paz" "ana" "ana@example.com" "abc"
             Ejemplos.sinUsuario {| remoto := Ejemplos.remotoVacio; guion := [] |} in
  res o = Ok tt
  /\ res (signIn Dispositivos.navegador "ana@example.com" "abc" Ejemplos.sinUsuario (mun o))
     = Ok tt.
Proof.
  pose proof (X3_registro_y_acceso Dispositivos.navegador "Ana" "Paz" "ana" "ana@example.com"
                "abc" Ejemplos.sinUsuario {| remoto := Ejemplos.remotoVacio; guion := [] |}
                eq_refl eq_refl eq_refl) as H.
  cbv zeta in H. destruct H as (H1 & _ & _ & _ & H2 & _).
  split; [exact H1|]. apply (H2 Ejemplos.sinUsuario). reflexivity.
Defined.

(** X4.  When the insert of the user row fails, [signUp] stops there: it
    throws that error, sends nothing else, and leaves the store and the
    in-memory user as they were. *)
Theorem X4_signUp_primer_fallo
    (C : Cripto) (nombre apellido usuario gmail contrasena : string)
    (s : AuthState) (w : Mundo) (userError : PostgrestError)
    (g : list (option PostgrestError)) :
  guion w = Some userError :: g ->
  let o := signUp C nombre apellido usuario gmail contrasena s w in
  res o = Lanza (Rechazo userError)
  /\ est o = s
  /\ remoto (mun o) = remoto w
  /\ Spec.peticiones (evs o)
     = [InsertUsuario {| nu_nombre := nombre; nu_apellido := apellido; nu_usuario := usuario;
                         nu_gmail := gmail; nu_contrasena := hashPassword C contrasena |}].
Proof.
  intros Hg o. unfold o, signUp, tryCatch, bind.
  rewrite (pedir_fallida _ _ _ _ _ _ Hg). simpl. repeat split.
Qed.

Lemma X4_signUp_primer_fallo_witness :
  let o := signUp Dispositivos.sinSubtle "Ana" "Paz" "ana" "ana@example.com" "abc"
             Ejemplos.sinUsuario
             {| remoto := Ejemplos.remotoVacio; guion := [Some Ejemplos.sinConexion] |} in
  res o = Lanza (Rechazo Ejemplos.sinConexion) /\ remoto (mun o) = Ejemplos.remotoVacio.
Proof.
  pose proof (X4_signUp_primer_fallo Dispositivos.sinSubtle "Ana" "Paz" "ana"
                "ana@example.com" "abc" Ejemplos.sinUsuario
                {| remoto := Ejemplos.remotoVacio; guion := [Some Ejemplos.sinConexion] |}
                Ejemplos.sinConexion [] eq_refl) as H.
  cbv zeta in H. destruct H as (H1 & _ & H2 & _).
  split; [exact H1|exact H2].
Defined.

Lemma signUp_loading (C : Cripto) (nombre apellido usuario gmail contrasena : string)
    (s : AuthState) (w : Mundo) :
  loading (est (signUp C nombre apellido usuario gmail contrasena s w)) = loading s.
Proof.
  unfold signUp, tryCatch, bind, pedir. simpl.
  destruct (guion w) as [|[e1|] [|[e2|] [|[e3|] g3]]]; reflexivity.
Qed.

Lemma operar_loading (C : Cripto) (op : Operacion) (s : AuthState) (w : Mundo) :
  loading (est (operar C op s w)) = loading s.
Proof.
  destruct op as [n a u g c|g c|]; simpl.
  - apply signUp_loading.
  - destruct (signIn_desenlaces C g c s w) as (_ & _ & [[_ ->]|(u & _ & -> & _)]); reflexivity.
  - reflexivity.
Qed.

(** X5.  No operation of the provider ever changes [loading]: after any
    run of sign-ups, logins and sign-outs it is what it was.  As it starts
    at [true], the redirect of the provider's own effect, which waits for
    [loading] to be false, never happens; it is the effect of the root
    layout that sends a screen without user to the login route, once the
    navigation state has a key. *)
Theorem X5_loading_nunca_cambia (C : Cripto) (ops : list Operacion) (s : AuthState) (w : Mundo) :
  loading (fst (sesion C ops s w)) = loading s
  /\ (forall ruta : string,
        efectoAuthProvider (fst (sesion C ops estadoInicial w)) ruta = ruta)
  /\ (forall k ruta : string,
        vacia k = false ->
        user (fst (sesion C ops estadoInicial w)) = None ->
        efectoRootLayoutNav (Some k) (fst (sesion C ops estadoInicial w)) ruta = "/auth/login").
Proof.
  assert (H : forall ops s w, loading (fst (sesion C ops s w)) = loading s).
  { clear. intros ops. induction ops as [|op r IH]; intros s w; [reflexivity|].
    simpl. rewrite IH. apply operar_loading. }
  split; [apply H|]. split.
  - intros ruta. unfold efectoAuthProvider.
    destruct (user (fst (sesion C ops estadoInicial w))); [reflexivity|].
    rewrite H. reflexivity.
  - intros k ruta Hk Hu. unfold efectoRootLayoutNav. rewrite Hk, Hu. reflexivity.
Qed.

Lemma X5_loading_nunca_cambia_witness :
  efectoRootLayoutNav (Some "stack-1")
    (fst (sesion Dispositivos.navegador [OpSignIn "ana@example.com" "otra"; OpSignOut]
            estadoInicial {| remoto := Ejemplos.remotoConAna; guion := [] |}))
    "/screens/welcome"
  = "/auth/login".
Proof.
  apply (proj2 (proj2 (X5_loading_nunca_cambia Dispositivos.navegador
                         [OpSignIn "ana@example.com" "otra"; OpSignOut]
                         estadoInicial {| remoto := Ejemplos.remotoConAna; guion := [] |})));
    reflexivity.
Defined.

End AccesoMas.

(* ===================================================================== *)
(** * Part 18.  The fallback hash                                         *)
(* ===================================================================== *)

Section HashSimple.
Import AuthContext Sesion.
Local Open Scope list_scope.

Lemma toInt32_mod_eq (a : Z) : toInt32 a mod 2 ^ 32 = a mod 2 ^ 32.
Proof.
  unfold toInt32. rewrite Zminus_mod_idemp_l. f_equal. lia.
Qed.

Lemma toInt32_mod (a b : Z) : a mod 2 ^ 32 = b mod 2 ^ 32 -> toInt32 a = toInt32 b.
Proof.
  intros H. unfold toInt32. f_equal.
  rewrite <- (Zplus_mod_idemp_l a), <- (Zplus_mod_idemp_l b), H. reflexivity.
Qed.

Lemma toInt32_rango (a : Z) : - 2 ^ 31 <= toInt32 a < 2 ^ 31.
Proof.
  unfold toInt32.
  pose proof (Z.mod_pos_bound (a + 2 ^ 31) (2 ^ 32) ltac:(lia)). lia.
Qed.

(** One round of the loop is [31 * hash + char], wrapped to 32 bits. *)
Lemma pasoHash_31 (h : Z) (c : ascii) : pasoHash h c = toInt32 (31 * h + charCode c).
Proof.
  unfold pasoHash. apply toInt32_mod.
  rewrite <- Zplus_mod_idemp_l, <- Zminus_mod_idemp_l, toInt32_mod_eq.
  rewrite Zminus_mod_idemp_l, Zplus_mod_idemp_l. f_equal. lia.
Qed.

Lemma fold_pasoHash (l : list ascii) :
  forall h : Z,
    fold_left pasoHash l (toInt32 h)
    = toInt32 (fold_left (fun h c => 31 * h + charCode c) l h).
Proof.
  induction l as [|c r IH]; intros h; [reflexivity|].
  simpl. rewrite <- IH. f_equal.
  rewrite pasoHash_31. apply toInt32_mod.
  rewrite <- Zplus_mod_idemp_l, <- Zmult_mod_idemp_r, toInt32_mod_eq.
  rewrite Zmult_mod_idemp_r, Zplus_mod_idemp_l. reflexivity.
Qed.

Lemma hashSimple_polinomio (p : string) :
  hashSimple p = padStart 8 "0" (toString16 (Z.abs (toInt32 (polinomio31 p)))).
Proof.
  unfold hashSimple, polinomio31. rewrite <- fold_pasoHash. reflexivity.
Qed.

Lemma digitoHex_hex (d : Z) : 0 <= d < 16 -> esHexMinuscula (digitoHex d) = true.
Proof.
  intros H.
  assert (E : d = 0 \/ d = 1 \/ d = 2 \/ d = 3 \/ d = 4 \/ d = 5 \/ d = 6 \/ d = 7 \/ d = 8
              \/ d = 9 \/ d = 10 \/ d = 11 \/ d = 12 \/ d = 13 \/ d = 14 \/ d = 15) by lia.
  repeat (destruct E as [->|E]; [reflexivity|]). subst d. reflexivity.
Qed.

Lemma hexDigitos_forma (fuel : nat) :
  forall (k : nat) (n : Z) (acc : string),
    0 <= n < 16 ^ Z.of_nat (S k) ->
    forallb esHexMinuscula (list_ascii_of_string acc) = true ->
    (String.length (hexDigitos fuel n acc) <= String.length acc + S k)%nat
    /\ forallb esHexMinuscula (list_ascii_of_string (hexDigitos fuel n acc)) = true.
Proof.
  induction fuel as [|f IH]; intros k n acc Hn Hacc; simpl.
  - split; [lia|exact Hacc].
  - assert (Hd : esHexMinuscula (digitoHex (n mod 16)) = true).
    { apply digitoHex_hex. apply Z.mod_pos_bound. lia. }
    destruct (n / 16 =? 0) eqn:E.
    + simpl. rewrite Hd, Hacc. split; [lia|reflexivity].
    + apply Z.eqb_neq in E.
      destruct k as [|k'].
      * exfalso. apply E. apply Z.div_small. change (16 ^ Z.of_nat 1) with 16 in Hn. lia.
      * assert (Hq : 0 <= n / 16 < 16 ^ Z.of_nat (S k')).
        { split; [apply Z.div_pos; lia|].
          apply Z.div_lt_upper_bound; [lia|].
          replace (16 * 16 ^ Z.of_nat (S k')) with (16 ^ Z.of_nat (S (S k'))); [lia|].
          rewrite (Nat2Z.inj_succ (S k')), Z.pow_succ_r by lia. reflexivity. }
        destruct (IH k' (n / 16) (String (digitoHex (n mod 16)) acc) Hq) as [L F].
        { simpl. rewrite Hd, Hacc. reflexivity. }
        split; [simpl in L; lia|exact F].
Qed.

Lemma repetir_forma (k : nat) (c : ascii) (s : string) :
  String.length (repetir k c s) = (k + String.length s)%nat
  /\ (esHexMinuscula c = true ->
      forallb esHexMinuscula (list_ascii_of_string s) = true ->
      forallb esHexMinuscula (list_ascii_of_string (repetir k c s)) = true).
Proof.
  induction k as [|k [L F]]; simpl.
  - split; [reflexivity|intros _ H; exact H].
  - split; [lia|]. intros Hc Hs. rewrite Hc. simpl. apply F; assumption.
Qed.

(** X6.  The fallback of [hashPassword] is the polynomial hash
    [31 * hash + char] of the characters, reduced to a signed 32-bit
    integer, written without its sign: always exactly eight lowercase
    hexadecimal digits.  On a device without [crypto.subtle] this is the
    value of [hashPassword]. *)
Theorem X6_hash_simple_forma (C : Cripto) (p : string) :
  hashSimple p = padStart 8 "0" (toString16 (Z.abs (toInt32 (polinomio31 p))))
  /\ String.length (hashSimple p) = 8%nat
  /\ forallb esHexMinuscula (list_ascii_of_string (hashSimple p)) = true
  /\ (subtle C = None -> hashPassword C p = hashSimple p).
Proof.
  split; [apply hashSimple_polinomio|].
  assert (Hc : subtle C = None -> hashPassword C p = hashSimple p).
  { intros Hs. unfold hashPassword. rewrite Hs. reflexivity. }
  cut (String.length (hashSimple p) = 8%nat
       /\ forallb esHexMinuscula (list_ascii_of_string (hashSimple p)) = true).
  { intros [A B]. split; [exact A|]. split; [exact B|exact Hc]. }
  clear Hc. rewrite hashSimple_polinomio.
  set (n := Z.abs (toInt32 (polinomio31 p))).
  assert (Hn : 0 <= n < 16 ^ Z.of_nat 8).
  { unfold n. pose proof (toInt32_rango (polinomio31 p)).
    change (16 ^ Z.of_nat 8) with 4294967296. lia. }
  destruct (hexDigitos_forma (S (Z.to_nat (Z.log2 n))) 7 n "" Hn eq_refl) as [L F].
  fold (toString16 n) in L, F. simpl in L.
  unfold padStart.
  destruct (repetir_forma (8 - String.length (toString16 n)) "0" (toString16 n)) as [RL RF].
  split; [rewrite RL; lia|]. apply RF; [reflexivity|exact F].
Qed.

(** X7.  On a device without [crypto.subtle], two passwords whose
    polynomial sums agree modulo [2^32] have the same hash, so [signIn]
    lets in whoever gives either of them for an account registered with
    the other. *)
Theorem X7_colision_da_acceso (C : Cripto) (p p' : string) :
  subtle C = None ->
  polinomio31 p mod 2 ^ 32 = polinomio31 p' mod 2 ^ 32 ->
  hashPassword C p = hashPassword C p'
  /\ (forall (g : string) (s : AuthState) (w : Mundo) (u : Usuario),
        atendida (guion w) = true ->
        List.filter (fun x => String.eqb (gmail x) g) (tabla_usuarios (remoto w)) = [u] ->
        contrasena u = hashPassword C p ->
        res (signIn C g p' s w) = Ok tt
        /\ user (est (signIn C g p' s w)) = Some u).
Proof.
  intros Hs Hm.
  assert (E : hashPassword C p = hashPassword C p').
  { unfold hashPassword. rewrite Hs. rewrite !hashSimple_polinomio.
    rewrite (toInt32_mod _ _ Hm). reflexivity. }
  split; [exact E|].
  intros g s w u Ha Hf Hc. rewrite E in Hc.
  rewrite (signIn_acepta C g p' s w u Ha Hf Hc). split; reflexivity.
Qed.

Lemma X7_colision_da_acceso_witness :
  hashPassword Dispositivos.sinSubtle "clave-Aa" = hashPassword Dispositivos.sinSubtle "clave-BB".
Proof.
  apply (proj1 (X7_colision_da_acceso Dispositivos.sinSubtle "clave-Aa" "clave-BB"
                  eq_refl eq_refl)).
Defined.

End HashSimple.

(* ===================================================================== *)
(** * Part 19.  The welcome screen, continued                             *)
(* ===================================================================== *)

Section PantallaMas.
Import Welcome WelcomeMas Guiones.
Local Open Scope list_scope.

Ltac concluir :=
  repeat match goal with
         | |- _ /\ _ => split
         | |- forall _, _ => intro
         | H : _ \/ _ |- _ => destruct H
         | H : Some _ = Some _ |- _ => injection H as <-
         | H : _ = _ |- _ => discriminate H
         end;
  try reflexivity.

(** X8.  [cargarDatos] never throws and always ends with [loadingDatos]
    false, the store, the balance and [loading] untouched.  If the first
    select fails, the lists stay as they were and the error message is
    shown; if only the select of the categories fails, the transactions and
    their breakdown are already replaced while the categories stay; if both
    get through, the transactions are the user's rows and the categories
    the table's (in the order the store lists them), the breakdown is the
    one computed from the transactions shown, and no message appears. *)
Theorem X8_cargarDatos_desenlaces (user : option Usuario) (s : Estado) (w : Mundo) :
  let o := cargarDatos user s w in
  let sel1 := EvPeticion (SelectTransaccionesConCategorias (option_map u_id user)) in
  let aviso := avisoError "No se pudieron cargar los datos" in
  res o = Ok tt
  /\ loadingDatos (est o) = false
  /\ remoto (mun o) = remoto w
  /\ saldo (est o) = saldo s
  /\ loading (est o) = loading s
  /\ (atendida (guion w) = false ->
      transacciones (est o) = transacciones s
      /\ categorias (est o) = categorias s
      /\ datosIngresos (est o) = datosIngresos s
      /\ datosEgresos (est o) = datosEgresos s
      /\ evs o = [sel1; aviso])
  /\ (forall u : Usuario,
        user = Some u -> atendida (guion w) = true ->
        transacciones (est o) ≡ₚ filasDe (u_id u) (remoto w)
        /\ (datosIngresos (est o), datosEgresos (est o))
           = procesarTransacciones (transacciones (est o))
        /\ (atendida (List.tl (guion w)) = true ->
            categorias (est o) ≡ₚ tabla_categorias (remoto w)
            /\ evs o = [sel1; EvPeticion SelectCategorias])
        /\ (atendida (List.tl (guion w)) = false ->
            categorias (est o) = categorias s
            /\ evs o = [sel1; EvPeticion SelectCategorias; aviso])).
Proof.
  unfold cargarDatos, tryFinally, tryCatch, bind, pedir, filasDe. simpl.
  destruct (guion w) as [|[e1|] [|[e2|] g2]]; destruct user as [u0|]; simpl; concluir;
    symmetry; apply surjective_pairing.
Qed.

Lemma X8_cargarDatos_desenlaces_witness :
  let o := cargarDatos (Some Ejemplos.ana) (Ejemplos.pantallaMonto "20")
             {| remoto := Ejemplos.remotoConAna; guion := [] |} in
  transacciones (est o) ≡ₚ [Ejemplos.cobro; Ejemplos.almuerzo]
  /\ Spec.peticiones (evs o)
     = [SelectTransaccionesConCategorias (Some 10%Z); SelectCategorias].
Proof.
  destruct (X8_cargarDatos_desenlaces (Some Ejemplos.ana) (Ejemplos.pantallaMonto "20")
              {| remoto := Ejemplos.remotoConAna; guion := [] |})
    as (_ & _ & _ & _ & _ & _ & H).
  destruct (H Ejemplos.ana eq_refl eq_refl) as (Ht & _ & Hc & _).
  destruct (Hc eq_refl) as [_ Hv].
  cbv zeta. split; [exact Ht|]. rewrite Hv. reflexivity.
Defined.

Lemma cargarDatos_no_lanza (user : option Usuario) (s : Estado) (w : Mundo) :
  res (cargarDatos user s w) = Ok tt
  /\ loading (est (cargarDatos user s w)) = loading s
  /\ saldo (est (cargarDatos user s w)) = saldo s
  /\ remoto (mun (cargarDatos user s w)) = remoto w.
Proof.
  unfold cargarDatos, tryFinally, tryCatch, bind, pedir. simpl.
  destruct (guion w) as [|[e1|] [|[e2|] g2]]; destruct user as [u0|]; simpl; concluir.
Qed.

Lemma obtenerSaldoActual_no_lanza (user : option Usuario) (s : Estado) (w : Mundo) :
  res (obtenerSaldoActual user s w) = Ok tt
  /\ loading (est (obtenerSaldoActual user s w)) = loading s
  /\ transacciones (est (obtenerSaldoActual user s w)) = transacciones s
  /\ remoto (mun (obtenerSaldoActual user s w)) = remoto w.
Proof.
  unfold obtenerSaldoActual, tryCatch, bind, pedir. simpl.
  destruct (guion w) as [|[e1|] g1]; destruct user as [u0|]; simpl; concluir;
    match goal with |- context [PrimFloat.ltb ?x 0] => destruct (PrimFloat.ltb x 0) end;
    reflexivity.
Qed.

Ltac recargar :=
  match goal with
  | |- context [cargarDatos ?u ?s ?w] =>
      let P := fresh "P" in
      pose proof (cargarDatos_no_lanza u s w) as P;
      destruct (cargarDatos u s w) as [? ? ? ?]; simpl in P;
      destruct P as (-> & ? & ? & ?); simpl
  end;
  match goal with
  | |- context [obtenerSaldoActual ?u ?s ?w] =>
      let P := fresh "P" in
      pose proof (obtenerSaldoActual_no_lanza u s w) as P;
      destruct (obtenerSaldoActual u s w) as [? ? ? ?]; simpl in P;
      destruct P as (-> & ? & ? & ?); simpl
  end.

Lemma eliminarTransaccion_no_lanza (user : option Usuario) (usuarioId transaccionId : Z)
    (monto : number) (s : Estado) (w : Mundo) :
  res (eliminarTransaccion user usuarioId transaccionId monto s w) = Ok tt
  /\ loading (est (eliminarTransaccion user usuarioId transaccionId monto s w)) = false.
Proof.
  unfold eliminarTransaccion, tryFinally, tryCatch, bind, pedir. simpl.
  destruct (guion w) as [|[e1|] g1]; simpl; try (split; reflexivity);
    (destruct (List.filter (fun t => (t_id t =? transaccionId) && (usuario_id t =? usuarioId))
                 (tabla_transacciones (remoto w))) as [|t [|t' r]]; simpl;
     try (split; reflexivity)).
  - recargar. split; reflexivity.
  - destruct g1 as [|[e2|] g2]; simpl; try (split; reflexivity); recargar; split; reflexivity.
Qed.

(** With every request answered, the reload [cargarDatos] then
    [obtenerSaldoActual] brings the screen up to date with the store and
    hands over to what follows. *)
Lemma recarga_luego {A : Type} (u : Usuario) (k : M Estado A) (s : Estado) (w : Mundo) :
  sinFallos (guion w) = true ->
  (cargarDatos (Some u) ;; obtenerSaldoActual (Some u) ;; k) s w
  = anteponer
      ([EvPeticion (SelectTransaccionesConCategorias (Some (u_id u)));
        EvPeticion SelectCategorias;
        EvPeticion (SelectTransaccionesDe (Some (u_id u)))]
       ++ (if PrimFloat.ltb (nuevoSaldo (filasDe (u_id u) (remoto w))) 0
           then [avisoRecomendaciones] else []))
      (k (alDia (u_id u) (remoto w) s)
         {| remoto := remoto w; guion := List.tl (List.tl (List.tl (guion w))) |}).
Proof.
  intros Hg.
  unfold cargarDatos, obtenerSaldoActual, tryFinally, tryCatch, bind, pedir, alDia, filasDe.
  simpl.
  destruct (guion w) as [|[e1|] [|[e2|] [|[e3|] g3]]]; simpl in Hg |- *; try discriminate Hg;
    match goal with |- context [PrimFloat.ltb ?x 0] => destruct (PrimFloat.ltb x 0) end;
    simpl;
    match goal with |- context [k ?s' ?w'] => destruct (k s' w') end; reflexivity.
Qed.

(** X9.  [obtenerSaldoActual] never throws.  When the select fails it does
    so silently: the screen is exactly as it was, balance included, nothing
    is shown and the select is the only request.  When the select is
    answered, the recommendations toast is shown exactly when the balance
    just stored is negative, and nothing else is. *)
Theorem X9_obtenerSaldoActual_silencioso (user : option Usuario) (s : Estado) (w : Mundo) :
  let o := obtenerSaldoActual user s w in
  let sel := EvPeticion (SelectTransaccionesDe (option_map u_id user)) in
  res o = Ok tt
  /\ (atendida (guion w) = false ->
      est o = s /\ remoto (mun o) = remoto w /\ evs o = [sel])
  /\ (forall u, user = Some u -> atendida (guion w) = true ->
      evs o = sel :: (if PrimFloat.ltb (saldo (est o)) 0 then [avisoRecomendaciones] else [])).
Proof.
  unfold obtenerSaldoActual, tryCatch, bind, pedir. simpl.
  destruct (guion w) as [|[e1|] g1]; destruct user as [u0|]; simpl; concluir;
    match goal with |- context [PrimFloat.ltb ?x 0] => destruct (PrimFloat.ltb x 0) eqn:E end;
    simpl; rewrite ?E; reflexivity.
Qed.

Lemma X9_obtenerSaldoActual_silencioso_witness :
  let o := obtenerSaldoActual (Some Ejemplos.ana) Ejemplos.pantallaGasto
             {| remoto := Ejemplos.remotoConAna; guion := [Some Ejemplos.sinConexion] |} in
  est o = Ejemplos.pantallaGasto /\ titulos (evs o) = [].
Proof.
  destruct (X9_obtenerSaldoActual_silencioso (Some Ejemplos.ana) Ejemplos.pantallaGasto
              {| remoto := Ejemplos.remotoConAna; guion := [Some Ejemplos.sinConexion] |})
    as (_ & H & _).
  destruct H as (He & _ & Hv); [reflexivity|].
  cbv zeta. split; [exact He|]. rewrite Hv. reflexivity.
Defined.

Lemma ultimo_de {A : Type} (l : list A) (x : A) : last (l ++ [x]) = Some x.
Proof. apply last_snoc. Qed.

Ltac al_final :=
  simpl; rewrite ?app_nil_r, ?app_assoc, ?app_comm_cons;
  match goal with
  | |- last (?l ++ [_]) = _ => apply ultimo_de
  | |- last [_] = _ => reflexivity
  | |- last [_; _] = _ => reflexivity
  | |- last [_; _; _] = _ => reflexivity
  end.

(** X10.  Whatever the store answers and whoever calls, [eliminarTransaccion]
    never throws, leaves [loading] false, and the last thing it does is show
    one message. *)
Theorem X10_eliminarTransaccion_termina_avisando
    (user : option Usuario) (usuarioId transaccionId : Z) (monto : number)
    (s : Estado) (w : Mundo) :
  let o := eliminarTransaccion user usuarioId transaccionId monto s w in
  res o = Ok tt
  /\ loading (est o) = false
  /\ exists mensaje, last (evs o) = Some (avisoError mensaje).
Proof.
  unfold eliminarTransaccion, tryFinally, tryCatch, bind, pedir. simpl.
  destruct (guion w) as [|[e1|] g1]; simpl;
    try (split; [reflexivity|split; [reflexivity|eexists; reflexivity]]);
    (destruct (List.filter (fun t => (t_id t =? transaccionId) && (usuario_id t =? usuarioId))
                 (tabla_transacciones (remoto w))) as [|t [|t' r]]; simpl;
     try (split; [reflexivity|split; [reflexivity|eexists; reflexivity]])).
  - recargar. split; [reflexivity|split; [reflexivity|eexists; al_final]].
  - destruct g1 as [|[e2|] g2]; simpl;
      try (split; [reflexivity|split; [reflexivity|eexists; reflexivity]]);
      recargar; (split; [reflexivity|split; [reflexivity|eexists; al_final]]).
Qed.

(** X11.  When the caller owns the transaction and the delete procedure
    comes back with an error, [eliminarTransaccion] shows the retry message
    and stops: nothing is reloaded (the lookup and the procedure call are
    the only requests), and the store, the list and the balance of the
    screen are as they were. *)
Theorem X11_eliminar_fallo_del_procedimiento
    (user : option Usuario) (usuarioId transaccionId : Z) (monto : number)
    (s : Estado) (w : Mundo) (t : TransaccionConCategoria) (e : PostgrestError)
    (g : list (option PostgrestError)) :
  List.filter (fun t => (t_id t =? transaccionId) && (usuario_id t =? usuarioId))
              (tabla_transacciones (remoto w)) = [t] ->
  guion w = None :: Some e :: g ->
  let o := eliminarTransaccion user usuarioId transaccionId monto s w in
  evs o = [EvPeticion (SelectTransaccion transaccionId usuarioId);
           EvPeticion (RpcEliminarTransaccion usuarioId transaccionId);
           avisoError "No se pudo eliminar la transacción. Intenta nuevamente."]
  /\ res o = Ok tt
  /\ remoto (mun o) = remoto w
  /\ transacciones (est o) = transacciones s
  /\ saldo (est o) = saldo s
  /\ loading (est o) = false.
Proof.
  intros Hf Hg.
  unfold eliminarTransaccion, tryFinally, tryCatch, bind, pedir, hacerSelectTransaccion.
  simpl. rewrite Hg. simpl. rewrite Hf. simpl. repeat split.
Qed.

Lemma X11_eliminar_fallo_del_procedimiento_witness :
  let o := eliminarTransaccion (Some Ejemplos.ana) 10 2 40.25 Ejemplos.pantallaGasto
             {| remoto := Ejemplos.remotoConAna; guion := [None; Some Ejemplos.sinConexion] |} in
  remoto (mun o) = Ejemplos.remotoConAna /\ transacciones (est o) = [Ejemplos.cobro; Ejemplos.almuerzo].
Proof.
  destruct (X11_eliminar_fallo_del_procedimiento (Some Ejemplos.ana) 10 2 40.25
              Ejemplos.pantallaGasto
              {| remoto := Ejemplos.remotoConAna; guion := [None; Some Ejemplos.sinConexion] |}
              Ejemplos.almuerzo Ejemplos.sinConexion [] eq_refl eq_refl)
    as (_ & _ & Hr & Ht & _).
  split; [exact Hr|exact Ht].
Defined.

(** X12.  When the caller owns the transaction and every request is
    answered, [eliminarTransaccion] ends with the screen showing what the
    store then holds: the list has the user's rows and the categories are
    the table's (in the order the store lists them), the balance is the
    fold over the user's rows, the two breakdowns are those of the list
    shown, [loading] is false and the success message is the last thing
    shown. *)
Theorem X12_eliminar_deja_la_pantalla_al_dia
    (u : Usuario) (transaccionId : Z) (monto : number) (s : Estado) (w : Mundo)
    (t : TransaccionConCategoria) :
  List.filter (fun t => (t_id t =? transaccionId) && (usuario_id t =? u_id u))
              (tabla_transacciones (remoto w)) = [t] ->
  sinFallos (guion w) = true ->
  let o := eliminarTransaccion (Some u) (u_id u) transaccionId monto s w in
  let filas := filasDe (u_id u) (remoto (mun o)) in
  res o = Ok tt
  /\ transacciones (est o) ≡ₚ filas
  /\ saldo (est o) = nuevoSaldo filas
  /\ (datosIngresos (est o), datosEgresos (est o))
     = procesarTransacciones (transacciones (est o))
  /\ categorias (est o) ≡ₚ tabla_categorias (remoto (mun o))
  /\ loading (est o) = false
  /\ last (evs o) = Some (avisoError "La transacción ha sido eliminada correctamente").
Proof.
  intros Hf Hg.
  unfold eliminarTransaccion.
  remember (cargarDatos (Some u) ;; obtenerSaldoActual (Some u) ;;
            mostrarMensaje "¡Éxito!" [Lit "La transacción ha sido eliminada correctamente"]
                           success)%efecto as K eqn:HK.
  unfold tryFinally, tryCatch, bind, pedir, hacerSelectTransaccion, hacerEliminarTransaccion.
  simpl. destruct (guion w) as [|[e1|] [|[e2|] g2]] eqn:Eg; simpl in Hg; try discriminate Hg;
    simpl; rewrite Hf; simpl; subst K;
    (rewrite recarga_luego; [|simpl; try exact Hg; reflexivity]);
    simpl; rewrite <- surjective_pairing; repeat split; try reflexivity; al_final.
Qed.

Lemma X12_eliminar_deja_la_pantalla_al_dia_witness :
  let o := eliminarTransaccion (Some Ejemplos.ana) 10 2 40.25 Ejemplos.pantallaGasto
             {| remoto := Ejemplos.remotoConAna; guion := [] |} in
  transacciones (est o) ≡ₚ filasDe 10 (remoto (mun o))
  /\ saldo (est o) = nuevoSaldo (filasDe 10 (remoto (mun o))).
Proof.
  destruct (X12_eliminar_deja_la_pantalla_al_dia Ejemplos.ana 2 40.25 Ejemplos.pantallaGasto
              {| remoto := Ejemplos.remotoConAna; guion := [] |} Ejemplos.almuerzo
              eq_refl eq_refl)
    as (_ & Ht & Hs & _).
  split; [exact Ht|exact Hs].
Defined.

(** X13.  When the create procedure comes back with an error,
    [agregarTransaccion] still closes the form: the amount, the
    description and the chosen category are cleared and the kind is back to
    income although nothing was created.  The procedure call is the only
    request, the store, the list and the balance are as they were, [loading]
    is false and the last thing shown is the failure message. *)
Theorem X13_agregar_fallo_borra_el_formulario
    (user : option Usuario) (s : Estado) (w : Mundo) (cat : Categoria)
    (e : PostgrestError) (g : list (option PostgrestError)) :
  categoriaSeleccionada s = Some cat ->
  vacia (Welcome.monto s) = false ->
  isNaN (Number (Welcome.monto s)) || PrimFloat.leb (Number (Welcome.monto s)) 0 = false ->
  guion w = Some e :: g ->
  let o := agregarTransaccion user s w in
  res o = Ok tt
  /\ Spec.peticiones (evs o)
     = [RpcCrearTransaccion (option_map u_id user) (c_id cat) (Number (Welcome.monto s))
          (textoTipo (tipoSeleccionado s))
          (if vacia (Welcome.descripcion s) then None else Some (Welcome.descripcion s))]
  /\ last (evs o)
     = Some (EvToast (Toast.params toastInfo "Información"
               (Some [Lit "No se pudo agregar el ";
                      Lit (match tipoSeleccionado s with
                           | ingreso => "ingreso" | egreso => "gasto" end)])))
  /\ remoto (mun o) = remoto w
  /\ transacciones (est o) = transacciones s
  /\ saldo (est o) = saldo s
  /\ loading (est o) = false
  /\ modalVisible (est o) = false
  /\ Welcome.monto (est o) = ""
  /\ Welcome.descripcion (est o) = ""
  /\ categoriaSeleccionada (est o) = None
  /\ tipoSeleccionado (est o) = ingreso.
Proof.
  intros Hc Hv Hn Hg.
  unfold agregarTransaccion.
  rewrite (bind_ok leer _ s s w w s []) by reflexivity.
  cbv beta. rewrite Hc, Hv, Hn.
  unfold tryFinally, tryCatch, bind, pedir. simpl.
  destruct (tipoSeleccionado s); simpl;
    [|destruct (PrimFloat.ltb (saldo s) (Number (Welcome.monto s))); simpl];
    rewrite Hg; simpl; repeat split.
Qed.

Lemma X13_agregar_fallo_borra_el_formulario_witness :
  let o := agregarTransaccion (Some Ejemplos.ana) Ejemplos.pantallaGasto
             {| remoto := Ejemplos.remotoConAna; guion := [Some Ejemplos.sinConexion] |} in
  Welcome.monto (est o) = "" /\ categoriaSeleccionada (est o) = None
  /\ remoto (mun o) = Ejemplos.remotoConAna.
Proof.
  destruct (X13_agregar_fallo_borra_el_formulario (Some Ejemplos.ana) Ejemplos.pantallaGasto
              {| remoto := Ejemplos.remotoConAna; guion := [Some Ejemplos.sinConexion] |}
              Ejemplos.comida Ejemplos.sinConexion [] eq_refl eq_refl eq_refl eq_refl)
    as (_ & _ & _ & Hr & _ & _ & _ & _ & Hm & _ & Hcat & _).
  split; [exact Hm|]. split; [exact Hcat|exact Hr].
Defined.

(** X14.  When every request is answered and the create procedure reports
    no error, [agregarTransaccion] ends with the form closed and the screen
    showing what the store then holds: the list has the user's rows and the
    categories are the table's (in the order the store lists them), the
    balance is the fold over the user's rows, the two breakdowns are those
    of the list shown, and the success message is the last thing shown. *)
Theorem X14_agregar_deja_la_pantalla_al_dia
    (u : Usuario) (s : Estado) (w : Mundo) (cat : Categoria) :
  categoriaSeleccionada s = Some cat ->
  vacia (Welcome.monto s) = false ->
  isNaN (Number (Welcome.monto s)) || PrimFloat.leb (Number (Welcome.monto s)) 0 = false ->
  sinFallos (guion w) = true ->
  fst (hacerCrearTransaccion (Some (u_id u)) (c_id cat) (Number (Welcome.monto s))
         (textoTipo (tipoSeleccionado s))
         (if vacia (Welcome.descripcion s) then None else Some (Welcome.descripcion s))
         (remoto w)) = Datos tt ->
  let o := agregarTransaccion (Some u) s w in
  let filas := filasDe (u_id u) (remoto (mun o)) in
  res o = Ok tt
  /\ transacciones (est o) ≡ₚ filas
  /\ saldo (est o) = nuevoSaldo filas
  /\ (datosIngresos (est o), datosEgresos (est o))
     = procesarTransacciones (transacciones (est o))
  /\ categorias (est o) ≡ₚ tabla_categorias (remoto (mun o))
  /\ loading (est o) = false
  /\ modalVisible (est o) = false
  /\ Welcome.monto (est o) = ""
  /\ categoriaSeleccionada (est o) = None
  /\ last (evs o)
     = Some (EvToast (Toast.params toastInfo "Información"
               (Some [Lit (match tipoSeleccionado s with
                           | ingreso => "Ingreso" | egreso => "Gasto" end);
                      Lit " agregado correctamente"]))).
Proof.
  intros Hc Hv Hn Hg Hd.
  unfold agregarTransaccion.
  rewrite (bind_ok leer _ s s w w s []) by reflexivity.
  cbv beta. rewrite Hc, Hv, Hn.
  remember (cargarDatos (Some u) ;; obtenerSaldoActual (Some u) ;;
            mostrarMensaje "¡Éxito!"
              [Lit (match tipoSeleccionado s with ingreso => "Ingreso" | egreso => "Gasto" end);
               Lit " agregado correctamente"] success)%efecto as K eqn:HK.
  unfold tryFinally, tryCatch, bind, pedir. simpl.
  unfold hacerCrearTransaccion in Hd.
  destruct (tipoSeleccionado s); simpl;
    [|destruct (PrimFloat.ltb (saldo s) (Number (Welcome.monto s))); simpl];
    (destruct (guion w) as [|[e1|] g1] eqn:Eg; simpl in Hg; try discriminate Hg);
    (destruct (find (fun c => c_id c =? c_id cat) (tabla_categorias (remoto w))) as [c|];
     simpl in Hd; try discriminate Hd);
    simpl; subst K;
    (rewrite recarga_luego; [|simpl; try exact Hg; reflexivity]);
    simpl; rewrite <- surjective_pairing; repeat split; try reflexivity; al_final.
Qed.

Lemma X14_agregar_deja_la_pantalla_al_dia_witness :
  let o := agregarTransaccion (Some Ejemplos.ana) Ejemplos.pantallaGasto
             {| remoto := Ejemplos.remotoConAna; guion := [] |} in
  transacciones (est o) ≡ₚ filasDe 10 (remoto (mun o))
  /\ saldo (est o) = nuevoSaldo (filasDe 10 (remoto (mun o)))
  /\ modalVisible (est o) = false.
Proof.
  destruct (X14_agregar_deja_la_pantalla_al_dia Ejemplos.ana Ejemplos.pantallaGasto
              {| remoto := Ejemplos.remotoConAna; guion := [] |} Ejemplos.comida
              eq_refl eq_refl eq_refl eq_refl eq_refl)
    as (_ & Ht & Hs & _ & _ & _ & Hm & _).
  split; [exact Ht|]. split; [exact Hs|exact Hm].
Defined.

(** X15.  The delete button of a row.  With no user, or a user whose id is
    0, it shows "Usuario no identificado" and does nothing else.  Otherwise
    it shows the confirmation toast and deletes at once, with no answer
    awaited: the run is that of [eliminarTransaccion] for the user's id and
    the row's id after the toast, and its own error message is never
    shown. *)
Theorem X15_boton_eliminar (user : option Usuario) (item : TransaccionConCategoria)
    (s : Estado) (w : Mundo) :
  let o := alPulsarEliminar user item s w in
  let pregunta :=
    EvToast (Toast.params toastInfo "¿Eliminar transacción?"
      (Some [Lit "Estás a punto de eliminar una transacción por: $";
             ToFixed2 (Supabase.monto item);
             Lit LF; Lit LF; Lit "Esta acción no se puede deshacer"])) in
  res o = Ok tt
  /\ (match user with Some u => u_id u = 0 | None => True end ->
      est o = s /\ mun o = w /\ evs o = [avisoError "Usuario no identificado"])
  /\ (forall u, user = Some u -> u_id u <> 0 ->
      o = anteponer [pregunta]
            (eliminarTransaccion user (u_id u) (t_id item) (Supabase.monto item) s w)).
Proof.
  unfold alPulsarEliminar, tryCatch.
  destruct user as [u0|]; [|simpl; concluir; tauto].
  destruct (u_id u0 =? 0) eqn:E0.
  - apply Z.eqb_eq in E0. simpl. split; [reflexivity|]. split; [intros _; repeat split|].
    intros u Hu Hn. injection Hu as <-. contradiction.
  - apply Z.eqb_neq in E0. unfold confirmarEliminacion, bind. simpl.
    pose proof (eliminarTransaccion_no_lanza (Some u0) (u_id u0) (t_id item)
                  (Supabase.monto item) s w) as [P _].
    remember (eliminarTransaccion (Some u0) (u_id u0) (t_id item) (Supabase.monto item) s w)
      as el eqn:Hel.
    destruct el as [r s' w' e']. simpl in P. subst r. simpl.
    split; [reflexivity|]. split; [intros H0; contradiction|].
    intros u Hu _. injection Hu as <-. rewrite <- Hel. reflexivity.
Qed.

Lemma X15_boton_eliminar_witness :
  let o := alPulsarEliminar None Ejemplos.almuerzo Ejemplos.pantallaGasto
             {| remoto := Ejemplos.remotoConAna; guion := [] |} in
  Spec.peticiones (evs o) = [] /\ est o = Ejemplos.pantallaGasto.
Proof.
  destruct (X15_boton_eliminar None Ejemplos.almuerzo Ejemplos.pantallaGasto
              {| remoto := Ejemplos.remotoConAna; guion := [] |}) as (_ & H & _).
  destruct (H I) as (He & _ & Hv).
  cbv zeta. split; [rewrite Hv; reflexivity|exact He].
Defined.

(** X24.  [cargarCategorias] never throws, sends the one select and leaves
    the store alone.  When the select fails the categories stay and the
    error message is shown; when it is answered nothing is shown, the
    categories are the table's (in the order the store lists them), and the
    picker offers exactly the table's categories of the selected kind. *)
Theorem X24_cargarCategorias_y_selector (s : Estado) (w : Mundo) :
  let o := cargarCategorias s w in
  res o = Ok tt
  /\ remoto (mun o) = remoto w
  /\ (atendida (guion w) = false ->
      est o = s
      /\ evs o = [EvPeticion SelectCategorias;
                  avisoError "No se pudieron cargar las categorías"])
  /\ (atendida (guion w) = true ->
      evs o = [EvPeticion SelectCategorias]
      /\ categorias (est o) ≡ₚ tabla_categorias (remoto w)
      /\ forall cat, In cat (categoriasFiltradas (est o))
           <-> In cat (tabla_categorias (remoto w))
               /\ c_tipo cat = textoTipo (tipoSeleccionado s)).
Proof.
  unfold cargarCategorias, tryCatch, bind, pedir, categoriasFiltradas. simpl.
  destruct (guion w) as [|[e1|] g1]; simpl;
    (split; [reflexivity|]; split; [reflexivity|]; split);
    try (intros H; discriminate H); try (intros _; split; reflexivity);
    (intros _; split; [reflexivity|]; split; [reflexivity|]; intros cat;
     rewrite List.filter_In, String.eqb_eq; reflexivity).
Qed.

Lemma X24_cargarCategorias_y_selector_witness :
  categoriasFiltradas
    (est (cargarCategorias (Ejemplos.pantallaMonto "20")
            {| remoto := Ejemplos.remotoConAna; guion := [] |}))
  = [Ejemplos.salario].
Proof.
  destruct (X24_cargarCategorias_y_selector (Ejemplos.pantallaMonto "20")
              {| remoto := Ejemplos.remotoConAna; guion := [] |}) as (_ & _ & _ & H).
  destruct (H eq_refl) as (_ & _ & _). reflexivity.
Defined.

End PantallaMas.

(* ===================================================================== *)
(** * Part 20.  The income screen, continued                              *)
(* ===================================================================== *)

Section IngresosMas.
Import Income IncomeMas Guiones.
Local Open Scope list_scope.

Ltac resolver :=
  repeat match goal with
         | |- _ /\ _ => split
         | |- forall _, _ => intro
         | H : _ \/ _ |- _ => destruct H
         | H : Some _ = Some _ |- _ => injection H as <-
         | H : _ :: _ = _ :: _ |- _ => injection H as <- <-
         | H : _ = _ |- _ => discriminate H
         end;
  try reflexivity.

(** X16.  [loadTransactions] never throws, never changes the store and
    touches nothing of the screen but the list and [isAuthenticated].
    Without a session (or when the session cannot be read) it marks the
    screen as not authenticated and sends nothing else.  With a session: an
    answered select replaces the list by the user's incomes (in the order
    the store lists them); a select refused with code 22P02 empties the
    list and shows nothing; any other refusal shows the error with the
    store's message and keeps the list. *)
Theorem X16_loadTransactions_desenlaces (s : Estado) (w : Mundo) :
  let o := loadTransactions s w in
  res o = Ok tt
  /\ remoto (mun o) = remoto w
  /\ (amount (est o), category (est o), description (est o), modalVisible (est o), loading (est o))
     = (amount s, category s, description s, modalVisible s, loading s)
  /\ (atendida (guion w) = false \/ sesion (remoto w) = None ->
      isAuthenticated (est o) = false
      /\ transactions (est o) = transactions s
      /\ evs o = [EvPeticion GetSession])
  /\ (forall ses, atendida (guion w) = true -> sesion (remoto w) = Some ses ->
      let sel := EvPeticion (SelectIngresos (session_user_id ses)) in
      isAuthenticated (est o) = isAuthenticated s
      /\ (atendida (List.tl (guion w)) = true ->
          transactions (est o) ≡ₚ ingresosDe (session_user_id ses) (remoto w)
          /\ evs o = [EvPeticion GetSession; sel])
      /\ (forall e g, List.tl (guion w) = Some e :: g -> code e = "22P02" ->
          transactions (est o) = [] /\ evs o = [EvPeticion GetSession; sel])
      /\ (forall e g, List.tl (guion w) = Some e :: g -> code e <> "22P02" ->
          transactions (est o) = transactions s
          /\ evs o = [EvPeticion GetSession; sel;
                      avisoDeError "Error" [Lit "No se pudieron cargar los ingresos: ";
                                            Lit (message e)]])).
Proof.
  unfold loadTransactions, tryCatch, bind, pedir, hacerGetSession, hacerSelectIngresos,
    ingresosDe. simpl.
  destruct (guion w) as [|[e1|] g1]; simpl;
    (destruct (sesion (remoto w)) as [ses0|]; simpl; [|resolver]);
    try (destruct g1 as [|[e2|] g2]; simpl);
    try (destruct (String.eqb (code e2) "22P02") eqn:E2; simpl;
         [apply String.eqb_eq in E2|apply String.eqb_neq in E2]);
    resolver; try contradiction; try congruence.
Qed.

Lemma X16_loadTransactions_desenlaces_witness :
  let o := loadTransactions (Ejemplos.pantallaIngreso "100")
             {| remoto := Ejemplos.remotoVacio; guion := [] |} in
  isAuthenticated (est o) = false /\ Spec.peticiones (evs o) = [GetSession].
Proof.
  destruct (X16_loadTransactions_desenlaces (Ejemplos.pantallaIngreso "100")
              {| remoto := Ejemplos.remotoVacio; guion := [] |}) as (_ & _ & _ & H & _).
  destruct H as (Ha & _ & Hv); [right; reflexivity|].
  cbv zeta. split; [exact Ha|]. rewrite Hv. reflexivity.
Defined.

(** With a session and every request answered, [loadTransactions] lists the
    user's incomes and hands over to what follows. *)
Lemma loadTransactions_luego {A : Type} (k : M Estado A) (s : Estado) (w : Mundo)
    (ses : Session) :
  sesion (remoto w) = Some ses ->
  sinFallos (guion w) = true ->
  (loadTransactions ;; k) s w
  = anteponer [EvPeticion GetSession; EvPeticion (SelectIngresos (session_user_id ses))]
      (k {| transactions := ingresosDe (session_user_id ses) (remoto w);
            modalVisible := modalVisible s; amount := amount s; category := category s;
            description := description s; loading := loading s;
            isAuthenticated := isAuthenticated s |}
         {| remoto := remoto w; guion := List.tl (List.tl (guion w)) |}).
Proof.
  intros Hs Hg.
  unfold loadTransactions, tryCatch, bind, pedir, hacerGetSession, hacerSelectIngresos,
    ingresosDe. simpl.
  destruct (guion w) as [|[e1|] [|[e2|] g2]]; simpl in Hg |- *; try discriminate Hg;
    rewrite Hs; simpl;
    match goal with |- context [k ?s' ?w'] => destruct (k s' w') end; reflexivity.
Qed.

(** X17.  An income that passes validation, with a session and every
    request answered: [handleAddIncome] adds exactly one row to the store,
    carrying the session's user, the kind "income", the parsed amount, the
    chosen category, the trimmed description (none when blank), the time of
    the call and the status "completed"; the reloaded list contains that
    row; the form is emptied, the modal closed, [loading] false, and the
    success toast is the last thing shown. *)
Theorem X17_handleAddIncome_guarda_y_recarga
    (now : string) (s : Estado) (w : Mundo) (ses : Session) :
  isAuthenticated s = true ->
  vacia (trim (amount s)) = false ->
  (let x := parseFloat (conservar esNumerico (amount s)) in
   isNaN x || PrimFloat.leb x 0 = false) ->
  vacia (category s) = false ->
  sesion (remoto w) = Some ses ->
  sinFallos (guion w) = true ->
  let o := handleAddIncome now s w in
  res o = Ok tt
  /\ (exists fila,
        tabla_transactions (remoto (mun o)) = tabla_transactions (remoto w) ++ [fila]
        /\ In fila (transactions (est o))
        /\ user_id fila = session_user_id ses
        /\ type_ fila = "income"
        /\ Supabase.amount fila = parseFloat (conservar esNumerico (amount s))
        /\ Supabase.category fila = category s
        /\ Supabase.description fila
           = (if vacia (trim (description s)) then None else Some (trim (description s)))
        /\ date fila = now
        /\ status fila = "completed")
  /\ transactions (est o) ≡ₚ ingresosDe (session_user_id ses) (remoto (mun o))
  /\ (amount (est o), category (est o), description (est o)) = ("", "", "")
  /\ modalVisible (est o) = false
  /\ loading (est o) = false
  /\ last (evs o)
     = Some (EvToast (Toast.params toastSuccess "Éxito"
                        (Some [Lit "Ingreso guardado correctamente"]))).
Proof.
  intros Ha Hv Hn Hc Hs Hg. cbv zeta in Hn.
  unfold handleAddIncome.
  rewrite (bind_ok leer _ s s w w s []) by reflexivity.
  cbv beta zeta. rewrite Ha, Hv, Hn, Hc. simpl negb. cbv iota.
  remember (loadTransactions ;; setModalVisible false ;; resetForm ;;
            Toast.showSuccess "Éxito" (Some [Lit "Ingreso guardado correctamente"]))%efecto
    as K eqn:HK.
  unfold tryFinally, tryCatch, bind, pedir, hacerGetSession, hacerInsertTransaction. simpl.
  destruct (guion w) as [|[e1|] [|[e2|] g2]] eqn:Eg; simpl in Hg; try discriminate Hg;
    rewrite Hs; simpl; subst K;
    (rewrite (loadTransactions_luego _ _ _ ses);
     [|simpl; exact Hs|simpl; try exact Hg; reflexivity]);
    simpl; unfold ingresosDe; simpl; rewrite List.filter_app; simpl;
    rewrite String.eqb_refl; simpl;
    (split; [reflexivity|]);
    (split; [eexists; split; [reflexivity|];
             split; [apply in_or_app; right; left; reflexivity|repeat split]|]);
    repeat split; try reflexivity.
Qed.

Lemma X17_handleAddIncome_guarda_y_recarga_witness :
  let o := handleAddIncome "2024-06-20T10:00:00.000Z" (Ejemplos.pantallaIngreso "100")
             {| remoto := Ejemplos.remotoConSesion; guion := [] |} in
  List.length (transactions (est o)) = 1%nat /\ amount (est o) = "".
Proof.
  destruct (X17_handleAddIncome_guarda_y_recarga "2024-06-20T10:00:00.000Z"
              (Ejemplos.pantallaIngreso "100")
              {| remoto := Ejemplos.remotoConSesion; guion := [] |}
              {| session_user_id := "u-10" |}
              eq_refl eq_refl eq_refl eq_refl eq_refl eq_refl)
    as (_ & _ & Hp & Hf & _).
  cbv zeta. split.
  - rewrite Hp. reflexivity.
  - exact (f_equal (fun p => fst (fst p)) Hf).
Defined.

(** X18.  An income that passes validation but is not saved, because the
    session cannot be read, there is none, or the insert is refused:
    [handleAddIncome] keeps the form as typed and the modal as it was,
    leaves the list and the store untouched, ends with [loading] false, and
    the last thing shown is an error toast.  The insert is requested only
    when a session was found. *)
Theorem X18_handleAddIncome_conserva_el_formulario
    (now : string) (s : Estado) (w : Mundo) :
  isAuthenticated s = true ->
  vacia (trim (amount s)) = false ->
  (let x := parseFloat (conservar esNumerico (amount s)) in
   isNaN x || PrimFloat.leb x 0 = false) ->
  vacia (category s) = false ->
  atendida (guion w) = false \/ sesion (remoto w) = None
  \/ atendida (List.tl (guion w)) = false ->
  let o := handleAddIncome now s w in
  res o = Ok tt
  /\ remoto (mun o) = remoto w
  /\ (amount (est o), category (est o), description (est o)) = (amount s, category s, description s)
  /\ modalVisible (est o) = modalVisible s
  /\ transactions (est o) = transactions s
  /\ loading (est o) = false
  /\ (exists t, last (evs o) = Some (EvToast t) /\ type t = toastError)
  /\ (atendida (guion w) = false \/ sesion (remoto w) = None ->
      Spec.peticiones (evs o) = [GetSession]).
Proof.
  intros Ha Hv Hn Hc Hf. cbv zeta in Hn.
  unfold handleAddIncome.
  rewrite (bind_ok leer _ s s w w s []) by reflexivity.
  cbv beta zeta. rewrite Ha, Hv, Hn, Hc. simpl negb. cbv iota.
  unfold tryFinally, tryCatch, bind, pedir, hacerGetSession. simpl.
  destruct (guion w) as [|[e1|] g1]; simpl in Hf |- *;
    (destruct (sesion (remoto w)) as [ses|]; simpl);
    try (destruct g1 as [|[e2|] g2]; simpl in Hf |- *);
    try (destruct (String.eqb (code e2) "42P01"); simpl);
    try (exfalso; clear - Hf; intuition discriminate);
    repeat split; try (eexists; split; reflexivity);
    try (intros [H|H]; discriminate H); try reflexivity.
Qed.

Lemma X18_handleAddIncome_conserva_el_formulario_witness :
  let o := handleAddIncome "2024-06-20T10:00:00.000Z" (Ejemplos.pantallaIngreso "100")
             {| remoto := Ejemplos.remotoConSesion; guion := [None; Some Ejemplos.sinConexion] |} in
  amount (est o) = "100" /\ remoto (mun o) = Ejemplos.remotoConSesion.
Proof.
  destruct (X18_handleAddIncome_conserva_el_formulario "2024-06-20T10:00:00.000Z"
              (Ejemplos.pantallaIngreso "100")
              {| remoto := Ejemplos.remotoConSesion; guion := [None; Some Ejemplos.sinConexion] |}
              eq_refl eq_refl eq_refl eq_refl (or_intror (or_intror eq_refl)))
    as (_ & Hr & Hf & _).
  cbv zeta. split; [|exact Hr].
  exact (f_equal (fun p => fst (fst p)) Hf).
Defined.

Lemma loadTransactions_no_lanza (s : Estado) (w : Mundo) :
  res (loadTransactions s w) = Ok tt /\ remoto (mun (loadTransactions s w)) = remoto w.
Proof.
  unfold loadTransactions, tryCatch, bind, pedir, hacerGetSession, hacerSelectIngresos. simpl.
  destruct (guion w) as [|[e1|] g1]; simpl;
    (destruct (sesion (remoto w)) as [ses0|]; simpl; [|split; reflexivity]);
    try (destruct g1 as [|[e2|] g2]; simpl);
    try (destruct (String.eqb (code e2) "22P02"); simpl);
    split; reflexivity.
Qed.

Lemma recargar_y_avisar (titulo : string) (texto : option Texto) (s : Estado) (w : Mundo) :
  exists s' w' e,
    (loadTransactions ;; Toast.showSuccess titulo texto) s w
    = {| res := Ok tt; est := s'; mun := w'; evs := e |}.
Proof.
  unfold bind. destruct (loadTransactions_no_lanza s w) as [P _].
  destruct (loadTransactions s w) as [r s' w' e']. simpl in P. subst r.
  simpl. eexists _, _, _. reflexivity.
Qed.

(** X19.  [deleteTransaction] of the income screen never throws, and the
    delete by id is the first thing it requests: no lookup of the row and no
    session is read before it.  When the delete is refused, the error toast
    is shown and nothing is reloaded or changed.  When every request is
    answered, no row with that id is left in the store, whoever owned it,
    and the list shows the incomes the store then holds for the session's
    user, none of them with that id. *)
Theorem X19_deleteTransaction_sin_comprobar (id : string) (s : Estado) (w : Mundo) :
  let o := deleteTransaction id s w in
  res o = Ok tt
  /\ (exists resto, evs o = EvPeticion (DeleteTransaction id) :: resto)
  /\ (atendida (guion w) = false ->
      est o = s /\ remoto (mun o) = remoto w
      /\ evs o = [EvPeticion (DeleteTransaction id);
                  avisoDeError "Error" [Lit "No se pudo eliminar el ingreso"]])
  /\ (forall ses, sinFallos (guion w) = true -> sesion (remoto w) = Some ses ->
      Forall (fun t => tx_id t <> id) (tabla_transactions (remoto (mun o)))
      /\ transactions (est o) ≡ₚ ingresosDe (session_user_id ses) (remoto (mun o))
      /\ Forall (fun t => tx_id t <> id) (transactions (est o))
      /\ last (evs o)
         = Some (EvToast (Toast.params toastSuccess "Éxito"
                            (Some [Lit "Transacción eliminada correctamente"])))).
Proof.
  assert (Hq : forall l : list Transaction,
             Forall (fun t => tx_id t <> id)
                    (List.filter (fun t => negb (String.eqb (tx_id t) id)) l)).
  { intros l. apply List.Forall_forall. intros t Ht. apply List.filter_In in Ht.
    destruct Ht as [_ Ht]. apply negb_true_iff, String.eqb_neq in Ht. exact Ht. }
  assert (Hi : forall (ses : Session) (db : Remoto),
             Forall (fun t => tx_id t <> id) (tabla_transactions db) ->
             Forall (fun t => tx_id t <> id) (ingresosDe (session_user_id ses) db)).
  { intros ses db H. unfold ingresosDe. apply List.Forall_forall. intros t Ht.
    apply List.filter_In in Ht. destruct Ht as [Ht _].
    revert t Ht. apply List.Forall_forall. exact H. }
  unfold deleteTransaction.
  remember (loadTransactions ;;
            Toast.showSuccess "Éxito" (Some [Lit "Transacción eliminada correctamente"]))%efecto
    as K eqn:HK.
  unfold tryCatch, bind, pedir, hacerDeleteTransaction. simpl.
  destruct (guion w) as [|[e1|] g1] eqn:Eg; simpl.
  - subst K. split; [|split; [|split]].
    + match goal with |- context [(_ ;; _)%efecto ?s0 ?w0] =>
        destruct (recargar_y_avisar "Éxito"
                    (Some [Lit "Transacción eliminada correctamente"]) s0 w0)
          as (s' & w' & e' & E); rewrite E end.
      reflexivity.
    + match goal with |- context [(_ ;; _)%efecto ?s0 ?w0] =>
        destruct (recargar_y_avisar "Éxito"
                    (Some [Lit "Transacción eliminada correctamente"]) s0 w0)
          as (s' & w' & e' & E); rewrite E end.
      eexists. reflexivity.
    + intros H. discriminate H.
    + intros ses _ Hs.
      rewrite (loadTransactions_luego _ _ _ ses); [|exact Hs|reflexivity].
      simpl. split; [apply Hq|]. split; [reflexivity|]. split; [|reflexivity].
      apply Hi. apply Hq.
  - split; [reflexivity|]. split; [eexists; reflexivity|].
    split; [intros _; repeat split|]. intros ses H. discriminate H.
  - subst K. split; [|split; [|split]].
    + match goal with |- context [(_ ;; _)%efecto ?s0 ?w0] =>
        destruct (recargar_y_avisar "Éxito"
                    (Some [Lit "Transacción eliminada correctamente"]) s0 w0)
          as (s' & w' & e' & E); rewrite E end.
      reflexivity.
    + match goal with |- context [(_ ;; _)%efecto ?s0 ?w0] =>
        destruct (recargar_y_avisar "Éxito"
                    (Some [Lit "Transacción eliminada correctamente"]) s0 w0)
          as (s' & w' & e' & E); rewrite E end.
      eexists. reflexivity.
    + intros H. discriminate H.
    + intros ses Hg Hs.
      rewrite (loadTransactions_luego _ _ _ ses); [|exact Hs|exact Hg].
      simpl. split; [apply Hq|]. split; [reflexivity|]. split; [|reflexivity].
      apply Hi. apply Hq.
Qed.

Lemma X19_deleteTransaction_sin_comprobar_witness :
  let o := deleteTransaction "b" (Ejemplos.pantallaIngreso "")
             {| remoto := Ejemplos.remotoConSesion;
                guion := [Some Ejemplos.sinConexion] |} in
  est o = Ejemplos.pantallaIngreso "" /\ Spec.peticiones (evs o) = [DeleteTransaction "b"].
Proof.
  destruct (X19_deleteTransaction_sin_comprobar "b" (Ejemplos.pantallaIngreso "")
              {| remoto := Ejemplos.remotoConSesion;
                 guion := [Some Ejemplos.sinConexion] |}) as (_ & _ & H & _).
  destruct (H eq_refl) as (He & _ & Hv).
  cbv zeta. split; [exact He|]. rewrite Hv. reflexivity.
Defined.

(** X20.  The session guard of the income screen.  When the session cannot
    be read or there is none, [initializeAuth] and [checkAuth] both send the
    screen to the login route after that single request, and [checkAuth]
    also marks the screen as not authenticated.  When a session is found,
    neither changes the route, both do the same, and with every request
    answered the screen ends up authenticated and showing the user's
    incomes. *)
Theorem X20_guardia_de_sesion (p : Pantalla) (w : Mundo) :
  let o := initializeAuth p w in
  let o' := checkAuth p w in
  res o = Ok tt /\ res o' = Ok tt
  /\ (atendida (guion w) = false \/ sesion (remoto w) = None ->
      ruta (est o) = "/auth/login" /\ estado (est o) = estado p
      /\ evs o = [EvPeticion GetSession]
      /\ ruta (est o') = "/auth/login" /\ isAuthenticated (estado (est o')) = false
      /\ evs o' = [EvPeticion GetSession])
  /\ (forall ses, atendida (guion w) = true -> sesion (remoto w) = Some ses ->
      o' = o /\ ruta (est o) = ruta p
      /\ (sinFallos (guion w) = true ->
          isAuthenticated (estado (est o)) = true
          /\ transactions (estado (est o)) ≡ₚ ingresosDe (session_user_id ses) (remoto w))).
Proof.
  unfold initializeAuth, checkAuth, tryCatch, bind, pedir, hacerGetSession, enEstado.
  simpl.
  destruct (guion w) as [|[e1|] g1] eqn:Eg; simpl;
    (destruct (sesion (remoto w)) as [ses0|] eqn:Es; simpl);
    try (split; [reflexivity|]; split; [reflexivity|];
         split; [intros _; repeat split|]; intros ses H1 H2; discriminate).
  - destruct (loadTransactions_no_lanza
                {| transactions := transactions (estado p); modalVisible := modalVisible (estado p);
                   amount := amount (estado p); category := category (estado p);
                   description := description (estado p); loading := loading (estado p);
                   isAuthenticated := true |}
                {| remoto := remoto w; guion := [] |}) as [P _].
    pose proof (X := loadTransactions_luego (ret tt)
                {| transactions := transactions (estado p); modalVisible := modalVisible (estado p);
                   amount := amount (estado p); category := category (estado p);
                   description := description (estado p); loading := loading (estado p);
                   isAuthenticated := true |}
                {| remoto := remoto w; guion := [] |} ses0 Es eq_refl).
    unfold bind in X.
    destruct (loadTransactions _ _) as [r s' w' e']. simpl in P. subst r. simpl in X |- *.
    split; [reflexivity|]. split; [reflexivity|].
    split; [intros [H|H]; discriminate H|].
    intros ses _ Hs. injection Hs as <-. split; [reflexivity|]. split; [reflexivity|].
    intros _. injection X as -> _ _. split; reflexivity.
  - destruct (loadTransactions_no_lanza
                {| transactions := transactions (estado p); modalVisible := modalVisible (estado p);
                   amount := amount (estado p); category := category (estado p);
                   description := description (estado p); loading := loading (estado p);
                   isAuthenticated := true |}
                {| remoto := remoto w; guion := g1 |}) as [P _].
    pose proof (X := fun H => loadTransactions_luego (ret tt)
                {| transactions := transactions (estado p); modalVisible := modalVisible (estado p);
                   amount := amount (estado p); category := category (estado p);
                   description := description (estado p); loading := loading (estado p);
                   isAuthenticated := true |}
                {| remoto := remoto w; guion := g1 |} ses0 Es H).
    unfold bind in X.
    destruct (loadTransactions _ _) as [r s' w' e']. simpl in P. subst r. simpl in X |- *.
    split; [reflexivity|]. split; [reflexivity|].
    split; [intros [H|H]; discriminate H|].
    intros ses _ Hs. injection Hs as <-. split; [reflexivity|]. split; [reflexivity|].
    intros Hg. specialize (X Hg). injection X as -> _ _. split; reflexivity.
Qed.

Lemma X20_guardia_de_sesion_witness :
  let o := initializeAuth {| estado := Ejemplos.pantallaIngreso ""; ruta := "/screens/income" |}
             {| remoto := Ejemplos.remotoVacio; guion := [] |} in
  ruta (est o) = "/auth/login" /\ Spec.peticiones (evs o) = [GetSession].
Proof.
  destruct (X20_guardia_de_sesion
              {| estado := Ejemplos.pantallaIngreso ""; ruta := "/screens/income" |}
              {| remoto := Ejemplos.remotoVacio; guion := [] |}) as (_ & _ & H & _).
  destruct H as (Hr & _ & Hv & _); [right; reflexivity|].
  cbv zeta. split; [exact Hr|]. rewrite Hv. reflexivity.
Defined.

Lemma incomesByCategory_fold (l : list Transaction) :
  incomesByCategory l = fold_left sumarIngreso l ∅.
Proof. reflexivity. Qed.

(** The entry of a category depends on the incomes of that category only. *)
Lemma sumarIngreso_local (k : string) (l : list Transaction) :
  forall acc acc' : gmap string number,
    acc !! k = acc' !! k ->
    fold_left sumarIngreso l acc !! k
    = fold_left sumarIngreso
        (List.filter (fun t => String.eqb (Supabase.category t) k) l) acc' !! k.
Proof.
  induction l as [|t r IH]; intros acc acc' H; simpl; [exact H|].
  destruct (String.eqb (Supabase.category t) k) eqn:E; simpl.
  - apply String.eqb_eq in E. apply IH. unfold sumarIngreso. rewrite E, H.
    destruct (acc' !! k) as [v|]; [destruct (verdadero v)|];
      rewrite !lookup_insert_eq; reflexivity.
  - apply String.eqb_neq in E. apply IH. unfold sumarIngreso.
    destruct (acc !! Supabase.category t) as [v|]; [destruct (verdadero v)|];
      rewrite lookup_insert_ne by exact E; exact H.
Qed.

(** A category has an entry only if one of the incomes has it. *)
Lemma sumarIngreso_claves (k : string) (l : list Transaction) :
  forall acc : gmap string number,
    is_Some (fold_left sumarIngreso l acc !! k) ->
    is_Some (acc !! k) \/ In k (List.map Supabase.category l).
Proof.
  induction l as [|t r IH]; intros acc H; simpl in *; [left; exact H|].
  destruct (IH _ H) as [H1|H1]; [|right; right; exact H1].
  destruct (String.eqb_spec (Supabase.category t) k) as [E|E]; [right; left; exact E|].
  left. unfold sumarIngreso in H1.
  destruct (acc !! Supabase.category t) as [v|]; [destruct (verdadero v)|];
    rewrite lookup_insert_ne in H1 by exact E; exact H1.
Qed.

Lemma filter_de_filter {A : Type} (f g : A -> bool) (l : list A) :
  (forall x, f x = true -> g x = true) ->
  List.filter f (List.filter g l) = List.filter f l.
Proof.
  intros H. induction l as [|x r IH]; simpl; [reflexivity|].
  destruct (g x) eqn:Eg; simpl.
  - rewrite IH. reflexivity.
  - destruct (f x) eqn:Ef; [|exact IH]. apply H in Ef. congruence.
Qed.

(** X21.  The cards of the header are those of Salario, Inversiones and
    Freelance, in that order, whatever the incomes.  Incomes of any other
    category (Otros among them) change no card: the cards computed from the
    month's incomes are those computed from the incomes whose category has a
    card.  A card whose category has no income in the list shows 0. *)
Theorem X21_tarjetas_de_tres_categorias (l : list Transaction) :
  List.map fst (tarjetas (incomesByCategory l)) = ["Salario"; "Inversiones"; "Freelance"]
  /\ tarjetas (incomesByCategory l) = tarjetas (incomesByCategory (List.filter enTarjeta l))
  /\ (forall cat x, In (cat, x) (tarjetas (incomesByCategory l)) ->
        ~ In cat (List.map Supabase.category l) -> x = 0%float).
Proof.
  split; [reflexivity|]. split.
  - assert (H : forall k, In k ["Salario"; "Inversiones"; "Freelance"] ->
                incomesByCategory l !! k = incomesByCategory (List.filter enTarjeta l) !! k).
    { intros k Hk. rewrite !incomesByCategory_fold.
      rewrite (sumarIngreso_local k l ∅ ∅ eq_refl).
      rewrite (sumarIngreso_local k (List.filter enTarjeta l) ∅ ∅ eq_refl).
      rewrite filter_de_filter; [reflexivity|].
      intros t Ht. apply String.eqb_eq in Ht. unfold enTarjeta. rewrite Ht.
      simpl in Hk. destruct Hk as [<-|[<-|[<-|[]]]]; reflexivity. }
    unfold tarjetas. simpl.
    rewrite !H by (simpl; tauto). reflexivity.
  - intros cat x Hin Hno. unfold tarjetas in Hin. simpl in Hin.
    assert (Hn : incomesByCategory l !! cat = None).
    { destruct (incomesByCategory l !! cat) as [v|] eqn:E; [|reflexivity].
      exfalso. rewrite incomesByCategory_fold in E.
      destruct (sumarIngreso_claves cat l ∅) as [H|H].
      - rewrite E. eexists. reflexivity.
      - rewrite lookup_empty in H. destruct H as [? H]. discriminate H.
      - exact (Hno H). }
    destruct Hin as [Hin|[Hin|[Hin|[]]]]; injection Hin as <- <-; rewrite Hn; reflexivity.
Qed.

Lemma X21_tarjetas_de_tres_categorias_witness :
  tarjetas (incomesByCategory
              [Ejemplos.sueldoJunio2024;
               {| tx_id := "d"; user_id := "u-10"; type_ := "income"; Supabase.amount := 30;
                  Supabase.category := "Otros"; Supabase.description := None;
                  date := "2024-06-02T09:00:00.000Z"; is_recurring := false;
                  recurring_frequency := None; status := "completed" |}])
  = tarjetas (incomesByCategory [Ejemplos.sueldoJunio2024]).
Proof.
  exact (proj1 (proj2 (X21_tarjetas_de_tres_categorias
           [Ejemplos.sueldoJunio2024;
            {| tx_id := "d"; user_id := "u-10"; type_ := "income"; Supabase.amount := 30;
               Supabase.category := "Otros"; Supabase.description := None;
               date := "2024-06-02T09:00:00.000Z"; is_recurring := false;
               recurring_frequency := None; status := "completed" |}]))).
Defined.

End IngresosMas.

(* ===================================================================== *)
(** * Part 21.  The category breakdown and its bars                       *)
(* ===================================================================== *)

Section Desglose.
Import Welcome WelcomeMas.
Local Open Scope list_scope.

Lemma porCategoria_fold (ts : list TransaccionConCategoria) :
  porCategoria ts = fold_left repartir ts ([], []).
Proof.
  unfold porCategoria. generalize (@nil (string * number), @nil (string * number)).
  induction ts as [|t r IH]; intros acc; simpl; [reflexivity|].
  destruct acc as [i e]. apply IH.
Qed.

Lemma asignar_presente (o : Objeto) (k : string) (v : number) :
  In k (claves o) -> claves (asignar o k v) = claves o.
Proof.
  induction o as [|[k' v'] r IH]; simpl; [intros []|].
  intros H. destruct (String.eqb_spec k' k) as [E|E]; [reflexivity|].
  simpl. f_equal. apply IH. destruct H as [H|H]; [contradiction|exact H].
Qed.

Lemma asignar_ausente (o : Objeto) (k : string) (v : number) :
  ~ In k (claves o) -> claves (asignar o k v) = claves o ++ [k].
Proof.
  induction o as [|[k' v'] r IH]; simpl; [reflexivity|].
  intros H. destruct (String.eqb_spec k' k) as [E|E]; [exfalso; apply H; left; exact E|].
  simpl. f_equal. apply IH. intros H'. apply H. right. exact H'.
Qed.

Lemma asignar_claves (o : Objeto) (k : string) (v : number) :
  (NoDup (claves o) -> NoDup (claves (asignar o k v)))
  /\ (forall c, In c (claves (asignar o k v)) <-> c = k \/ In c (claves o)).
Proof.
  destruct (in_dec string_dec k (claves o)) as [H|H].
  - rewrite (asignar_presente o k v H). split; [tauto|].
    intros c. split; [tauto|]. intros [->|H']; assumption.
  - rewrite (asignar_ausente o k v H). split.
    + intros Hn. apply NoDup_app. split; [exact Hn|]. split; [|apply NoDup_singleton].
      intros x Hx Hk. apply list_elem_of_singleton in Hk. subst x.
      apply list_elem_of_In in Hx. exact (H Hx).
    + intros c. rewrite in_app_iff. simpl. split.
      * intros [H'|[<-|[]]]; tauto.
      * intros [->|H']; tauto.
Qed.

(** The keys of the two dictionaries after the [forEach]: no key twice, and
    the keys are those already there and the category names of the
    transactions of each kind. *)
Lemma repartir_claves (ts : list TransaccionConCategoria) :
  forall oi oe : Objeto,
    let r := fold_left repartir ts (oi, oe) in
    (NoDup (claves oi) -> NoDup (claves (fst r)))
    /\ (NoDup (claves oe) -> NoDup (claves (snd r)))
    /\ (forall c, In c (claves (fst r))
          <-> In c (claves oi)
              \/ exists t, In t ts /\ tipo t = "ingreso" /\ c_nombre (Supabase.categorias t) = c)
    /\ (forall c, In c (claves (snd r))
          <-> In c (claves oe)
              \/ exists t, In t ts /\ tipo t <> "ingreso" /\ c_nombre (Supabase.categorias t) = c).
Proof.
  induction ts as [|t r IH]; intros oi oe; simpl.
  - repeat split; try tauto; intros [H|(t & [] & _)]; exact H.
  - destruct (String.eqb_spec (tipo t) "ingreso") as [E|E].
    + specialize (IH (acumular oi (c_nombre (Supabase.categorias t)) (Supabase.monto t)) oe).
      cbv zeta in IH. destruct IH as (N1 & N2 & K1 & K2).
      unfold acumular in *.
      destruct (asignar_claves oi (c_nombre (Supabase.categorias t))
                  (oCero (obtener oi (c_nombre (Supabase.categorias t))) + Supabase.monto t)%float)
        as [A1 A2].
      split; [intros H; apply N1, A1, H|]. split; [exact N2|]. split.
      * intros c. rewrite K1, A2. split.
        -- intros [[->|H]|(t' & Ht & Hk & Hc)].
           ++ right. exists t. split; [left; reflexivity|]. split; [exact E|reflexivity].
           ++ left. exact H.
           ++ right. exists t'. split; [right; exact Ht|]. split; assumption.
        -- intros [H|(t' & [<-|Ht] & Hk & Hc)].
           ++ left. right. exact H.
           ++ left. left. symmetry. exact Hc.
           ++ right. exists t'. split; [exact Ht|]. split; assumption.
      * intros c. rewrite K2. split.
        -- intros [H|(t' & Ht & Hk & Hc)]; [left; exact H|].
           right. exists t'. split; [right; exact Ht|]. split; assumption.
        -- intros [H|(t' & [<-|Ht] & Hk & Hc)]; [left; exact H|contradiction|].
           right. exists t'. split; [exact Ht|]. split; assumption.
    + specialize (IH oi (acumular oe (c_nombre (Supabase.categorias t)) (Supabase.monto t))).
      cbv zeta in IH. destruct IH as (N1 & N2 & K1 & K2).
      unfold acumular in *.
      destruct (asignar_claves oe (c_nombre (Supabase.categorias t))
                  (oCero (obtener oe (c_nombre (Supabase.categorias t))) + Supabase.monto t)%float)
        as [A1 A2].
      split; [exact N1|]. split; [intros H; apply N2, A1, H|]. split.
      * intros c. rewrite K1. split.
        -- intros [H|(t' & Ht & Hk & Hc)]; [left; exact H|].
           right. exists t'. split; [right; exact Ht|]. split; assumption.
        -- intros [H|(t' & [<-|Ht] & Hk & Hc)]; [left; exact H|contradiction|].
           right. exists t'. split; [exact Ht|]. split; assumption.
      * intros c. rewrite K2, A2. split.
        -- intros [[->|H]|(t' & Ht & Hk & Hc)].
           ++ right. exists t. split; [left; reflexivity|]. split; [exact E|reflexivity].
           ++ left. exact H.
           ++ right. exists t'. split; [right; exact Ht|]. split; assumption.
        -- intros [H|(t' & [<-|Ht] & Hk & Hc)].
           ++ left. right. exact H.
           ++ left. left. symmetry. exact Hc.
           ++ right. exists t'. split; [exact Ht|]. split; assumption.
Qed.

Lemma insertarIndice_perm (e : string * number) (l : list (string * number)) :
  insertarIndice e l ≡ₚ e :: l.
Proof.
  induction l as [|e' r IH]; simpl; [reflexivity|].
  match goal with |- context [if ?b then _ else _] => destruct b end; [reflexivity|].
  rewrite IH. apply perm_swap.
Qed.

Lemma filter_particion {A : Type} (f : A -> bool) (l : list A) :
  List.filter f l ++ List.filter (fun x => negb (f x)) l ≡ₚ l.
Proof.
  induction l as [|x r IH]; simpl; [reflexivity|].
  destruct (f x); simpl.
  - rewrite IH. reflexivity.
  - rewrite <- Permutation_middle. rewrite IH. reflexivity.
Qed.

(** [Object.entries] lists every own entry once. *)
Lemma entries_perm (o : Objeto) : entries o ≡ₚ o.
Proof.
  unfold entries.
  assert (H : forall l, fold_right insertarIndice [] l ≡ₚ l).
  { induction l as [|e r IH]; simpl; [reflexivity|].
    rewrite insertarIndice_perm, IH. reflexivity. }
  rewrite H. apply filter_particion.
Qed.

Lemma aDatos_categorias (colores : list string) (o : Objeto) :
  List.map categoria (aDatos colores o) = claves (entries o).
Proof.
  assert (H : forall (l : list (string * number)) (f : nat -> string * number -> Dato),
             (forall i x, categoria (f i x) = fst x) ->
             List.map categoria (imap f l) = List.map fst l).
  { induction l as [|x r IH]; intros f Hf; [reflexivity|].
    rewrite imap_cons. simpl. rewrite Hf. f_equal.
    apply IH. intros i y. apply Hf. }
  unfold aDatos, claves. apply H. intros i [c m]. reflexivity.
Qed.

(** X22.  The two breakdowns of [procesarTransacciones], for transactions
    none of whose category names is the name of a property inherited from
    [Object.prototype].  No category appears twice in a breakdown; the
    categories of the income breakdown are exactly the category names of
    the transactions whose kind is "ingreso", and those of the expense
    breakdown exactly the names of all the other transactions, whatever
    their kind. *)
Theorem X22_desglose_por_categoria (ts : list TransaccionConCategoria) :
  Forall (fun t => esHeredado (c_nombre (Supabase.categorias t)) = false) ts ->
  let ingresos := List.map categoria (fst (procesarTransacciones ts)) in
  let egresos := List.map categoria (snd (procesarTransacciones ts)) in
  NoDup ingresos /\ NoDup egresos
  /\ (forall c, In c ingresos
        <-> exists t, In t ts /\ tipo t = "ingreso" /\ c_nombre (Supabase.categorias t) = c)
  /\ (forall c, In c egresos
        <-> exists t, In t ts /\ tipo t <> "ingreso" /\ c_nombre (Supabase.categorias t) = c).
Proof.
  intros _. cbv zeta.
  assert (E : procesarTransacciones ts
              = (aDatos coloresIngresos (fst (fold_left repartir ts ([], []))),
                 aDatos coloresEgresos (snd (fold_left repartir ts ([], []))))).
  { unfold procesarTransacciones. rewrite porCategoria_fold.
    destruct (fold_left repartir ts _); reflexivity. }
  rewrite E. cbn [fst snd]. rewrite !aDatos_categorias.
  destruct (repartir_claves ts [] []) as (N1 & N2 & K1 & K2).
  pose proof (Permutation_map fst (entries_perm (fst (fold_left repartir ts ([], []))))) as Pi.
  pose proof (Permutation_map fst (entries_perm (snd (fold_left repartir ts ([], []))))) as Pe.
  split; [unfold claves; rewrite Pi; apply N1, NoDup_nil_2|].
  split; [unfold claves; rewrite Pe; apply N2, NoDup_nil_2|].
  split; intros c.
  - split.
    + intros H. apply (Permutation_in _ Pi) in H. apply K1 in H.
      destruct H as [[]|H]. exact H.
    + intros H. apply (Permutation_in _ (Permutation_sym Pi)). apply K1. right. exact H.
  - split.
    + intros H. apply (Permutation_in _ Pe) in H. apply K2 in H.
      destruct H as [[]|H]. exact H.
    + intros H. apply (Permutation_in _ (Permutation_sym Pe)). apply K2. right. exact H.
Qed.

Lemma X22_desglose_por_categoria_witness :
  List.map categoria (fst (procesarTransacciones [Ejemplos.cobro; Ejemplos.almuerzo; Ejemplos.ajuste]))
  = ["Salario"]
  /\ NoDup (List.map categoria
              (snd (procesarTransacciones [Ejemplos.cobro; Ejemplos.almuerzo; Ejemplos.ajuste]))).
Proof.
  split; [reflexivity|].
  apply (X22_desglose_por_categoria [Ejemplos.cobro; Ejemplos.almuerzo; Ejemplos.ajuste]).
  repeat constructor.
Defined.


Lemma insertar_perm (x : Dato) (l : list Dato) : insertar x l ≡ₚ x :: l.
Proof.
  induction l as [|y r IH]; simpl; [reflexivity|].
  destruct (vaAntes x y); [reflexivity|].
  rewrite IH. apply perm_swap.
Qed.

(** Sorting loses and adds nothing. *)
Lemma ordenar_perm (datos : list Dato) : ordenar datos ≡ₚ datos.
Proof.
  unfold ordenar.
  assert (H : forall l acc, fold_left (fun acc x => insertar x acc) l acc ≡ₚ acc ++ l).
  { induction l as [|x r IH]; intros acc; simpl; [rewrite app_nil_r; reflexivity|].
    rewrite IH, insertar_perm. rewrite <- Permutation_middle. reflexivity. }
  exact (H datos []).
Qed.

(** X23.  The bars of the chart.  There are as many bars as entries, but
    never more than six.  With six entries or fewer the bars are the
    entries, reordered.  With more, the first five bars are entries, and the
    sixth, labelled "Otros", carries the sum of all the remaining ones: no
    entry is dropped and none is counted twice. *)
Theorem X23_barras_del_grafico (datos : list Dato) :
  List.length (agruparDatos datos) = Nat.min 6 (List.length datos)
  /\ ((List.length datos <= 6)%nat -> agruparDatos datos ≡ₚ datos)
  /\ ((6 < List.length datos)%nat ->
      exists principales otros,
        principales ++ otros ≡ₚ datos
        /\ List.length principales = 5%nat
        /\ agruparDatos datos = principales ++ [barraOtros otros]).
Proof.
  pose proof (Permutation_length (ordenar_perm datos)) as Hl.
  unfold agruparDatos. rewrite Hl.
  destruct (Nat.ltb_spec (Nat.min 6 (List.length datos)) (List.length datos)) as [H|H].
  - assert (H6 : (6 < List.length datos)%nat) by lia.
    replace (Nat.min 6 (List.length datos)) with 6%nat by lia.
    split; [|split].
    + rewrite length_app, length_firstn, Hl. cbn [List.length]. lia.
    + intros H'. lia.
    + intros _. exists (firstn 5 (ordenar datos)), (skipn 5 (ordenar datos)).
      split; [rewrite List.firstn_skipn; apply ordenar_perm|].
      split; [rewrite length_firstn, Hl; lia|reflexivity].
  - split; [rewrite Hl; lia|]. split; [intros _; apply ordenar_perm|intros H'; lia].
Qed.

Lemma X23_barras_del_grafico_witness :
  agruparDatos (fst (procesarTransacciones [Ejemplos.cobro; Ejemplos.almuerzo]))
  ≡ₚ fst (procesarTransacciones [Ejemplos.cobro; Ejemplos.almuerzo]).
Proof.
  apply (proj1 (proj2 (X23_barras_del_grafico
                  (fst (procesarTransacciones [Ejemplos.cobro; Ejemplos.almuerzo]))))).
  vm_compute. lia.
Defined.

End Desglose.
